(** * CodeLens: the static analyzer and the sandboxed code executor

    A shallow embedding of [backend/analyzers/static_analyzer.py] and
    [backend/executors/code_executor.py], with the properties the
    specification states about them, and of what stands around them in a
    request: the detection of the language, the rate limiter, the cache of
    results and the metrics the request handler builds.

    Python data is kept as the code has it:
    - a [str] is a sequence of Unicode code points, so that [len], slicing
      and [strip] count what Python counts;
    - [bytes] is a sequence of bytes, and [bytes.decode('utf-8',
      errors='ignore')] is the decoder that drops every byte that is not
      part of a well-formed UTF-8 sequence;
    - a [dict] with string keys is a finite map from keys to Python values;
    - an exception is a value; a function that may raise returns either a
      value or the exception, and [try]/[except] is a combinator.

    Library calls whose result the code only consumes (the regular
    expression engine, [ast.parse], the child processes, [pylint], the
    remote compiler) are parameters of the model, and so is the room the
    interpreter has left for recursion: every theorem holds whatever they
    are. *)

From Stdlib Require Import ZArith QArith List String Ascii.
From Stdlib Require Import Lqa.
From Stdlib.Strings Require Import Byte.
From stdpp Require Import gmap strings list fin_maps pretty.

Local Open Scope string_scope.
Local Open Scope list_scope.
Local Open Scope Z_scope.

#[local] Set Warnings "-register-all".

(** ** Python strings *)

Module Py.

(** A Python [str]: its code points. *)
Abbreviation str := (list N).

(** A Python [bytes] object. *)
Abbreviation bytes := (list byte).

(** A string literal of the source; the sources are ASCII. *)
Definition lit (s : string) : str :=
  (λ a : ascii, N_of_ascii a) <$> list_ascii_of_string s.

(** [str.isspace] for one code point (the table of
    [_PyUnicode_IsWhitespace]). *)
Definition is_space (c : N) : bool :=
  ((9 <=? c) && (c <=? 13) || (28 <=? c) && (c <=? 32)
   || (c =? 133) || (c =? 160) || (c =? 5760)
   || (8192 <=? c) && (c <=? 8202)
   || (c =? 8232) || (c =? 8233) || (c =? 8239) || (c =? 8287)
   || (c =? 12288))%N.

Fixpoint lstrip (s : str) : str :=
  match s with
  | c :: s' => if is_space c then lstrip s' else s
  | [] => []
  end.

Definition rstrip (s : str) : str := reverse (lstrip (reverse s)).

(** [s.strip()] *)
Definition strip (s : str) : str := rstrip (lstrip s).

(** [s.split(sep)] for a one-character separator: at least one piece. *)
Fixpoint split (sep : N) (s : str) : list str :=
  match s with
  | [] => [[]]
  | c :: s' =>
      if (c =? sep)%N then [] :: split sep s'
      else match split sep s' with
           | l :: ls => (c :: l) :: ls
           | [] => [[c]]
           end
  end.

Definition newline : N := 10%N.

(** [s.startswith(p)] *)
Fixpoint startswith (p s : str) : bool :=
  match p, s with
  | [], _ => true
  | a :: p', b :: s' => (a =? b)%N && startswith p' s'
  | _ :: _, [] => false
  end.

(** [s.endswith(p)] *)
Definition endswith (p s : str) : bool := startswith (reverse p) (reverse s).

(** [sub in s] *)
Fixpoint contains (sub s : str) : bool :=
  startswith sub s ||
  match s with
  | [] => false
  | _ :: s' => contains sub s'
  end.

(** [s.count(c)] for a one-character [c]. *)
Definition count_char (c : N) (s : str) : nat :=
  length (filter (λ x, x = c) s).

(** [sep.join(l)] *)
Fixpoint join (sep : str) (l : list str) : str :=
  match l with
  | [] => []
  | [x] => x
  | x :: l' => x ++ sep ++ join sep l'
  end.

(** [s[:n]] for any integer [n]: a negative bound counts from the end. *)
Definition slice_to (n : Z) (s : str) : str :=
  if 0 <=? n then take (Z.to_nat n) s
  else take (length s - Z.to_nat (- n)) s.

(** [s.replace(old, new)] for a non-empty [old]: the occurrences are found
    from the left and do not overlap. [skip] counts the characters of the
    occurrence just replaced that are still to be passed over. *)
Fixpoint replace_from (old new : str) (skip : nat) (s : str) : str :=
  match s with
  | [] => []
  | c :: s' =>
      match skip with
      | S k => replace_from old new k s'
      | O => if startswith old s
             then new ++ replace_from old new (length old - 1) s'
             else c :: replace_from old new 0 s'
      end
  end.

Definition replace (old new s : str) : str := replace_from old new 0 s.

(** [str(n)] for an integer. *)
Definition str_of_Z (n : Z) : str := lit (pretty n).

(** [any(c is a surrogate)]: such a [str] has no UTF-8 encoding, and
    writing it to a file opened with [encoding='utf-8'] raises
    [UnicodeEncodeError]. *)
Definition is_surrogate (c : N) : bool := ((55296 <=? c) && (c <=? 57343))%N.

Definition encodable (s : str) : bool := forallb (λ c, negb (is_surrogate c)) s.

(** *** [bytes.decode('utf-8', errors='ignore')] *)

Definition is_cont (b : N) : bool := ((128 <=? b) && (b <=? 191))%N.

Definition in_range (lo hi b : N) : bool := ((lo <=? b) && (b <=? hi))%N.

(** The well-formed sequence that starts the input, if there is one: its
    code point and its length (Unicode, table 3-7). *)
Definition utf8_head (bs : list N) : option (N * nat) :=
  match bs with
  | [] => None
  | b0 :: r0 =>
      if (b0 <? 128)%N then Some (b0, 1%nat)
      else if in_range 194 223 b0 then
        match r0 with
        | b1 :: _ =>
            if is_cont b1 then Some (((b0 - 192) * 64 + (b1 - 128))%N, 2%nat)
            else None
        | _ => None
        end
      else if in_range 224 239 b0 then
        match r0 with
        | b1 :: b2 :: _ =>
            if in_range (if (b0 =? 224)%N then 160 else 128)
                        (if (b0 =? 237)%N then 159 else 191) b1
               && is_cont b2
            then Some (((b0 - 224) * 4096 + (b1 - 128) * 64 + (b2 - 128))%N,
                       3%nat)
            else None
        | _ => None
        end
      else if in_range 240 244 b0 then
        match r0 with
        | b1 :: b2 :: b3 :: _ =>
            if in_range (if (b0 =? 240)%N then 144 else 128)
                        (if (b0 =? 244)%N then 143 else 191) b1
               && is_cont b2 && is_cont b3
            then Some (((b0 - 240) * 262144 + (b1 - 128) * 4096
                        + (b2 - 128) * 64 + (b3 - 128))%N, 4%nat)
            else None
        | _ => None
        end
      else None
  end.

(** With [errors='ignore'] a byte that starts no well-formed sequence is
    dropped and decoding resumes at the next byte. (CPython drops the whole
    ill-formed prefix at once; the bytes after its first are continuation
    bytes, which start no sequence, so the outcome is the same.) *)
Fixpoint decode_from (skip : nat) (bs : list N) : str :=
  match bs with
  | [] => []
  | _ :: bs' =>
      match skip with
      | S k => decode_from k bs'
      | O => match utf8_head bs with
             | Some (c, n) => c :: decode_from (n - 1) bs'
             | None => decode_from 0 bs'
             end
      end
  end.

Definition decode (b : bytes) : str := decode_from 0 (Byte.to_N <$> b).

(** Universal newlines, as a text-mode pipe reads them: ["\r\n"] and a lone
    ["\r"] become ["\n"]. *)
Fixpoint universal_newlines (s : str) : str :=
  match s with
  | [] => []
  | c :: s' =>
      if (c =? 13)%N then
        match s' with
        | d :: _ => if (d =? 10)%N then universal_newlines s'
                    else newline :: universal_newlines s'
        | [] => [newline]
        end
      else c :: universal_newlines s'
  end.

(** *** Python values *)

Inductive pyval :=
| VNone
| VBool (b : bool)
| VInt (n : Z)
| VFloat (q : Q)
| VStr (s : str)
| VList (l : list pyval)
| VDict (d : gmap string pyval).

Abbreviation dict := (gmap string pyval).

(** Truth value of a [str], [bytes] or [list] object. *)
Definition truthy {A} (s : list A) : bool :=
  match s with [] => false | _ => true end.

(** [len(x)] as a Python integer. *)
Definition len {A} (l : list A) : Z := Z.of_nat (length l).

(** [round(x, 3)], on rationals: to the nearest thousandth, ties to even. *)
Definition round3 (q : Q) : Q :=
  let n := Qnum q * 1000 in
  let d := Z.pos (Qden q) in
  let f := n / d in
  let r := n mod d in
  let up := if 2 * r <? d then false
            else if d <? 2 * r then true
            else Z.odd f in
  Qmake (if up then f + 1 else f) 1000.

(** *** Exceptions *)

(** The subclasses of [Exception] that the code tells apart, and all the
    others. *)
Inductive exn :=
| SyntaxError (lineno : option Z) (msg : str)
| FileNotFoundError (msg : str)
| TimeoutError                      (* asyncio.TimeoutError *)
| TimeoutExpired                    (* subprocess.TimeoutExpired *)
| UnicodeEncodeError (msg : str)
| OtherException (msg : str).

(** [str(e)] *)
Definition exn_str (e : exn) : str :=
  match e with
  | SyntaxError _ msg | FileNotFoundError msg
  | UnicodeEncodeError msg | OtherException msg => msg
  | TimeoutError => []
  | TimeoutExpired => lit "Command timed out"
  end.

Inductive result (A : Type) :=
| Ok (a : A)
| Raise (e : exn).
Arguments Ok {A} a.
Arguments Raise {A} e.

(** The regular-expression engine, for the patterns of the source. *)
Record regex := {
  (** [len(re.findall(pattern, s))], with [re.DOTALL] when [dotall] *)
  findall_len : string → bool → str → Z;
  (** [bool(re.search(pattern, s))] *)
  search : string → bool → str → bool;
  (** [re.search(pattern, s).group(1)], or nothing when there is no match *)
  search_group1 : string → str → option str;
}.

End Py.


(** ** The sandboxed executor ([code_executor.py]) *)

Module Executor.
Import Py.

(** *** The host *)

(** What launching a command does: the executable is missing, launching
    fails otherwise, or the process runs. A process that runs ends with an
    exit status and what it wrote; [in_time] tells whether it ends within
    the executor's timeout, and [creates] lists the files it leaves on disk
    (the outputs of a compiler). *)
Inductive proc_result :=
| NotFound
| SpawnError (msg : str)
| Exits (stdout stderr : bytes) (returncode : Z) (in_time : bool)
        (creates : list str).

(** The answer of the remote execution service to the POST request. *)
Inductive piston_result :=
| PistonRaises (msg : str)
| PistonResponse (status_code : Z) (run_output run_stderr : option str)
                 (run_code : option Z).

Record world := {
  (** [platform.system() == 'Windows'] *)
  windows : bool;
  sys_executable : str;
  (** the fresh path [tempfile] picks, before the suffix *)
  tmp : str;
  (** [time.time() - start_time], read once the run is over *)
  elapsed : Q;
  (** launching [argv] in working directory [cwd] *)
  proc : list str → option str → proc_result;
  (** whether [import httpx] succeeds *)
  httpx_installed : bool;
  piston : piston_result;
}.

(** What a call changes outside the process: the files on disk and the
    child processes launched and killed. *)
Record state := {
  files : gset str;
  spawned : list (list str);
  killed : list (list str);
}.

Definition set_files (f : gset str → gset str) (st : state) : state :=
  {| files := f (files st); spawned := spawned st; killed := killed st |}.

(** *** Computations that change the state and may raise *)

Definition M (A : Type) : Type := state → result A * state.

Definition ret {A} (a : A) : M A := λ st, (Ok a, st).

Definition raise {A} (e : exn) : M A := λ st, (Raise e, st).

Definition bind {A B} (m : M A) (k : A → M B) : M B :=
  λ st, match m st with
        | (Ok a, st') => k a st'
        | (Raise e, st') => (Raise e, st')
        end.

(** [try: body  except ... as e: handler e] *)
Definition try_except {A} (body : M A) (handler : exn → M A) : M A :=
  λ st, match body st with
        | (Ok a, st') => (Ok a, st')
        | (Raise e, st') => handler e st'
        end.

(** [try: body  finally: fin] *)
Definition try_finally {A} (body : M A) (fin : M unit) : M A :=
  λ st, match body st with
        | (r, st') =>
            match fin st' with
            | (Ok _, st'') => (r, st'')
            | (Raise e, st'') => (Raise e, st'')
            end
        end.

(** Both outcomes of a computation, as a value. *)
Definition attempt {A} (m : M A) : M (result A) :=
  λ st, match m st with (r, st') => (Ok r, st') end.

Declare Scope py_scope.
Delimit Scope py_scope with py.
Notation "x <- m ;; k" := (bind m (λ x, k))
  (at level 100, m at next level, right associativity) : py_scope.
Notation "m ;; k" := (bind m (λ _, k))
  (at level 100, right associativity) : py_scope.
Local Open Scope py_scope.

(** *** The executor object *)

Record CodeExecutor := {
  timeout : Z;
  max_output_length : Z;
}.

(** [CodeExecutor.__init__] *)
Definition __init__ : CodeExecutor :=
  {| timeout := 5; max_output_length := 10000 |}.

(** The global executor instance. *)
Definition code_executor : CodeExecutor := __init__.

(** The dictionary every path returns. *)
Definition result_dict (output error : str) (execution_time : pyval)
    (success : bool) : dict :=
  {[ "output" := VStr output; "error" := VStr error;
     "execution_time" := execution_time; "success" := VBool success ]}.

(** The dictionary the [_run_*_subprocess] helpers return. *)
Record run_info := {
  output : str;
  error : str;
  returncode : Z;
}.

(** A launched child process. *)
Record process := {
  p_argv : list str;
  p_stdout : bytes;
  p_stderr : bytes;
  p_returncode : Z;
  p_in_time : bool;
}.

(** [x.strip() if x else ""] *)
Definition strip_if (x : str) : str := if truthy x then strip x else [].

Section Host.
Context (re : regex) (w : world).

Definition os_sep : str := if windows w then lit "\" else lit "/".

(** [os.path.join(a, b)] for a relative [b]. *)
Definition path_join (a b : str) : str := a ++ os_sep ++ b.

(** [p] is directory [d] or lies below it. *)
Definition below (d p : str) : bool :=
  bool_decide (p = d) || startswith (d ++ os_sep) p.

(** [with tempfile.NamedTemporaryFile(mode='w', suffix=suffix, delete=False,
    encoding='utf-8') as f: f.write(code); name = f.name]. The file exists
    from the moment it is opened; the write raises when [code] cannot be
    encoded, and the file stays, for [delete=False]. *)
Definition write_temp (suffix code : str) : M str :=
  λ st, let name := tmp w ++ suffix in
        let st' := set_files (λ fs, {[name]} ∪ fs) st in
        if encodable code then (Ok name, st')
        else (Raise (UnicodeEncodeError
                       (lit "'utf-8' codec can't encode: surrogates not allowed")),
              st').

(** [tempfile.mkdtemp()] *)
Definition mkdtemp : M str :=
  λ st, (Ok (tmp w), set_files (λ fs, {[tmp w]} ∪ fs) st).

(** [with open(path, 'w', encoding='utf-8') as f: f.write(code)] *)
Definition write_file (path code : str) : M unit :=
  λ st, let st' := set_files (λ fs, {[path]} ∪ fs) st in
        if encodable code then (Ok tt, st')
        else (Raise (UnicodeEncodeError
                       (lit "'utf-8' codec can't encode: surrogates not allowed")),
              st').

(** [os.path.exists(p)] *)
Definition os_path_exists (p : str) : M bool :=
  λ st, (Ok (bool_decide (p ∈ files st)), st).

(** [os.unlink(p)] *)
Definition os_unlink (p : str) : M unit :=
  λ st, if bool_decide (p ∈ files st)
        then (Ok tt, set_files (λ fs, fs ∖ {[p]}) st)
        else (Raise (FileNotFoundError (lit "No such file or directory")), st).

(** [shutil.rmtree(d)] *)
Definition shutil_rmtree (d : str) : M unit :=
  λ st, if bool_decide (d ∈ files st)
        then (Ok tt, set_files (filter (λ p, ¬ below d p)) st)
        else (Raise (FileNotFoundError (lit "No such file or directory")), st).

(** [if f and os.path.exists(f): os.unlink(f)], for a variable [f] that is
    [None] until it is assigned. *)
Definition unlink_if_exists (f : option str) : M unit :=
  match f with
  | Some p =>
      if truthy p then
        e <- os_path_exists p ;;
        if e then os_unlink p else ret tt
      else ret tt
  | None => ret tt
  end.

(** The same inside [try: ... except: pass]. *)
Definition unlink_quietly (f : option str) : M unit :=
  match f with
  | Some p =>
      if truthy p then
        e <- os_path_exists p ;;
        if e then try_except (os_unlink p) (λ _, ret tt) else ret tt
      else ret tt
  | None => ret tt
  end.

(** [await asyncio.create_subprocess_exec(argv..., stdout=PIPE, stderr=PIPE,
    cwd=cwd)] *)
Definition create_subprocess_exec (argv : list str) (cwd : option str)
    : M process :=
  λ st, match proc w argv cwd with
        | NotFound =>
            (Raise (FileNotFoundError (lit "No such file or directory")), st)
        | SpawnError msg => (Raise (OtherException msg), st)
        | Exits out err rc it cr =>
            (Ok {| p_argv := argv; p_stdout := out; p_stderr := err;
                   p_returncode := rc; p_in_time := it |},
             {| files := list_to_set cr ∪ files st;
                spawned := argv :: spawned st;
                killed := killed st |})
        end.

(** [await process.communicate()]: waits for the process to end. *)
Definition communicate (p : process) : M (bytes * bytes) :=
  ret (p_stdout p, p_stderr p).

(** [await asyncio.wait_for(process.communicate(), timeout=...)] *)
Definition wait_for_communicate (p : process) : M (bytes * bytes) :=
  if p_in_time p then ret (p_stdout p, p_stderr p) else raise TimeoutError.

(** [process.kill()] *)
Definition kill (p : process) : M unit :=
  λ st, (Ok tt, {| files := files st; spawned := spawned st;
                   killed := p_argv p :: killed st |}).

(** [subprocess.run(argv, capture_output=True, text=True, timeout=...,
    encoding='utf-8', errors='ignore', cwd=cwd)]: the captured streams,
    decoded, and the exit status; on a timeout the child is killed and
    [TimeoutExpired] is raised. *)
Definition subprocess_run (argv : list str) (cwd : option str)
    : M (str * str * Z) :=
  p <- create_subprocess_exec argv cwd ;;
  if p_in_time p
  then ret (universal_newlines (decode (p_stdout p)),
            universal_newlines (decode (p_stderr p)), p_returncode p)
  else (kill p ;; raise TimeoutExpired).

Variable self : CodeExecutor.

(** [f'Execution timeout ({self.timeout}s exceeded)'] *)
Definition timeout_message : str :=
  lit "Execution timeout (" ++ str_of_Z (timeout self) ++ lit "s exceeded)".

(** The handlers shared by the [_run_*_subprocess] helpers. *)
Definition timeout_info : run_info :=
  {| output := []; error := timeout_message; returncode := 1 |}.

Definition error_info (e : exn) : run_info :=
  {| output := []; error := lit "Execution error: " ++ exn_str e;
     returncode := 1 |}.

Definition not_found_info (msg : string) : run_info :=
  {| output := []; error := lit msg; returncode := 1 |}.

Definition capped_info (r : str * str * Z) : run_info :=
  {| output := slice_to (max_output_length self) r.1.1;
     error := slice_to (max_output_length self) r.1.2;
     returncode := r.2 |}.

Definition compilation_error (stderr : str) : str :=
  lit "Compilation error:" ++ [newline] ++ stderr.

Definition _run_python_subprocess (python_exe script_path : str) : M run_info :=
  try_except
    (r <- subprocess_run [python_exe; script_path] None ;;
     ret (capped_info r))
    (λ e, match e with
          | TimeoutExpired => ret timeout_info
          | _ => ret (error_info e)
          end).

Definition _run_node_subprocess (script_path : str) : M run_info :=
  try_except
    (r <- subprocess_run [lit "node"; script_path] None ;;
     ret (capped_info r))
    (λ e, match e with
          | TimeoutExpired => ret timeout_info
          | FileNotFoundError _ =>
              ret (not_found_info "Node.js not found. Please install Node.js.")
          | _ => ret (error_info e)
          end).

Definition _run_java_subprocess (java_file class_name temp_dir : str)
    : M run_info :=
  try_except
    (c <- subprocess_run [lit "javac"; java_file] (Some temp_dir) ;;
     if negb (c.2 =? 0)
     then ret {| output := []; error := compilation_error c.1.2;
                 returncode := 1 |}
     else
       r <- subprocess_run [lit "java"; class_name] (Some temp_dir) ;;
       ret (capped_info r))
    (λ e, match e with
          | TimeoutExpired => ret timeout_info
          | FileNotFoundError _ =>
              ret (not_found_info "Java compiler not found. Please install JDK.")
          | _ => ret (error_info e)
          end).

Definition _run_cpp_subprocess (source_file exe_file : str) : M run_info :=
  try_except
    (c <- subprocess_run [lit "g++"; source_file; lit "-o"; exe_file] None ;;
     if negb (c.2 =? 0)
     then ret {| output := []; error := compilation_error c.1.2;
                 returncode := 1 |}
     else
       r <- subprocess_run [exe_file] None ;;
       ret (capped_info r))
    (λ e, match e with
          | TimeoutExpired => ret timeout_info
          | FileNotFoundError _ =>
              ret (not_found_info "C++ compiler not found. Please install g++.")
          | _ => ret (error_info e)
          end).

(** The result built from what a [_run_*_subprocess] helper returned. *)
Definition result_of_info (r : run_info) : dict :=
  result_dict (strip_if (output r)) (strip_if (error r))
    (VFloat (round3 (elapsed w)))
    ((returncode r =? 0) && negb (truthy (error r))).

(** The result of the [asyncio.TimeoutError] branches. *)
Definition timeout_result : dict :=
  result_dict [] timeout_message (VInt (timeout self)) false.

(** The result of the [except Exception as e] branches. *)
Definition error_result (e : exn) : dict :=
  result_dict [] (lit "Execution error: " ++ exn_str e) (VFloat (elapsed w))
    false.

(** [stdout.decode('utf-8', errors='ignore')[:self.max_output_length]] *)
Definition capped (b : bytes) : str :=
  slice_to (max_output_length self) (decode b).

(** [_execute_python]. The variable [temp_file] is [None] until the
    [with] block has written the code, so the handler of an exception
    raised inside that block sees [None]. *)
Definition _execute_python (code : str) : M dict :=
  let on_exception (temp_file : option str) (e : exn) : M dict :=
    unlink_quietly temp_file ;;
    ret (error_result e) in
  written <- attempt (write_temp (lit ".py") code) ;;
  match written with
  | Raise e => on_exception None e
  | Ok temp_file =>
      try_except
        (if windows w then
           result <- _run_python_subprocess (sys_executable w) temp_file ;;
           unlink_if_exists (Some temp_file) ;;
           ret (result_of_info result)
         else
           process <- create_subprocess_exec [sys_executable w; temp_file] None ;;
           try_except
             (so <- wait_for_communicate process ;;
              let output := capped so.1 in
              let error := capped so.2 in
              unlink_if_exists (Some temp_file) ;;
              ret (result_dict (strip_if output) (strip_if error)
                     (VFloat (round3 (elapsed w)))
                     ((p_returncode process =? 0) && negb (truthy error))))
             (λ e, match e with
                   | TimeoutError =>
                       kill process ;;
                       unlink_if_exists (Some temp_file) ;;
                       ret timeout_result
                   | _ => raise e
                   end))
        (on_exception (Some temp_file))
  end.

(** [_execute_javascript] *)
Definition _execute_javascript (code : str) : M dict :=
  let on_exception (temp_file : option str) (e : exn) : M dict :=
    match e with
    | FileNotFoundError _ =>
        unlink_if_exists temp_file ;;
        ret (result_dict []
               (lit "Node.js not found. Please install Node.js to execute JavaScript code.")
               (VInt 0) false)
    | _ =>
        unlink_quietly temp_file ;;
        ret (error_result e)
    end in
  written <- attempt (write_temp (lit ".js") code) ;;
  match written with
  | Raise e => on_exception None e
  | Ok temp_file =>
      try_except
        (if windows w then
           result <- _run_node_subprocess temp_file ;;
           unlink_if_exists (Some temp_file) ;;
           ret (result_of_info result)
         else
           process <- create_subprocess_exec [lit "node"; temp_file] None ;;
           try_except
             (so <- wait_for_communicate process ;;
              let output := capped so.1 in
              let error := capped so.2 in
              unlink_if_exists (Some temp_file) ;;
              ret (result_dict (strip_if output) (strip_if error)
                     (VFloat (round3 (elapsed w)))
                     ((p_returncode process =? 0) && negb (truthy error))))
             (λ e, match e with
                   | TimeoutError =>
                       kill process ;;
                       unlink_if_exists (Some temp_file) ;;
                       ret timeout_result
                   | _ => raise e
                   end))
        (on_exception (Some temp_file))
  end.

(** [_execute_java_online]: [import httpx] comes before the [try]. *)
Definition _execute_java_online (code : str) : M dict :=
  if httpx_installed w then
    match piston w with
    | PistonResponse status_code run_output run_stderr run_code =>
        if status_code =? 200 then
          let output := strip (default [] run_output) in
          let stderr := strip (default [] run_stderr) in
          ret (result_dict (if truthy output then output else [])
                 (if truthy stderr then stderr else [])
                 (VFloat (round3 (elapsed w)))
                 (default 1 run_code =? 0))
        else
          ret (result_dict []
                 (lit "Online Java compiler unavailable. Please try again.")
                 (VFloat (elapsed w)) false)
    | PistonRaises msg =>
        ret (result_dict [] (lit "Java execution unavailable: " ++ msg)
               (VFloat (elapsed w)) false)
    end
  else raise (OtherException (lit "No module named 'httpx'")).

(** [_execute_java] *)
Definition _execute_java (code : str) : M dict :=
  try_except
    (match search_group1 re "public\s+class\s+(\w+)" code with
     | None =>
         ret (result_dict [] (lit "No public class found in Java code")
                (VInt 0) false)
     | Some class_name =>
         temp_dir <- mkdtemp ;;
         try_finally
           (let java_file := path_join temp_dir (class_name ++ lit ".java") in
            write_file java_file code ;;
            if windows w then
              result <- _run_java_subprocess java_file class_name temp_dir ;;
              ret (result_of_info result)
            else
              compile_process <-
                create_subprocess_exec [lit "javac"; java_file] (Some temp_dir) ;;
              c <- communicate compile_process ;;
              if negb (p_returncode compile_process =? 0) then
                ret (result_dict [] (compilation_error (decode c.2))
                       (VFloat (elapsed w)) false)
              else
                run_process <-
                  create_subprocess_exec [lit "java"; class_name] (Some temp_dir) ;;
                try_except
                  (so <- wait_for_communicate run_process ;;
                   ret (result_dict (strip (capped so.1)) (strip (capped so.2))
                          (VFloat (round3 (elapsed w)))
                          ((p_returncode run_process =? 0)
                           && negb (truthy so.2))))
                  (λ e, match e with
                        | TimeoutError =>
                            kill run_process ;;
                            ret timeout_result
                        | _ => raise e
                        end))
           (try_except (shutil_rmtree temp_dir) (λ _, ret tt))
     end)
    (λ e, match e with
          | FileNotFoundError _ => _execute_java_online code
          | _ => ret (error_result e)
          end).

(** [_execute_cpp]. [source_file] and [exe_file] are [None] until the
    [with] block has written the code. *)
Definition _execute_cpp (code : str) : M dict :=
  let on_exception (source_file exe_file : option str) (e : exn) : M dict :=
    match e with
    | FileNotFoundError _ =>
        unlink_if_exists source_file ;;
        unlink_if_exists exe_file ;;
        ret (result_dict []
               (lit "C++ compiler not found. Please install g++ to execute C++ code.")
               (VInt 0) false)
    | _ =>
        unlink_quietly source_file ;;
        unlink_quietly exe_file ;;
        ret (error_result e)
    end in
  written <- attempt (write_temp (lit ".cpp") code) ;;
  match written with
  | Raise e => on_exception None None e
  | Ok source_file =>
      let exe_file := replace (lit ".cpp") (lit ".exe") source_file in
      try_except
        (if windows w then
           result <- _run_cpp_subprocess source_file exe_file ;;
           unlink_if_exists (Some source_file) ;;
           unlink_if_exists (Some exe_file) ;;
           ret (result_of_info result)
         else
           compile_process <-
             create_subprocess_exec
               [lit "g++"; source_file; lit "-o"; exe_file] None ;;
           c <- communicate compile_process ;;
           if negb (p_returncode compile_process =? 0) then
             unlink_if_exists (Some source_file) ;;
             ret (result_dict [] (compilation_error (decode c.2))
                    (VFloat (elapsed w)) false)
           else
             run_process <- create_subprocess_exec [exe_file] None ;;
             try_except
               (so <- wait_for_communicate run_process ;;
                unlink_if_exists (Some source_file) ;;
                unlink_if_exists (Some exe_file) ;;
                ret (result_dict (strip (capped so.1)) (strip (capped so.2))
                       (VFloat (round3 (elapsed w)))
                       ((p_returncode run_process =? 0)
                        && negb (truthy so.2))))
               (λ e, match e with
                     | TimeoutError =>
                         kill run_process ;;
                         unlink_if_exists (Some source_file) ;;
                         unlink_if_exists (Some exe_file) ;;
                         ret timeout_result
                     | _ => raise e
                     end))
        (on_exception (Some source_file) (Some exe_file))
  end.

(** The body of the [try] block of [execute]. *)
Definition pipeline (code language : str) : M dict :=
  if bool_decide (language = lit "python") then _execute_python code
  else if bool_decide (language ∈ [lit "javascript"; lit "typescript"])
  then _execute_javascript code
  else if bool_decide (language = lit "java") then _execute_java code
  else if bool_decide (language ∈ [lit "cpp"; lit "c"])
  then _execute_cpp code
  else ret (result_dict []
              (lit "Code execution not supported for " ++ language)
              (VInt 0) false).

(** [execute] *)
Definition execute (code language : str) : M dict :=
  try_except (pipeline code language)
    (λ e, ret (result_dict [] (exn_str e) (VInt 0) false)).

End Host.
End Executor.

(** ** The static analyzer ([static_analyzer.py]) *)

Module Analyzer.
Import Py.

(** *** Syntax trees

    The nodes of Python's [ast] module. The classes the analyzer inspects
    have a constructor of their own, with the fields in the order of the
    class's [_fields]; every other class is [Other], with the child nodes
    that [ast.iter_child_nodes] yields for it. *)

(** The [value] of a [Constant]. *)
Inductive constant :=
| CStr (s : str)
| COther.

Inductive node :=
| Module_ (body : list node)
| FunctionDef (name : str) (lineno : Z) (args : node)
    (body decorator_list : list node) (returns : option node)
| AsyncFunctionDef (name : str) (lineno : Z) (args : node)
    (body decorator_list : list node) (returns : option node)
| ClassDef (name : str) (bases keywords body decorator_list : list node)
| arguments (posonlyargs args : list node) (vararg : option node)
    (kwonlyargs : list node) (kw_defaults : list (option node))
    (kwarg : option node) (defaults : list node)
| arg (name : str) (annotation : option node)
| If (test : node) (body orelse : list node)
| For (target iter : node) (body orelse : list node)
| While (test : node) (body orelse : list node)
| With (items body : list node)
| Try (body handlers orelse finalbody : list node)
| ExceptHandler (type : option node) (lineno : Z) (body : list node)
| BoolOp (op : node) (values : list node)
| Import (names : list node)
| ImportFrom (names : list node)
| alias (name : str)
| Name (id : str) (ctx : node)
| Assign (targets : list node) (value : node)
| Expr (value : node)
| Constant (value : constant)
| List (elts : list node) (ctx : node)
| Dict (keys : list (option node)) (values : list node)
| Set_ (elts : list node)
| Other (children : list node).

(** The nodes among optional fields. *)
Definition present {A} (o : option A) : list A :=
  match o with Some x => [x] | None => [] end.

(** [ast.iter_child_nodes(n)] *)
Definition iter_child_nodes (n : node) : list node :=
  match n with
  | Module_ body => body
  | FunctionDef _ _ args body decorator_list returns
  | AsyncFunctionDef _ _ args body decorator_list returns =>
      args :: body ++ decorator_list ++ present returns
  | ClassDef _ bases keywords body decorator_list =>
      bases ++ keywords ++ body ++ decorator_list
  | arguments posonlyargs args vararg kwonlyargs kw_defaults kwarg defaults =>
      posonlyargs ++ args ++ present vararg ++ kwonlyargs
      ++ concat (present <$> kw_defaults) ++ present kwarg ++ defaults
  | arg _ annotation => present annotation
  | If test body orelse | While test body orelse => test :: body ++ orelse
  | For target iter body orelse => target :: iter :: body ++ orelse
  | With items body => items ++ body
  | Try body handlers orelse finalbody =>
      body ++ handlers ++ orelse ++ finalbody
  | ExceptHandler type _ body => present type ++ body
  | BoolOp op values => op :: values
  | Import names | ImportFrom names => names
  | alias _ => []
  | Name _ ctx => [ctx]
  | Assign targets value => targets ++ [value]
  | Expr value => [value]
  | Constant _ => []
  | List elts ctx => elts ++ [ctx]
  | Dict keys values => concat (present <$> keys) ++ values
  | Set_ elts => elts
  | Other children => children
  end.

(** Recursion over a tree: [f] gets a node and the results for its child
    nodes, in the order of [iter_child_nodes]. *)
Fixpoint tree_fold {A} (f : node → list A → A) (n : node) : A :=
  let go := tree_fold f in
  let opt (o : option node) : list A :=
    match o with Some x => [go x] | None => [] end in
  f n
    match n with
    | Module_ body => map go body
    | FunctionDef _ _ args body decorator_list returns
    | AsyncFunctionDef _ _ args body decorator_list returns =>
        go args :: map go body ++ map go decorator_list ++ opt returns
    | ClassDef _ bases keywords body decorator_list =>
        map go bases ++ map go keywords ++ map go body ++ map go decorator_list
    | arguments posonlyargs args vararg kwonlyargs kw_defaults kwarg defaults =>
        map go posonlyargs ++ map go args ++ opt vararg ++ map go kwonlyargs
        ++ concat (map opt kw_defaults) ++ opt kwarg ++ map go defaults
    | arg _ annotation => opt annotation
    | If test body orelse | While test body orelse =>
        go test :: map go body ++ map go orelse
    | For target iter body orelse =>
        go target :: go iter :: map go body ++ map go orelse
    | With items body => map go items ++ map go body
    | Try body handlers orelse finalbody =>
        map go body ++ map go handlers ++ map go orelse ++ map go finalbody
    | ExceptHandler type _ body => opt type ++ map go body
    | BoolOp op values => go op :: map go values
    | Import names | ImportFrom names => map go names
    | alias _ => []
    | Name _ ctx => [go ctx]
    | Assign targets value => map go targets ++ [go value]
    | Expr value => [go value]
    | Constant _ => []
    | List elts ctx => map go elts ++ [go ctx]
    | Dict keys values => concat (map opt keys) ++ map go values
    | Set_ elts => map go elts
    | Other children => map go children
    end.

(** All the nodes of a tree, parents first. *)
Definition subnodes : node → list node :=
  tree_fold (λ n below, n :: concat below).

(** [ast.walk(tree)]: the nodes in breadth-first order. The loop takes the
    first node of the queue and appends its children, until the queue is
    empty; [fuel] bounds the number of turns. *)
Fixpoint walk_queue (fuel : nat) (todo : list node) : list node :=
  match fuel, todo with
  | S fuel', n :: todo' => n :: walk_queue fuel' (todo' ++ iter_child_nodes n)
  | _, _ => []
  end.

(** One turn for each node of the tree empties the queue. *)
Definition walk (tree : node) : list node :=
  walk_queue (length (subnodes tree)) [tree].

(** *** Dictionaries and issues *)

(** A dictionary display with many entries. *)
Definition dict_of (entries : list (string * pyval)) : dict :=
  list_to_map entries.

(** [d[k] += v] *)
Definition add_to (k : string) (v : Z) (d : dict) : dict :=
  match d !! k with
  | Some (VInt n) => <[k := VInt (n + v)]> d
  | _ => d
  end.

(** An issue without a line number. *)
Definition issue (title description severity suggestion : str) : dict :=
  {[ "title" := VStr title; "description" := VStr description;
     "severity" := VStr severity; "suggestion" := VStr suggestion ]}.

(** An issue with the [line_number] key. *)
Definition issue_at (title description severity suggestion : str)
    (line_number : pyval) : dict :=
  <["line_number" := line_number]>
    (issue title description severity suggestion).

(** [len([x for x in l if p(x)])] *)
Definition count_if {A} (p : A → bool) (l : list A) : Z :=
  len (List.filter p l).

(** [max(len(line) for line in lines)], for a list that is never empty. *)
Definition max_len (lines : list str) : Z :=
  foldr (λ line m, Z.max (len line) m) 0 lines.

(** [sum(len(line) for line in lines)] *)
Definition sum_len (lines : list str) : Z :=
  foldr (λ line m, len line + m) 0 lines.

(** [a / b] on Python numbers, as a rational. *)
Definition true_div (a b : Z) : Q := (inject_Z a / inject_Z b)%Q.

(** [line.strip().startswith(p)] *)
Definition line_starts (p : string) (line : str) : bool :=
  startswith (lit p) (strip line).

(** [line.strip().endswith(p)] *)
Definition line_ends (p : string) (line : str) : bool :=
  endswith (lit p) (strip line).

(** [line.strip()] is not empty *)
Definition not_blank (line : str) : bool := truthy (strip line).

(** *** What the analyzer asks of its environment *)

(** An entry of pylint's JSON report, with the three keys the analyzer
    reads; a key may be absent. *)
Record pylint_item := {
  item_type : option str;
  item_message_id : option str;
  item_message : option str;
}.

Record tools := {
  (** [ast.parse(code)]: a tree, or the exception raised *)
  ast_parse : str → result node;
  (** the entries pylint reports for the code; nothing when pylint is not
      installed, runs for more than ten seconds, prints nothing or prints
      no JSON *)
  pylint_report : str → option (list pylint_item);
  (** the number of nested calls of [get_depth] the interpreter has room
      for when [_calculate_max_nesting_depth] starts: the recursion limit,
      less the frames in use and the two that iterating over the child
      nodes of a node takes *)
  recursion_room : nat;
  (** [str(e)] of the [RecursionError] raised beyond it *)
  recursion_text : str;
}.

Section Analysis.
Context (re : regex) (env : tools).

(** *** Python *)

(** [_extract_python_metrics]. No node has a [parent] attribute, so every
    [FunctionDef] counts as a function and [methods] stays 0. *)
Definition _extract_python_metrics (tree : node) (code : str) : dict :=
  let lines := split newline code in
  let metrics := dict_of [
    ("total_lines", VInt (len lines));
    ("code_lines",
      VInt (count_if (λ line, not_blank line && negb (line_starts "#" line))
              lines));
    ("comment_lines", VInt (count_if (line_starts "#") lines));
    ("blank_lines", VInt (count_if (λ line, negb (not_blank line)) lines));
    ("functions", VInt 0);
    ("classes", VInt 0);
    ("methods", VInt 0);
    ("loops", VInt 0);
    ("conditions", VInt 0);
    ("try_blocks", VInt 0);
    ("imports", VInt 0);
    ("variables", VInt 0);
    ("max_line_length", VInt (if truthy lines then max_len lines else 0));
    ("avg_line_length",
      if truthy lines then VFloat (true_div (sum_len lines) (len lines))
      else VInt 0) ] in
  foldl (λ metrics n,
           match n with
           | FunctionDef _ _ _ _ _ _ => add_to "functions" 1 metrics
           | ClassDef _ _ _ _ _ => add_to "classes" 1 metrics
           | For _ _ _ _ | While _ _ _ => add_to "loops" 1 metrics
           | If _ _ _ => add_to "conditions" 1 metrics
           | Try _ _ _ _ => add_to "try_blocks" 1 metrics
           | Import _ | ImportFrom _ => add_to "imports" 1 metrics
           | Assign targets _ => add_to "variables" (len targets) metrics
           | _ => metrics
           end)
        metrics (walk tree).

(** One turn of the loop that computes the cyclomatic complexity. *)
Definition complexity_step (complexity : Z) (n : node) : Z :=
  match n with
  | If _ _ _ | For _ _ _ _ | While _ _ _ | ExceptHandler _ _ _ =>
      complexity + 1
  | BoolOp _ values => complexity + (len values - 1)
  | _ => complexity
  end.

(** [_calculate_function_complexity] *)
Definition _calculate_function_complexity (func_node : node) : Z :=
  foldl complexity_step 1 (walk func_node).

(** The [RecursionError] of a call the interpreter has no room for; it is
    one of the other exceptions. *)
Definition recursion_error : exn := OtherException (recursion_text env).

(** [get_depth(node, current_depth)] of [_calculate_max_nesting_depth],
    with room for [room] nested calls: the function calls itself for every
    child node, one frame for each level of the tree. *)
Definition get_depth : node → nat → Z → result Z :=
  tree_fold (λ n children room current_depth,
    match room with
    | O => Raise recursion_error
    | S room' =>
        let inner :=
          match n with
          | If _ _ _ | For _ _ _ _ | While _ _ _ | With _ _ | Try _ _ _ _ =>
              current_depth + 1
          | _ => current_depth
          end in
        foldl (λ max_depth child_depth,
                 match max_depth with
                 | Ok max_depth =>
                     match child_depth room' inner with
                     | Ok child_depth => Ok (Z.max max_depth child_depth)
                     | Raise e => Raise e
                     end
                 | Raise e => Raise e
                 end)
              (Ok current_depth) children
    end).

(** [_calculate_max_nesting_depth] *)
Definition _calculate_max_nesting_depth (tree : node) : result Z :=
  get_depth tree (recursion_room env) 0.

(** [_analyze_python_complexity]. The two loops over [ast.walk] raise
    nothing; the nesting depth comes last. *)
Definition _analyze_python_complexity (tree : node) : result dict :=
  let complexity_data : dict :=
  {[ "cyclomatic_complexity" := VInt (foldl complexity_step 1 (walk tree));
     "nesting_depth" := VInt 0;
     "function_complexities" :=
       VList (flat_map
                (λ n, match n with
                      | FunctionDef name lineno _ _ _ _ =>
                          [VDict {[ "name" := VStr name;
                                    "complexity" :=
                                      VInt (_calculate_function_complexity n);
                                    "line_number" := VInt lineno ]}]
                      | _ => []
                      end)
                (walk tree));
     "class_complexities" := VList [] ]} in
  match _calculate_max_nesting_depth tree with
  | Ok nesting_depth =>
      Ok (<["nesting_depth" := VInt nesting_depth]> complexity_data)
  | Raise e => Raise e
  end.

(** [node.args.args] and [node.args.defaults]; the parser puts an
    [arguments] node in [args]. *)
Definition args_of (a : node) : list node :=
  match a with arguments _ args _ _ _ _ _ => args | _ => [] end.

Definition defaults_of (a : node) : list node :=
  match a with arguments _ _ _ _ _ _ defaults => defaults | _ => [] end.

(** [arg.annotation] is present *)
Definition annotated (a : node) : bool :=
  match a with arg _ (Some _) => true | _ => false end.

(** The first statement of the body is a string. *)
Definition has_docstring (n : node) : bool :=
  match n with
  | FunctionDef _ _ _ (Expr (Constant (CStr _)) :: _) _ _
  | ClassDef _ _ _ (Expr (Constant (CStr _)) :: _) _ => true
  | _ => false
  end.

Definition has_type_hint (n : node) : bool :=
  match n with
  | FunctionDef _ _ args _ _ returns =>
      bool_decide (is_Some returns) || existsb annotated (args_of args)
  | _ => false
  end.

Definition handles_errors (n : node) : bool :=
  match n with
  | Try _ _ _ _ | ExceptHandler _ _ _ => true
  | _ => false
  end.

(** [_analyze_python_quality] *)
Definition _analyze_python_quality (tree : node) (code : str) : dict :=
  let lines := split newline code in
  let comment_lines := count_if (line_starts "#") lines in
  let code_lines :=
    count_if (λ line, not_blank line && negb (line_starts "#" line)) lines in
  {[ "has_docstrings" := VBool (existsb has_docstring (walk tree));
     "has_type_hints" := VBool (existsb has_type_hint (walk tree));
     "has_error_handling" := VBool (existsb handles_errors (walk tree));
     "follows_naming_conventions" := VBool true;
     "documentation_ratio" :=
       VFloat (if 0 <? code_lines then true_div comment_lines code_lines
               else 0%Q);
     "test_coverage_indicators" := VList [] ]}.

(** [alias.name] for the entries of an import *)
Definition alias_names (names : list node) : list str :=
  flat_map (λ a, match a with alias name => [name] | _ => [] end) names.

(** [_check_python_syntax_issues] *)
Definition _check_python_syntax_issues (tree : node) (code : str)
    : list dict :=
  let imports :=
    flat_map (λ n, match n with
                   | Import names | ImportFrom names => alias_names names
                   | _ => []
                   end) (walk tree) in
  let used_names :=
    flat_map (λ n, match n with Name id _ => [id] | _ => [] end)
             (walk tree) in
  let unused_imports := filter (λ imp, imp ∉ used_names) imports in
  if truthy unused_imports then
    [issue (lit "Unused Imports")
       (lit "Found unused imports: " ++ join (lit ", ") unused_imports)
       (lit "warning")
       (lit "Remove unused import statements to clean up the code")]
  else [].

(** The second loop of [_check_python_style_issues]: [i] is the index of
    the first line of [lines] and [prev] the line before it. *)
Fixpoint missing_blank_lines (i : Z) (prev : option str) (lines : list str)
    : list dict :=
  match lines with
  | [] => []
  | line :: rest =>
      (if line_starts "def " line || line_starts "class " line then
         match prev with
         | Some before =>
             if (0 <? i) && not_blank before
                && negb (line_starts "#" before)
             then [issue_at (lit "Missing Blank Line")
                     (lit "Missing blank line before function/class definition")
                     (lit "info")
                     (lit "Add blank lines around top-level function and class definitions")
                     (VInt (i + 1))]
             else []
         | None => []
         end
       else [])
      ++ missing_blank_lines (i + 1) (Some line) rest
  end.

(** [[(i+1, line) for i, line in enumerate(lines) if len(line) > 79]],
    the line numbers only. *)
Fixpoint long_lines (i : Z) (lines : list str) : list Z :=
  match lines with
  | [] => []
  | line :: rest =>
      (if 79 <? len line then [i + 1] else []) ++ long_lines (i + 1) rest
  end.

(** [_check_python_style_issues] *)
Definition _check_python_style_issues (code : str) : list dict :=
  let lines := split newline code in
  (match long_lines 0 lines with
   | first :: _ as long =>
       [issue_at (lit "Long Lines")
          (lit "Found " ++ str_of_Z (len long)
           ++ lit " lines longer than 79 characters")
          (lit "info")
          (lit "Break long lines to improve readability (PEP 8)")
          (VInt first)]
   | [] => []
   end)
  ++ missing_blank_lines 0 None lines.

(** A list, dictionary or set display. *)
Definition mutable_literal (n : node) : bool :=
  match n with
  | List _ _ | Dict _ _ | Set_ _ => true
  | _ => false
  end.

(** The issues of the first loop of [_check_python_potential_bugs] for one
    node. *)
Definition mutable_default_issues (n : node) : list dict :=
  match n with
  | FunctionDef name lineno args _ _ _ =>
      flat_map
        (λ default,
           if mutable_literal default then
             [issue_at (lit "Mutable Default Argument")
                (lit "Function '" ++ name
                 ++ lit "' has mutable default argument")
                (lit "warning")
                (lit "Use None as default and create mutable object inside function")
                (VInt lineno)]
           else [])
        (defaults_of args)
  | _ => []
  end.

(** The issues of its second loop for one node. *)
Definition bare_except_issues (n : node) : list dict :=
  match n with
  | ExceptHandler None lineno _ =>
      [issue_at (lit "Bare Except Clause")
         (lit "Using bare 'except:' can catch system exit exceptions")
         (lit "warning")
         (lit "Specify exception types or use 'except Exception:'")
         (VInt lineno)]
  | _ => []
  end.

(** [_check_python_potential_bugs] *)
Definition _check_python_potential_bugs (tree : node) (code : str)
    : list dict :=
  flat_map mutable_default_issues (walk tree)
  ++ flat_map bare_except_issues (walk tree).

(** [_get_pylint_suggestion] *)
Definition _get_pylint_suggestion (message_id : str) : str :=
  let suggestions : gmap str str :=
    {[ lit "C0103" := lit "Use snake_case for variable names";
       lit "W0613" := lit "Remove unused parameters or prefix with underscore";
       lit "R0903" :=
         lit "Consider adding more methods or combining with other classes";
       lit "R0913" :=
         lit "Reduce number of parameters or use a configuration object" ]} in
  default (lit "Follow Python PEP 8 style guidelines")
          (suggestions !! message_id).

(** The issue made of one entry of the report. *)
Definition pylint_issue (item : pylint_item) : dict :=
  let severity :=
    if bool_decide (item_type item = Some (lit "error")) then lit "error"
    else lit "warning" in
  issue (default (lit "Pylint Issue") (item_message_id item))
        (default [] (item_message item))
        severity
        (_get_pylint_suggestion (default [] (item_message_id item))).

(** [_run_pylint]: at most ten entries; any failure leaves the list
    empty. *)
Definition _run_pylint (code : str) : list dict :=
  match pylint_report env code with
  | Some pylint_output => pylint_issue <$> take 10 pylint_output
  | None => []
  end.

(** [results["issues"].extend(more)] and [results["issues"].append(one)] *)
Definition extend_issues (more : list dict) (results : dict) : dict :=
  match results !! "issues" with
  | Some (VList issues) =>
      <["issues" := VList (issues ++ (VDict <$> more))]> results
  | _ => results
  end.

(** The bundle every analysis starts from. *)
Definition empty_results : dict :=
  {[ "issues" := VList []; "metrics" := VDict ∅;
     "quality_indicators" := VDict ∅; "complexity_analysis" := VDict ∅ ]}.

(** The two [except] clauses of [_analyze_python], for the exception [e]
    and the bundle as the [try] block left it. *)
Definition python_handlers (e : exn) (results : dict) : dict :=
  match e with
  | SyntaxError lineno msg =>
      extend_issues
        [issue_at (lit "Syntax Error")
           (lit "Python syntax error at line "
            ++ from_option str_of_Z (lit "None") lineno ++ lit ": " ++ msg)
           (lit "error")
           (lit "Fix the syntax error before proceeding")
           (from_option VInt VNone lineno)]
        results
  | _ =>
      extend_issues
        [issue (lit "Analysis Error")
           (lit "Failed to analyze Python code: " ++ exn_str e)
           (lit "warning")
           (lit "Check code structure and try again")]
        results
  end.

(** [_analyze_python]. Two steps of the [try] block raise: the parser, and
    the recursion of [get_depth], which comes after the metrics are in the
    bundle and before everything else. *)
Definition _analyze_python (code : str) : dict :=
  let results := empty_results in
  match ast_parse env code with
  | Ok tree =>
      let results :=
        <["metrics" := VDict (_extract_python_metrics tree code)]> results in
      match _analyze_python_complexity tree with
      | Ok complexity_data =>
          let results :=
            <["complexity_analysis" := VDict complexity_data]> results in
          let results :=
            <["quality_indicators" :=
                VDict (_analyze_python_quality tree code)]> results in
          let results :=
            extend_issues (_check_python_syntax_issues tree code) results in
          let results :=
            extend_issues (_check_python_style_issues code) results in
          let results :=
            extend_issues (_check_python_potential_bugs tree code) results in
          extend_issues (_run_pylint code) results
      | Raise e => python_handlers e results
      end
  | Raise e => python_handlers e results
  end.

(** *** JavaScript and TypeScript

    The class body defines [_check_js_syntax_issues],
    [_check_js_style_issues], [_check_js_security_issues],
    [_check_js_performance_issues], [_analyze_java], [_extract_java_metrics],
    [_analyze_cpp], [_extract_cpp_metrics], [_analyze_generic] and
    [_create_error_result] twice; the later definition replaces the earlier
    one, and it is the later one that is modelled. *)

(** [len(re.findall(pattern, code))] *)
Definition findall (pattern : string) (code : str) : Z :=
  findall_len re pattern false code.

(** The code point of the double quote. *)
Definition dquote : str := [34%N].

(** The lines that count as code and as comments for the brace
    languages. *)
Definition slash_code_lines (lines : list str) : Z :=
  count_if (λ line, not_blank line && negb (line_starts "//" line)) lines.

Definition slash_comment_lines (lines : list str) : Z :=
  count_if (line_starts "//") lines.

Definition blank_lines (lines : list str) : Z :=
  count_if (λ line, negb (not_blank line)) lines.

(** [_extract_js_metrics] *)
Definition _extract_js_metrics (code : str) : dict :=
  let lines := split newline code in
  dict_of [
    ("total_lines", VInt (len lines));
    ("code_lines", VInt (slash_code_lines lines));
    ("comment_lines",
      VInt (slash_comment_lines lines
            + findall_len re "/\*.*?\*/" true code));
    ("blank_lines", VInt (blank_lines lines));
    ("functions",
      VInt (findall
              "function\s+\w+|=>\s*{|\w+\s*:\s*function|const\s+\w+\s*=\s*\("
              code));
    ("arrow_functions", VInt (findall "=>" code));
    ("classes", VInt (findall "class\s+\w+" code));
    ("methods", VInt (findall "\w+\s*\([^)]*\)\s*{" code));
    ("loops", VInt (findall "\b(for|while)\s*\(" code));
    ("conditions", VInt (findall "\bif\s*\(" code));
    ("try_blocks", VInt (findall "\btry\s*{" code));
    ("imports", VInt (findall "import\s+.*from|require\s*\(" code));
    ("exports", VInt (findall "export\s+|module\.exports" code));
    ("variables", VInt (findall "\b(var|let|const)\s+\w+" code));
    ("max_line_length", VInt (if truthy lines then max_len lines else 0));
    ("avg_line_length",
      if truthy lines then VFloat (true_div (sum_len lines) (len lines))
      else VInt 0) ].

(** One turn of the loop that counts braces: the current depth and the
    maximum so far. *)
Definition brace_step (depths : Z * Z) (char : N) : Z * Z :=
  let '(current_depth, max_depth) := depths in
  if (char =? 123)%N then
    (current_depth + 1, Z.max max_depth (current_depth + 1))
  else if (char =? 125)%N then (Z.max 0 (current_depth - 1), max_depth)
  else depths.

(** [_analyze_js_complexity] *)
Definition _analyze_js_complexity (code : str) : dict :=
  {[ "cyclomatic_complexity" :=
       VInt (1 + findall "\b(if|for|while|case|catch|\?|&&|\|\|)\b" code);
     "nesting_depth" := VInt (foldl brace_step (0, 0) code).2;
     "function_count" := VInt (findall "function|=>" code);
     "callback_depth" := VInt (findall "\.then\(|\.catch\(|callback\(" code) ]}.

(** [_analyze_js_quality] *)
Definition _analyze_js_quality (code language : str) : dict :=
  let lines := split newline code in
  let comment_lines :=
    slash_comment_lines lines + findall_len re "/\*.*?\*/" true code in
  let code_lines := slash_code_lines lines in
  {[ "uses_strict_mode" :=
       VBool (contains (lit "'use strict'") code
              || contains (dquote ++ lit "use strict" ++ dquote) code);
     "has_error_handling" := VBool (search re "\btry\s*{|\bcatch\s*\(" false code);
     "uses_modern_syntax" :=
       VBool (search re "\b(const|let|=>|async|await)\b" false code);
     "has_type_annotations" :=
       VBool (bool_decide (language = lit "typescript")
              && search re ":\s*\w+\s*[=;,)]" false code);
     "documentation_ratio" :=
       VFloat (if 0 <? code_lines then true_div comment_lines code_lines
               else 0%Q);
     "uses_semicolons" := VBool (0 <? len (filter (λ c, c = 59%N) code)) ]}.

(** [stripped.endswith((';', '{', '}', ')', ','))] *)
Definition ends_statement (line : str) : bool :=
  existsb (λ p, line_ends p line) [";"; "{"; "}"; ")"; ","].

(** [stripped.startswith(('if', 'for', 'while', 'function', 'class', '//',
    '/*', 'import', 'export'))] *)
Definition starts_construct (line : str) : bool :=
  existsb (λ p, line_starts p line)
    ["if"; "for"; "while"; "function"; "class"; "//"; "/*"; "import";
     "export"].

(** The loop of [_check_js_syntax_issues], from the line of index [i]. *)
Fixpoint missing_semicolons (i : Z) (lines : list str) : list dict :=
  match lines with
  | [] => []
  | line :: rest =>
      (if not_blank line && negb (ends_statement line)
          && negb (starts_construct line)
       then [issue_at (lit "Missing Semicolon")
               (lit "Line " ++ str_of_Z (i + 1)
                ++ lit " might be missing a semicolon")
               (lit "info")
               (lit "Add semicolon at the end of the statement")
               (VInt (i + 1))]
       else [])
      ++ missing_semicolons (i + 1) rest
  end.

(** [_check_js_syntax_issues] *)
Definition _check_js_syntax_issues (code : str) : list dict :=
  missing_semicolons 0 (split newline code).

(** [_check_js_style_issues] *)
Definition _check_js_style_issues (code : str) : list dict :=
  (if contains (lit "var ") code then
     [issue (lit "Use of 'var' keyword")
        (lit "Found usage of 'var' which has function scope")
        (lit "warning")
        (lit "Use 'let' or 'const' instead of 'var' for block scope")]
   else [])
  ++ (if search re "[^=!]==[^=]" false code then
        [issue (lit "Loose equality comparison")
           (lit "Found usage of '==' which can cause type coercion issues")
           (lit "warning")
           (lit "Use '===' for strict equality comparison")]
      else [])
  ++ (if contains (lit "console.log") code then
        [issue (lit "Console statements found")
           (lit "Console.log statements should be removed in production")
           (lit "info")
           (lit "Remove console.log statements or use a proper logging library")]
      else []).

(** [_check_js_security_issues] *)
Definition _check_js_security_issues (code : str) : list dict :=
  (if contains (lit "eval(") code then
     [issue (lit "Use of eval()")
        (lit "eval() can execute arbitrary code and is a security risk")
        (lit "error")
        (lit "Avoid eval() and use safer alternatives like JSON.parse()")]
   else [])
  ++ (if contains (lit "innerHTML") code then
        [issue (lit "Potential XSS vulnerability")
           (lit "Using innerHTML can lead to XSS attacks")
           (lit "warning")
           (lit "Use textContent or sanitize HTML content")]
      else []).

(** [_check_js_performance_issues] *)
Definition _check_js_performance_issues (code : str) : list dict :=
  let dom_queries :=
    findall "document\.(getElementById|querySelector|getElementsBy\w+)" code in
  (if 3 <? dom_queries then
     [issue (lit "Multiple DOM queries")
        (lit "Found " ++ str_of_Z dom_queries
         ++ lit " DOM queries which may impact performance")
        (lit "info")
        (lit "Cache DOM elements in variables to avoid repeated queries")]
   else [])
  ++ (if search re "for\s*\([^)]*\)\s*{[^}]*\.(ajax|fetch)\s*\(" true code then
        [issue (lit "Synchronous operations in loop")
           (lit "Performing async operations in loops can cause performance issues")
           (lit "warning")
           (lit "Use Promise.all() or async/await with proper batching")]
      else []).

(** [_analyze_javascript]. Nothing in its [try] block raises here, so the
    handler that would add an "Analysis Error" warning is left out. *)
Definition _analyze_javascript (code language : str) : dict :=
  let results := empty_results in
  let results := <["metrics" := VDict (_extract_js_metrics code)]> results in
  let results :=
    <["complexity_analysis" := VDict (_analyze_js_complexity code)]> results in
  let results :=
    <["quality_indicators" := VDict (_analyze_js_quality code language)]>
      results in
  let results := extend_issues (_check_js_syntax_issues code) results in
  let results := extend_issues (_check_js_style_issues code) results in
  let results := extend_issues (_check_js_security_issues code) results in
  extend_issues (_check_js_performance_issues code) results.

(** *** Java *)

(** [_extract_java_metrics] *)
Definition _extract_java_metrics (code : str) : dict :=
  let lines := split newline code in
  dict_of [
    ("total_lines", VInt (len lines));
    ("code_lines", VInt (slash_code_lines lines));
    ("comment_lines", VInt (slash_comment_lines lines));
    ("blank_lines", VInt (blank_lines lines));
    ("classes", VInt (findall "\bclass\s+\w+" code));
    ("methods",
      VInt (findall
              "\b(public|private|protected)?\s*(static)?\s*\w+\s+\w+\s*\([^)]*\)\s*{"
              code));
    ("interfaces", VInt (findall "\binterface\s+\w+" code));
    ("loops", VInt (findall "\b(for|while)\s*\(" code));
    ("conditions", VInt (findall "\bif\s*\(" code));
    ("try_blocks", VInt (findall "\btry\s*{" code));
    ("imports", VInt (findall "\bimport\s+" code)) ].

(** [_check_java_patterns] *)
Definition _check_java_patterns (code : str) : list dict :=
  (if contains (lit "System.out.println") code then
     [issue (lit "Debug print statements")
        (lit "Found System.out.println statements")
        (lit "info")
        (lit "Use proper logging framework instead of System.out.println")]
   else [])
  ++ (if search re "catch\s*\([^)]*\)\s*{\s*}" false code then
        [issue (lit "Empty catch block")
           (lit "Empty catch blocks can hide exceptions")
           (lit "warning")
           (lit "Handle exceptions properly or at least log them")]
      else []).

(** [_analyze_java] *)
Definition _analyze_java (code : str) : dict :=
  let results :=
    <["metrics" := VDict (_extract_java_metrics code)]> empty_results in
  extend_issues (_check_java_patterns code) results.

(** *** C and C++ *)

(** [_extract_cpp_metrics] *)
Definition _extract_cpp_metrics (code : str) : dict :=
  let lines := split newline code in
  dict_of [
    ("total_lines", VInt (len lines));
    ("code_lines", VInt (slash_code_lines lines));
    ("comment_lines", VInt (slash_comment_lines lines));
    ("blank_lines", VInt (blank_lines lines));
    ("functions", VInt (findall "\w+\s+\w+\s*\([^)]*\)\s*{" code));
    ("classes", VInt (findall "\bclass\s+\w+" code));
    ("structs", VInt (findall "\bstruct\s+\w+" code));
    ("loops", VInt (findall "\b(for|while)\s*\(" code));
    ("conditions", VInt (findall "\bif\s*\(" code));
    ("includes",
      VInt (findall
              (String.append "#include\s*[<"
                 (String (ascii_of_nat 34) "]"))
              code));
    ("pointers", VInt (findall "\*\w+|\w+\s*\*" code)) ].

(** [_check_cpp_patterns] *)
Definition _check_cpp_patterns (code : str) : list dict :=
  (if contains (lit "new ") code && negb (contains (lit "delete") code) then
     [issue (lit "Potential memory leak")
        (lit "Found 'new' without corresponding 'delete'")
        (lit "warning")
        (lit "Ensure every 'new' has a corresponding 'delete' or use smart pointers")]
   else [])
  ++ (if search re "\bgets\s*\(|\bstrcpy\s*\(|\bsprintf\s*\(" false code then
        [issue (lit "Unsafe function usage")
           (lit "Using functions prone to buffer overflow")
           (lit "error")
           (lit "Use safer alternatives like fgets(), strncpy(), snprintf()")]
      else []).

(** [_analyze_cpp] *)
Definition _analyze_cpp (code : str) : dict :=
  let results :=
    <["metrics" := VDict (_extract_cpp_metrics code)]> empty_results in
  extend_issues (_check_cpp_patterns code) results.

(** *** Any other language *)

(** [_analyze_generic] *)
Definition _analyze_generic (code language : str) : dict :=
  let lines := split newline code in
  {[ "issues" :=
       VList [VDict (issue (lit "Limited Analysis for " ++ language)
                       (lit "Full static analysis not available for "
                        ++ language)
                       (lit "info")
                       (lit "Consider using language-specific tools for detailed analysis"))];
     "metrics" :=
       VDict {[ "total_lines" := VInt (len lines);
                "code_lines" := VInt (count_if not_blank lines);
                "blank_lines" := VInt (blank_lines lines);
                "estimated_functions" :=
                  VInt (findall "\w+\s*\([^)]*\)\s*{" code);
                "estimated_complexity" :=
                  VInt (1 + findall "\b(if|for|while|switch)\b" code) ]};
     "quality_indicators" :=
       VDict {[ "has_comments" := VBool (search re "//|/\*|\#" false code);
                "estimated_documentation_ratio" :=
                  VFloat (true_div (findall "//|/\*" code)
                            (Z.max 1 (len lines))) ]};
     "complexity_analysis" :=
       VDict {[ "cyclomatic_complexity" :=
                  VInt (1 + findall "\b(if|for|while|case)\b" code);
                "nesting_depth" :=
                  VInt (len (filter (λ c, c = 123%N) code) / 2) ]} ]}.

(** [_create_error_result] *)
Definition _create_error_result (error_msg code language : str) : dict :=
  let lines := split newline code in
  {[ "issues" :=
       VList [VDict (issue (lit "Analysis Error")
                       (lit "Failed to analyze " ++ language ++ lit " code: "
                        ++ error_msg)
                       (lit "error")
                       (lit "Check code syntax and structure"))];
     "metrics" :=
       VDict {[ "total_lines" := VInt (len lines);
                "code_lines" := VInt (count_if not_blank lines);
                "functions" := VInt 0;
                "classes" := VInt 0;
                "complexity" := VInt 1 ]};
     "quality_indicators" := VDict ∅;
     "complexity_analysis" := VDict ∅ ]}.

(** The body of the [try] block of [analyze]. *)
Definition dispatch (code language : str) : result dict :=
  if bool_decide (language = lit "python") then Ok (_analyze_python code)
  else if bool_decide (language ∈ [lit "javascript"; lit "typescript"])
  then Ok (_analyze_javascript code language)
  else if bool_decide (language = lit "java") then Ok (_analyze_java code)
  else if bool_decide (language ∈ [lit "cpp"; lit "c"])
  then Ok (_analyze_cpp code)
  else Ok (_analyze_generic code language).

(** [analyze] *)
Definition analyze (code language : str) : dict :=
  match dispatch code language with
  | Ok results => results
  | Raise e => _create_error_result (exn_str e) code language
  end.

End Analysis.
End Analyzer.

(** ** The request handler ([routes/api.py]) *)

Module Api.
Import Py.

(** [d.get(key, default)] *)
Definition dict_get (d : dict) (key : string) (default : pyval) : pyval :=
  from_option id default (d !! key).

(** [type(x).__name__] *)
Definition type_name (x : pyval) : str :=
  match x with
  | VNone => lit "NoneType"
  | VBool _ => lit "bool"
  | VInt _ => lit "int"
  | VFloat _ => lit "float"
  | VStr _ => lit "str"
  | VList _ => lit "list"
  | VDict _ => lit "dict"
  end.

(** What [x.get] raises when [x] is no dictionary. *)
Definition no_get (x : pyval) : exn :=
  OtherException
    (lit "'" ++ type_name x ++ lit "' object has no attribute 'get'").

(** The keyword arguments that [analyze_code] passes to
    [AnalysisMetrics]. *)
Record metrics_arguments := {
  lines : pyval;
  functions : pyval;
  classes : pyval;
  loops : pyval;
  conditions : pyval;
  complexity : pyval;
}.

(** The arguments built from the bundle of the static analyzer:
    [metrics_data = static_results.get("metrics", {})] and the six
    look-ups that follow. *)
Definition analysis_metrics (static_results : dict) : result metrics_arguments :=
  match dict_get static_results "metrics" (VDict ∅) with
  | VDict metrics_data =>
      match dict_get static_results "complexity_analysis" (VDict ∅) with
      | VDict complexity_analysis =>
          Ok {| lines :=
                  dict_get metrics_data "total_lines"
                    (dict_get metrics_data "lines" (VInt 0));
                functions := dict_get metrics_data "functions" (VInt 0);
                classes := dict_get metrics_data "classes" (VInt 0);
                loops := dict_get metrics_data "loops" (VInt 0);
                conditions := dict_get metrics_data "conditions" (VInt 0);
                complexity :=
                  dict_get complexity_analysis "cyclomatic_complexity"
                    (dict_get metrics_data "complexity" (VInt 1)) |}
      | other => Raise (no_get other)
      end
  | other => Raise (no_get other)
  end.

End Api.

(** ** Language detection ([utils/language_detector.py]) *)

Module LanguageDetector.
Import Py.

(** The double quote, for the patterns that hold one. *)
Definition quote : string := String (ascii_of_nat 34) EmptyString.

(** The languages a request may name for the detection to be skipped. *)
Definition accepted : list str :=
  [lit "python"; lit "javascript"; lit "java"; lit "cpp"; lit "typescript";
   lit "go"; lit "rust"].

(** The patterns of each language, in the order of the dictionary. *)
Definition patterns : list (str * list string) :=
  [ (lit "python",
      [ "def\s+\w+\s*\(";
        "import\s+\w+";
        "from\s+\w+\s+import";
        String.append "if\s+__name__\s*==\s*["
          (String.append quote
             (String.append "\']__main__[" (String.append quote "\']")));
        "print\s*\(";
        ":\s*$" ]);
    (lit "javascript",
      [ "function\s+\w+\s*\(";
        "var\s+\w+\s*=";
        "let\s+\w+\s*=";
        "const\s+\w+\s*=";
        "=>";
        "console\.log\s*\(";
        "require\s*\(";
        "module\.exports" ]);
    (lit "typescript",
      [ "interface\s+\w+";
        "type\s+\w+\s*=";
        ":\s*\w+\s*=";
        "export\s+interface";
        String.append "import.*from.*["
          (String.append quote
             (String.append "\'].*[" (String.append quote "\']"))) ]);
    (lit "java",
      [ "public\s+class\s+\w+";
        "public\s+static\s+void\s+main";
        "System\.out\.println";
        "import\s+java\.";
        "@\w+";
        "public\s+\w+\s+\w+\s*\(" ]);
    (lit "cpp",
      [ "#include\s*<.*>";
        "std::";
        "cout\s*<<";
        "cin\s*>>";
        "int\s+main\s*\(";
        "using\s+namespace\s+std" ]);
    (lit "go",
      [ "package\s+\w+";
        "import\s*\(";
        "func\s+\w+\s*\(";
        "fmt\.Print";
        "go\s+\w+\s*\(";
        "var\s+\w+\s+\w+" ]);
    (lit "rust",
      [ "fn\s+\w+\s*\(";
        "let\s+mut\s+\w+";
        "println!\s*\(";
        "use\s+std::";
        "impl\s+\w+";
        "match\s+\w+" ]) ].

(** [max(scores, key=scores.get)], from the first entry on: an entry
    replaces the best one so far only when its score is greater. *)
Fixpoint max_key (best : str * Z) (rest : list (str * Z)) : str * Z :=
  match rest with
  | [] => best
  | entry :: rest' =>
      if best.2 <? entry.2 then max_key entry rest' else max_key best rest'
  end.

Section Detect.
(** [len(re.findall(pattern, code, re.MULTILINE | re.IGNORECASE))] *)
Context (findall_flags : string → str → nat).

(** The score of one language: the matches of its patterns, added up. *)
Definition score (code : str) (lang_patterns : list string) : Z :=
  foldl (λ score pattern, score + Z.of_nat (findall_flags pattern code))
        0 lang_patterns.

(** The dictionary [scores], as the list of its items. *)
Definition scores (code : str) : list (str * Z) :=
  (λ entry : str * list string, (entry.1, score code entry.2)) <$> patterns.

(** The heuristics that follow when no pattern matches. *)
Definition fallback (code : str) (provided_language : option str) : str :=
  if contains (lit "def ") code && contains (lit ":") code then lit "python"
  else if contains (lit "function") code || contains (lit "=>") code
  then lit "javascript"
  else if contains (lit "public class") code then lit "java"
  else if contains (lit "#include") code then lit "cpp"
  else match provided_language with
       | Some language => if truthy language then language
                          else lit "javascript"
       | None => lit "javascript"
       end.

(** The part of [detect_language] that follows the test of the language
    provided. *)
Definition detect_from_code (code : str) (provided_language : option str)
    : str :=
  match scores code with
  | first :: rest =>
      let detected := max_key first rest in
      if 0 <? detected.2 then detected.1
      else fallback code provided_language
  | [] => fallback code provided_language
  end.

(** [detect_language] *)
Definition detect_language (code : str) (provided_language : option str)
    : str :=
  match provided_language with
  | Some language =>
      if truthy language && bool_decide (language ∈ accepted) then language
      else detect_from_code code provided_language
  | None => detect_from_code code provided_language
  end.

End Detect.
End LanguageDetector.

(** ** The rate limiter ([rate_limiter.py]) *)

Module RateLimiter.
Import Py.

(** A limiter: the limit and, for each client, the times of its recorded
    requests. Times are the numbers [time.time()] returns, here
    rationals. *)
Record RateLimiter := {
  requests_per_minute : Z;
  requests : gmap str (list Q);
}.

(** [RateLimiter.__init__] *)
Definition __init__ (requests_per_minute : Z) : RateLimiter :=
  {| requests_per_minute := requests_per_minute; requests := ∅ |}.

(** The global instance. *)
Definition rate_limiter : RateLimiter := __init__ 30.

(** [a > b] on times *)
Definition later (a b : Q) : bool := negb (Qle_bool a b).

(** [[req_time for req_time in self.requests[client_id]
      if req_time > minute_ago]]; a client the [defaultdict] does not know
    has the empty list. *)
Definition recent_requests (self : RateLimiter) (client_id : str)
    (minute_ago : Q) : list Q :=
  List.filter (λ req_time, later req_time minute_ago)
    (default [] (requests self !! client_id)).

(** [is_allowed], when [time.time()] returns [current_time]: the answer,
    the requests that remain, and the limiter afterwards. *)
Definition is_allowed (self : RateLimiter) (client_id : str)
    (current_time : Q) : (bool * Z) * RateLimiter :=
  let minute_ago := (current_time - 60)%Q in
  let kept := recent_requests self client_id minute_ago in
  let request_count := len kept in
  if requests_per_minute self <=? request_count then
    ((false, 0),
     {| requests_per_minute := requests_per_minute self;
        requests := <[client_id := kept]> (requests self) |})
  else
    ((true, requests_per_minute self - request_count - 1),
     {| requests_per_minute := requests_per_minute self;
        requests := <[client_id := kept ++ [current_time]]> (requests self) |}).

(** [get_stats]. Reading [self.requests[client_id]] makes the
    [defaultdict] know the client. *)
Definition get_stats (self : RateLimiter) (client_id : str)
    (current_time : Q) : dict * RateLimiter :=
  let minute_ago := (current_time - 60)%Q in
  let recent := recent_requests self client_id minute_ago in
  ({[ "requests_in_last_minute" := VInt (len recent);
      "limit" := VInt (requests_per_minute self);
      "remaining" := VInt (Z.max 0 (requests_per_minute self - len recent)) ]},
   {| requests_per_minute := requests_per_minute self;
      requests :=
        match requests self !! client_id with
        | Some _ => requests self
        | None => <[client_id := []]> (requests self)
        end |}).

End RateLimiter.

(** ** The cache of analysis results ([cache.py]) *)

Module Cache.
Import Py.

(** An entry: the cached result and the time it was stored. *)
Record entry := {
  result_of : dict;
  timestamp : Q;
}.

Record AnalysisCache := {
  cache : gmap str entry;
  ttl : Z;
}.

(** [AnalysisCache.__init__] *)
Definition __init__ (ttl : Z) : AnalysisCache := {| cache := ∅; ttl := ttl |}.

(** The global instance. *)
Definition analysis_cache : AnalysisCache := __init__ 3600.

(** [now - stored < ttl] for two times and the integer [ttl] *)
Definition younger (now stored : Q) (ttl : Z) : bool :=
  negb (Qle_bool (inject_Z ttl) (now - stored)).

Section Cache.
(** [hashlib.md5(content.encode()).hexdigest()], for a text that can be
    encoded. *)
Context (md5_hexdigest : str → str).

(** [_get_cache_key]: encoding the text raises when it holds a
    surrogate. *)
Definition _get_cache_key (code language : str) : result str :=
  let content := code ++ lit ":" ++ language in
  if encodable content then Ok (md5_hexdigest content)
  else Raise (UnicodeEncodeError
                (lit "'utf-8' codec can't encode: surrogates not allowed")).

(** [get], when [time.time()] returns [now]: the cached result or [None],
    and the cache afterwards. *)
Definition get (self : AnalysisCache) (code language : str) (now : Q)
    : result (option dict) * AnalysisCache :=
  match _get_cache_key code language with
  | Raise e => (Raise e, self)
  | Ok key =>
      match cache self !! key with
      | Some cached_data =>
          if younger now (timestamp cached_data) (ttl self)
          then (Ok (Some (result_of cached_data)), self)
          else (Ok None, {| cache := delete key (cache self); ttl := ttl self |})
      | None => (Ok None, self)
      end
  end.

(** [_cleanup_old_entries], when [time.time()] returns [current_time] *)
Definition _cleanup_old_entries (self : AnalysisCache) (current_time : Q)
    : AnalysisCache :=
  {| cache := filter (λ item : str * entry,
                        younger current_time (timestamp item.2) (ttl self)
                        = true)
                     (cache self);
     ttl := ttl self |}.

(** [set], when [time.time()] returns [now] and, in the clean-up that
    follows when the cache holds more than 1000 entries, [later]. *)
Definition set (self : AnalysisCache) (code language : str) (result : dict)
    (now later : Q) : Py.result unit * AnalysisCache :=
  match _get_cache_key code language with
  | Raise e => (Raise e, self)
  | Ok key =>
      let stored :=
        {| cache := <[key := {| result_of := result; timestamp := now |}]>
                      (cache self);
           ttl := ttl self |} in
      if 1000 <? Z.of_nat (size (cache stored))
      then (Ok tt, _cleanup_old_entries stored later)
      else (Ok tt, stored)
  end.

(** [clear] *)
Definition clear (self : AnalysisCache) : AnalysisCache :=
  {| cache := ∅; ttl := ttl self |}.

End Cache.
End Cache.

(** * Specifications *)

(** ** Reasoning about computations of the executor *)

Module ExecutorSpec.
Import Py Executor.
Local Open Scope py_scope.

(** [wp m Q E st]: run from [st], [m] returns a value and a state that
    satisfy [Q], or raises an exception in a state that satisfy [E]. *)
Definition wp {A} (m : M A) (Q : A → state → Prop) (E : exn → state → Prop)
    (st : state) : Prop :=
  match m st with
  | (Ok a, st') => Q a st'
  | (Raise e, st') => E e st'
  end.

(** [post m P]: whenever [m] returns, the value satisfies [P]. *)
Definition post {A} (m : M A) (P : A → Prop) : Prop :=
  ∀ st, wp m (λ a _, P a) (λ _ _, True) st.

(** An execution result with its four fields. *)
Definition is_result (d : dict) : Prop :=
  ∃ output error execution_time success,
    d = result_dict output error execution_time success.

(** The result that reports a failure with the text [msg]: no output, the
    text as the error, and no success. *)
Definition failure_result (msg : str) : dict :=
  result_dict [] msg (VInt 0) false.

(** The four keys of an execution result are present. *)
Definition complete (d : dict) : Prop :=
  (∃ s, d !! "output" = Some (VStr s)) ∧
  (∃ s, d !! "error" = Some (VStr s)) ∧
  is_Some (d !! "execution_time") ∧
  (∃ b, d !! "success" = Some (VBool b)).

Section Spec.
Context (re : regex) (w : world) (self : CodeExecutor).

(** The Java class name the executor extracts. *)
Definition java_class (code : str) : option str :=
  search_group1 re "public\s+class\s+(\w+)" code.

(** The command that runs the script, and its working directory. *)
Definition script_command (code language : str)
    : option (list str * option str) :=
  if bool_decide (language = lit "python") then
    Some ([sys_executable w; tmp w ++ lit ".py"], None)
  else if bool_decide (language ∈ [lit "javascript"; lit "typescript"]) then
    Some ([lit "node"; tmp w ++ lit ".js"], None)
  else if bool_decide (language = lit "java") then
    match java_class code with
    | Some class_name => Some ([lit "java"; class_name], Some (tmp w))
    | None => None
    end
  else if bool_decide (language ∈ [lit "cpp"; lit "c"]) then
    Some ([replace (lit ".cpp") (lit ".exe") (tmp w ++ lit ".cpp")], None)
  else None.

(** The command of the compile step, for the languages that have one. *)
Definition compile_command (code language : str)
    : option (list str * option str) :=
  if bool_decide (language = lit "java") then
    match java_class code with
    | Some class_name =>
        Some ([lit "javac";
               path_join w (tmp w) (class_name ++ lit ".java")],
              Some (tmp w))
    | None => None
    end
  else if bool_decide (language ∈ [lit "cpp"; lit "c"]) then
    Some ([lit "g++"; tmp w ++ lit ".cpp"; lit "-o";
           replace (lit ".cpp") (lit ".exe") (tmp w ++ lit ".cpp")], None)
  else None.

(** The compile step, if any, ends with status 0; on Windows, where it
    runs under the timeout, it ends in time. *)
Definition compiled (code language : str) : Prop :=
  match compile_command code language with
  | Some (argv, cwd) =>
      ∃ out err it cr, proc w argv cwd = Exits out err 0 it cr
                       ∧ (windows w = true → it = true)
  | None => True
  end.

(** The request gets as far as launching the script with [argv], and the
    child process behaves as [r]. *)
Definition runs (code language : str) (argv : list str) (r : proc_result)
    : Prop :=
  encodable code = true ∧ compiled code language ∧
  ∃ cwd, script_command code language = Some (argv, cwd)
         ∧ proc w argv cwd = r.

(** The paths a pipeline writes to: the temporary file of the script, for
    C and C++ also the binary, for Java the temporary directory and what is
    below it. *)
Definition scratch (language p : str) : Prop :=
  if bool_decide (language = lit "python") then p = tmp w ++ lit ".py"
  else if bool_decide (language ∈ [lit "javascript"; lit "typescript"]) then
    p = tmp w ++ lit ".js"
  else if bool_decide (language = lit "java") then below w (tmp w) p = true
  else if bool_decide (language ∈ [lit "cpp"; lit "c"]) then
    p = tmp w ++ lit ".cpp"
    ∨ p = replace (lit ".cpp") (lit ".exe") (tmp w ++ lit ".cpp")
  else False.

(** The names [tempfile] picks are new: nothing on disk is in the way. *)
Definition fresh_names (language : str) (st : state) : Prop :=
  ∀ p, p ∈ files st → ¬ scratch language p.

(** What the child processes leave on disk are outputs of the toolchain:
    files below the directory of the Java pipeline, and the binary that
    [g++] writes when it succeeds. *)
Definition tidy (language : str) : Prop :=
  ∀ argv cwd out err rc it cr,
    proc w argv cwd = Exits out err rc it cr →
    ∀ p, p ∈ cr →
      (bool_decide (language = lit "java") ∧ below w (tmp w) p = true)
      ∨ (bool_decide (language ∈ [lit "cpp"; lit "c"]) ∧ rc = 0
         ∧ p = replace (lit ".cpp") (lit ".exe") (tmp w ++ lit ".cpp")).

(** A captured stream as text: decoded by the executor, or, on Windows, by
    [subprocess.run] in text mode. *)
Definition text (b : bytes) : str :=
  if windows w then universal_newlines (decode b) else decode b.

(** The text a result shows for a captured stream. *)
Definition shown (b : bytes) : str :=
  strip (slice_to (max_output_length self) (text b)).

(** The value whose emptiness stands for "no stderr" in [success]: the
    capped text, except on the asyncio path of Java and C++, which tests
    the raw bytes. *)
Definition stderr_seen (language : str) (err : bytes) : bool :=
  if windows w then truthy (slice_to (max_output_length self) (text err))
  else if bool_decide (language ∈ [lit "java"; lit "cpp"; lit "c"])
  then truthy err
  else truthy (slice_to (max_output_length self) (text err)).

(** The result of a request whose script process ended with [rc], having
    written [out] and [err], in time or not. *)
Definition run_result (language : str) (out err : bytes) (rc : Z)
    (in_time : bool) : dict :=
  if in_time then
    result_dict (shown out) (shown err) (VFloat (round3 (elapsed w)))
      ((rc =? 0) && negb (stderr_seen language err))
  else
    result_dict [] (timeout_message self)
      (if windows w then VFloat (round3 (elapsed w))
       else VInt (timeout self))
      false.

End Spec.
End ExecutorSpec.

(** ** Concrete hosts and requests *)

Module ExecutorExamples.
Import Py Executor.

(** A regular-expression engine that finds nothing. *)
Definition no_match : regex :=
  {| findall_len := λ _ _ _, 0;
     search := λ _ _ _, false;
     search_group1 := λ _ _, None |}.

(** Nothing on disk, no child process yet. *)
Definition fresh : state := {| files := ∅; spawned := []; killed := [] |}.

(** A Unix host on which every child process behaves as [r]. *)
Definition unix_host (r : proc_result) : world :=
  {| windows := false;
     sys_executable := lit "/usr/bin/python3";
     tmp := lit "/tmp/tmpk3v9x2";
     elapsed := 5003 # 1000;
     proc := λ _ _, r;
     httpx_installed := false;
     piston := PistonRaises [] |}.

(** The command that runs a Python script on that host. *)
Definition python_argv : list str :=
  [lit "/usr/bin/python3"; lit "/tmp/tmpk3v9x2.py"].



(** A script that prints 6000 lines of one character: 12000 characters. *)
Definition many_lines : str := lit "print('x\n' * 6000, end='')".

Definition many_lines_out : bytes := concat (replicate (Z.to_nat 6000) [x78; x0a]%byte).

(** A script that prints 12000 characters and no white space. *)
Definition many_letters : str := lit "print('ab' * 6000, end='')".

Definition many_letters_out : bytes :=
  concat (replicate (Z.to_nat 6000) [x61; x62]%byte).

(** A script that writes one byte that is no UTF-8 to stderr and ends with
    status 0. *)
Definition cryptic : str := lit "import sys
sys.stderr.buffer.write(b'\xff')
".

Definition cryptic_err : bytes := [xff]%byte.

(** A Unix host with a C++ toolchain: [g++] succeeds and leaves the binary,
    every other command prints a greeting and leaves nothing. *)
Definition cpp_host : world :=
  {| windows := false;
     sys_executable := lit "/usr/bin/python3";
     tmp := lit "/tmp/tmpk3v9x2";
     elapsed := 120 # 1000;
     proc := λ argv _,
       if bool_decide (head argv = Some (lit "g++"))
       then Exits [] [] 0 true [lit "/tmp/tmpk3v9x2.exe"]
       else Exits [x68; x69; x0a]%byte [] 0 true [];
     httpx_installed := false;
     piston := PistonRaises [] |}.

(** A C++ program. *)
Definition hello_cpp : str := lit "#include <cstdio>
int main() { puts('hi'); }
".

(** A source text made of a lone surrogate, as a JSON request body can
    carry it: it has no UTF-8 encoding. *)
Definition lone_surrogate : str := [55296%N].

End ExecutorExamples.

(** ** The vocabulary of the claims about the analyzer *)

Module AnalyzerSpec.
Import Py Analyzer.

(** The four fields of an analysis bundle are present. *)
Definition bundle_complete (d : dict) : Prop :=
  (∃ issues, d !! "issues" = Some (VList issues)) ∧
  (∃ m, d !! "metrics" = Some (VDict m)) ∧
  (∃ q, d !! "quality_indicators" = Some (VDict q)) ∧
  (∃ c, d !! "complexity_analysis" = Some (VDict c)).

(** A bundle that reports a failure with the text [msg]: it has the four
    fields, and its only issue is an error whose description ends with the
    text. *)
Definition failure_bundle (msg : str) (d : dict) : Prop :=
  bundle_complete d
  ∧ ∃ i said, d !! "issues" = Some (VList [VDict i])
      ∧ i !! "severity" = Some (VStr (lit "error"))
      ∧ i !! "description" = Some (VStr (said ++ msg)).

(** The three severities. *)
Definition severities : list str := [lit "error"; lit "warning"; lit "info"].

(** An issue whose severity is one of the three. *)
Definition severity_ok (v : pyval) : Prop :=
  ∃ d s, v = VDict d ∧ d !! "severity" = Some (VStr s) ∧ s ∈ severities.

(** The severity of an issue dictionary is one of the three. *)
Definition dict_ok (d : dict) : Prop :=
  ∃ s, d !! "severity" = Some (VStr s) ∧ s ∈ severities.

(** A branching construct: [if], [for], [while] or an [except] handler. *)
Definition is_branch (n : node) : bool :=
  match n with
  | If _ _ _ | For _ _ _ _ | While _ _ _ | ExceptHandler _ _ _ => true
  | _ => false
  end.

(** A boolean-operator expression. *)
Definition is_boolop (n : node) : bool :=
  match n with BoolOp _ _ => true | _ => false end.

(** The number of operands of a boolean-operator expression beyond the
    first. *)
Definition extra_operands (n : node) : Z :=
  match n with
  | BoolOp _ values => len (tail values)
  | _ => 0
  end.

(** [sum(f(n) for n in l)] *)
Definition total (f : node → Z) (l : list node) : Z :=
  foldr (λ n s, f n + s) 0 l.

(** The cyclomatic complexity in the words of the specification: 1, plus
    one for each branching construct, plus the operands beyond the first of
    each boolean expression. *)
Definition cyclomatic (tree : node) : Z :=
  1 + count_if is_branch (subnodes tree) + total extra_operands (subnodes tree).

(** The levels of a tree: the nodes on its longest branch. *)
Definition height : node → nat :=
  tree_fold (λ _ below, S (foldr Nat.max 0%nat below)).

(** The interpreter has room for the recursion of [get_depth] on the tree:
    one nested call for each level. *)
Definition fits (env : tools) (tree : node) : Prop :=
  (height tree ≤ recursion_room env)%nat.

(** A statement that adds a level of nesting. *)
Definition is_nesting (n : node) : bool :=
  match n with
  | If _ _ _ | For _ _ _ _ | While _ _ _ | With _ _ | Try _ _ _ _ => true
  | _ => false
  end.

(** What [get_depth] finds when it has room: the greatest depth below a
    node at depth [d], the child nodes of a nesting statement being one
    level deeper than it. *)
Definition depth_found : node → Z → Z :=
  tree_fold (λ n children d,
    foldl (λ max_depth child,
             Z.max max_depth (child (if is_nesting n then d + 1 else d)))
          d children).

(** One turn of the loop of [get_depth] over the child nodes, [child_depth]
    being the call for a child: its exception ends the loop. *)
Definition depth_turn (child_depth : node → result Z)
    (max_depth : result Z) (child : node) : result Z :=
  match max_depth with
  | Ok max_depth =>
      match child_depth child with
      | Ok child_depth => Ok (Z.max max_depth child_depth)
      | Raise e => Raise e
      end
  | Raise e => Raise e
  end.

(** Every boolean-operator expression has an operand, as in the trees the
    parser builds (where it has two or more). *)
Definition operands_present (tree : node) : Prop :=
  Forall (λ n, match n with BoolOp _ [] => False | _ => True end)
         (subnodes tree).

(** The default values of the parameters of a function definition,
    positional and keyword-only, plain or [async]. *)
Definition default_values (n : node) : list node :=
  match n with
  | FunctionDef _ _ (arguments _ _ _ _ kw_defaults _ defaults) _ _ _
  | AsyncFunctionDef _ _ (arguments _ _ _ _ kw_defaults _ defaults) _ _ _ =>
      defaults ++ concat (present <$> kw_defaults)
  | _ => []
  end.

(** The tree has a function definition with a list display as a default
    value. *)
Definition has_list_default (tree : node) : Prop :=
  ∃ n d, n ∈ subnodes tree ∧ d ∈ default_values n
         ∧ match d with List _ _ => True | _ => False end.

(** The defaults the analyzer examines: for a plain [def], the mutable
    displays among [args.defaults], each with the name and the line of the
    function. *)
Definition examined_defaults (n : node) : list (str * Z) :=
  match n with
  | FunctionDef name lineno args _ _ _ =>
      (λ _, (name, lineno)) <$> List.filter mutable_literal (defaults_of args)
  | _ => []
  end.

(** The issues of a bundle. *)
Definition issues_of (d : dict) : option (list pyval) :=
  match d !! "issues" with
  | Some (VList issues) => Some issues
  | _ => None
  end.

End AnalyzerSpec.

(** ** Concrete trees and tools *)

Module AnalyzerExamples.
Import Py Analyzer.

(** The [Load] context and the [pass] statement: classes no check looks
    at. *)
Definition Load : node := Other [].
Definition Pass : node := Other [].

(** The room an interpreter with the default recursion limit of 1000 has
    at most, and the text of its [RecursionError]. *)
Definition default_room : nat := 1000.

Definition default_text : str := lit "maximum recursion depth exceeded".

(** Tools that parse every text to [tree] and have no pylint. *)
Definition parsing_to (tree : node) : tools :=
  {| ast_parse := λ _, Ok tree; pylint_report := λ _, None;
     recursion_room := default_room; recursion_text := default_text |}.

(** [def f(x=[]): pass] *)
Definition list_default_code : str := lit "def f(x=[]):
    pass
".

Definition list_default_tree : node :=
  Module_
    [FunctionDef (lit "f") 1
       (arguments [] [arg (lit "x") None] None [] [] None [List [] Load])
       [Pass] [] None].

(** A [def f] whose only parameter is the keyword-only [x=[]], after a
    bare star: the default of a keyword-only parameter is in
    [kw_defaults]. *)
Definition kwonly_default_code : str := lit "def f(*, x=[]):
    pass
".

Definition kwonly_default_tree : node :=
  Module_
    [FunctionDef (lit "f") 1
       (arguments [] [] None [arg (lit "x") None] [Some (List [] Load)] None [])
       [Pass] [] None].

(** [if a and b and c: x = 1] followed by a loop. *)
Definition branching_code : str := lit "if a and b and c:
    x = 1
for i in y:
    pass
".

Definition branching_tree : node :=
  Module_
    [If (BoolOp (Other [])
           [Name (lit "a") Load; Name (lit "b") Load; Name (lit "c") Load])
        [Assign [Name (lit "x") (Other [])] (Constant COther)] [];
     For (Name (lit "i") (Other [])) (Name (lit "y") Load) [Pass] []].

(** [x = 1]: no branching construct and no boolean operator. *)
Definition straight_code : str := lit "x = 1
".

Definition straight_tree : node :=
  Module_ [Assign [Name (lit "x") (Other [])] (Constant COther)].

(** [x = 1+1+...+1] with 1100 terms: a valid text whose tree has a level
    for each [+]. *)
Fixpoint sum_of_ones (terms : nat) : node :=
  match terms with
  | O => Constant COther
  | S terms' => Other [sum_of_ones terms'; Other []; Constant COther]
  end.

Definition deep_code : str :=
  lit "x = 1" ++ concat (replicate 1099 (lit "+1")) ++ [newline].

Definition deep_tree : node :=
  Module_ [Assign [Name (lit "x") (Other [])] (sum_of_ones 1099)].

(** A text that does not parse. *)
Definition broken_code : str := lit "def f(:
".

Definition failing_parser : tools :=
  {| ast_parse := λ _, Raise (SyntaxError (Some 1) (lit "invalid syntax"));
     pylint_report := λ _, None;
     recursion_room := default_room; recursion_text := default_text |}.

(** Tools whose pylint reports one message of type "convention". *)
Definition convention_item : pylint_item :=
  {| item_type := Some (lit "convention");
     item_message_id := Some (lit "C0103");
     item_message := Some (lit "Constant name doesn't conform to UPPER_CASE naming style") |}.

Definition with_pylint : tools :=
  {| ast_parse := λ _, Ok straight_tree;
     pylint_report := λ _, Some [convention_item];
     recursion_room := default_room; recursion_text := default_text |}.

End AnalyzerExamples.

(** ** What the executor returns and leaves behind *)

Module ExecutorOutcomes.
Import Py Executor ExecutorSpec.

Section Outcomes.
Context (re : regex) (w : world) (self : CodeExecutor).

(** The result when the compile step fails with [err] on stderr. *)
Definition compile_failure (err : bytes) : dict :=
  if windows w then
    result_dict [] (strip (compilation_error (universal_newlines (decode err))))
      (VFloat (round3 (elapsed w))) false
  else
    result_dict [] (compilation_error (decode err)) (VFloat (elapsed w)) false.

(** The result when [node] is not installed. *)
Definition node_not_found_result : dict :=
  if windows w then
    result_dict [] (lit "Node.js not found. Please install Node.js.")
      (VFloat (round3 (elapsed w))) false
  else
    result_dict []
      (lit "Node.js not found. Please install Node.js to execute JavaScript code.")
      (VInt 0) false.

(** The result when [g++] is not installed. *)
Definition compiler_not_found_result : dict :=
  if windows w then
    result_dict [] (lit "C++ compiler not found. Please install g++.")
      (VFloat (round3 (elapsed w))) false
  else
    result_dict []
      (lit "C++ compiler not found. Please install g++ to execute C++ code.")
      (VInt 0) false.

(** The result that comes from the online service: what the service
    answered, or why it could not be asked. *)
Definition online_result : dict :=
  if httpx_installed w then
    match piston w with
    | PistonResponse status_code run_output run_stderr run_code =>
        if status_code =? 200 then
          result_dict (strip (default [] run_output))
            (strip (default [] run_stderr))
            (VFloat (round3 (elapsed w)))
            (bool_decide (run_code = Some 0))
        else
          result_dict []
            (lit "Online Java compiler unavailable. Please try again.")
            (VFloat (elapsed w)) false
    | PistonRaises msg =>
        result_dict [] (lit "Java execution unavailable: " ++ msg)
          (VFloat (elapsed w)) false
    end
  else result_dict [] (lit "No module named 'httpx'") (VInt 0) false.

(** The result when [javac] is not installed. *)
Definition jdk_not_found_result : dict :=
  if windows w then
    result_dict [] (lit "Java compiler not found. Please install JDK.")
      (VFloat (round3 (elapsed w))) false
  else online_result.

(** The result is the one of the online service, which only the Java
    pipeline consults, and only off Windows. *)
Definition from_online (language : str) (d : dict) : Prop :=
  language = lit "java" ∧ windows w = false ∧ d = online_result.

(** A result that reports success has no error text. *)
Definition quiet_success (d : dict) : Prop :=
  d !! "success" = Some (VBool true) → d !! "error" = Some (VStr []).

(** The output has no white space at its edges and is no longer than the
    cap. *)
Definition tidy_output (d : dict) : Prop :=
  ∃ o, d !! "output" = Some (VStr o) ∧ strip o = o
       ∧ (0 ≤ max_output_length self → len o ≤ max_output_length self).

(** [argv] is the command of the compile step or the one that runs the
    script. *)
Definition pipeline_command (code language : str) (argv : list str) : Prop :=
  (∃ cwd, script_command re w code language = Some (argv, cwd))
  ∨ (∃ cwd, compile_command re w code language = Some (argv, cwd)).

(** The process launched with [argv] does not end in time. *)
Definition times_out (argv : list str) : Prop :=
  ∃ cwd out err rc cr, proc w argv cwd = Exits out err rc false cr.

(** What a call launched: at most two commands, each of the pipeline. *)
Definition launched_by (code language : str) (st st' : state) : Prop :=
  ∃ new, spawned st' = new ++ spawned st ∧ (length new ≤ 2)%nat
         ∧ Forall (pipeline_command code language) new.

(** What a call killed: nothing, or the process it launched last, which
    did not end in time. *)
Definition killed_by (st st' : state) : Prop :=
  killed st' = killed st
  ∨ ∃ argv, killed st' = argv :: killed st
            ∧ head (spawned st') = Some argv
            ∧ spawned st' ≠ spawned st
            ∧ times_out argv.

(** A result of the local pipelines, or the one of the online service. *)
Definition fine (language : str) (d : dict) : Prop :=
  from_online language d ∨ (quiet_success d ∧ tidy_output d).

(** All of it, for the result [d] and the state [st'] of a call made in
    state [st]. *)
Definition well_run (code language : str) (st : state) (d : dict)
    (st' : state) : Prop :=
  fine language d ∧ launched_by code language st st' ∧ killed_by st st'.

End Outcomes.
End ExecutorOutcomes.

(** ** More hosts and requests *)

Module ExecutorCases.
Import Py Executor ExecutorExamples.

(** A Unix host whose compiler rejects every program. *)
Definition rejecting_compiler : proc_result :=
  Exits [] [x65; x72; x72; x6f; x72]%byte 1 true [].

(** A Unix host with no toolchain, with [httpx], and whose online service
    answers that the program printed to both streams and ended with
    status 0. *)
Definition online_host : world :=
  {| windows := false;
     sys_executable := lit "/usr/bin/python3";
     tmp := lit "/tmp/tmpk3v9x2";
     elapsed := 1204 # 1000;
     proc := λ _ _, NotFound;
     httpx_installed := true;
     piston := PistonResponse 200 (Some (lit "hi
")) (Some (lit "warning
")) (Some 0) |}.

(** An engine that finds the class [Main]. *)
Definition finds_main : regex :=
  {| findall_len := λ _ _ _, 0;
     search := λ _ _ _, false;
     search_group1 := λ _ _, Some (lit "Main") |}.

(** A Java program. *)
Definition hello_java : str :=
  lit "public class Main { public static void main(String[] a) { } }".

(** A script that prints a line. *)
Definition hello_py : str := lit "print('hi')".

(** What it prints. *)
Definition hello_out : bytes := [x68; x69; x0a]%byte.



End ExecutorCases.

(** ** What the analyzer measures *)

Module AnalyzerMeasures.
Import Py Analyzer AnalyzerSpec.

(** The classes of nodes that the metrics count. *)
Definition is_function (n : node) : bool :=
  match n with FunctionDef _ _ _ _ _ _ => true | _ => false end.

Definition is_class (n : node) : bool :=
  match n with ClassDef _ _ _ _ _ => true | _ => false end.

Definition is_loop (n : node) : bool :=
  match n with For _ _ _ _ | While _ _ _ => true | _ => false end.

Definition is_condition (n : node) : bool :=
  match n with If _ _ _ => true | _ => false end.

Definition is_try (n : node) : bool :=
  match n with Try _ _ _ _ => true | _ => false end.

Definition is_import (n : node) : bool :=
  match n with Import _ | ImportFrom _ => true | _ => false end.

(** The number of targets of an assignment statement. *)
Definition assigned (n : node) : Z :=
  match n with Assign targets _ => len targets | _ => 0 end.

(** What a node adds to the counter [key] of the metrics. *)
Definition contribution (key : string) (n : node) : Z :=
  match n with
  | FunctionDef _ _ _ _ _ _ => if bool_decide (key = "functions") then 1 else 0
  | ClassDef _ _ _ _ _ => if bool_decide (key = "classes") then 1 else 0
  | For _ _ _ _ | While _ _ _ => if bool_decide (key = "loops") then 1 else 0
  | If _ _ _ => if bool_decide (key = "conditions") then 1 else 0
  | Try _ _ _ _ => if bool_decide (key = "try_blocks") then 1 else 0
  | Import _ | ImportFrom _ => if bool_decide (key = "imports") then 1 else 0
  | Assign targets _ =>
      if bool_decide (key = "variables") then len targets else 0
  | _ => 0
  end.

(** The line counts of a dictionary of metrics add up: every line is a
    line of code, a comment or blank, and there is one line more than there
    are newline characters. *)
Definition lines_add_up (code : str) (m : dict) : Prop :=
  ∃ total code_lines comment_lines blank,
    m !! "total_lines" = Some (VInt total)
    ∧ m !! "code_lines" = Some (VInt code_lines)
    ∧ m !! "comment_lines" = Some (VInt comment_lines)
    ∧ m !! "blank_lines" = Some (VInt blank)
    ∧ total = code_lines + comment_lines + blank
    ∧ total = 1 + Z.of_nat (count_char newline code).

(** The depth of each node of a tree whose root is at depth [d]: the
    children of a nesting statement are one level deeper than it, those of
    any other node are at its level. *)
Definition depths : node → Z → list Z :=
  tree_fold (λ n children d,
    d :: flat_map (λ child, child (if is_nesting n then d + 1 else d))
           children).

(** The greatest depth in a tree whose root is at depth 0. *)
Definition deepest (tree : node) : Z := foldr Z.max 0 (depths tree 0).

(** The entry of [function_complexities] for a [def] statement, with the
    cyclomatic complexity of the statement taken as a tree. *)
Definition function_entry (n : node) : list pyval :=
  match n with
  | FunctionDef name lineno _ _ _ _ =>
      [VDict {[ "name" := VStr name;
                "complexity" := VInt (cyclomatic n);
                "line_number" := VInt lineno ]}]
  | _ => []
  end.

(** The names that the import statements of a tree import: [alias.name],
    not the name an [as] clause binds. *)
Definition imported_names (tree : node) : list str :=
  flat_map (λ n, match n with
                 | Import names | ImportFrom names => alias_names names
                 | _ => []
                 end) (subnodes tree).

(** The identifiers that occur in a tree. *)
Definition used_names (tree : node) : list str :=
  flat_map (λ n, match n with Name id _ => [id] | _ => [] end)
           (subnodes tree).

(** An issue with a line number between [lo] and [hi]. *)
Definition line_number_in (lo hi : Z) (i : dict) : Prop :=
  ∃ n, i !! "line_number" = Some (VInt n) ∧ lo ≤ n ≤ hi.

(** A line that [_check_js_syntax_issues] reports. *)
Definition lacks_semicolon (line : str) : bool :=
  not_blank line && negb (ends_statement line) && negb (starts_construct line).

(** The opening and the closing brace. *)
Definition lbrace : N := 123%N.
Definition rbrace : N := 125%N.

End AnalyzerMeasures.

(** ** More trees and tools *)

Module AnalyzerCases.
Import Py Analyzer AnalyzerExamples.

(** A class with one method, whose loop holds a test. *)
Definition method_code : str := lit "class A:
    def m(self, xs):
        for x in xs:
            if x:
                return x
".

Definition method_tree : node :=
  Module_
    [ClassDef (lit "A") [] []
       [FunctionDef (lit "m") 2
          (arguments [] [arg (lit "self") None; arg (lit "xs") None] None
             [] [] None [])
          [For (Name (lit "x") (Other [])) (Name (lit "xs") Load)
             [If (Name (lit "x") Load) [Other [Name (lit "x") Load]] []] []]
          [] None]
       []].

(** Three statements, of which the first two have no semicolon. *)
Definition unterminated_code : str := lit "x = 1
let y = 2
f(x, y);".

(** A text with a null character, which [ast.parse] refuses with a
    [ValueError]. *)
Definition null_code : str := [120%N; 0%N].

Definition refusing_parser : tools :=
  {| ast_parse := λ _,
       Raise (OtherException
                (lit "source code string cannot contain null bytes"));
     pylint_report := λ _, None;
     recursion_room := default_room; recursion_text := default_text |}.

End AnalyzerCases.

(** ** A text for the detection *)

Module DetectionCases.
Import Py.

(** A text in which one Python pattern and one JavaScript pattern match
    once each. *)
Definition mixed_code : str := lit "print(1); console.log(2)".

Definition mixed_findall (pattern : string) (code : str) : nat :=
  if bool_decide (pattern = "print\s*\(") then 1
  else if bool_decide (pattern = "console\.log\s*\(") then 1
  else 0.

End DetectionCases.

(** ** Runs of the rate limiter *)

Module RateLimiterRuns.
Import Py RateLimiter.

(** A sequence of requests, each with its client and the time of the
    call: the answers, and the limiter afterwards. *)
Fixpoint serve (self : RateLimiter) (calls : list (str * Q))
    : list bool * RateLimiter :=
  match calls with
  | [] => ([], self)
  | call :: rest =>
      let r := is_allowed self call.1 call.2 in
      let s := serve r.2 rest in
      (r.1.1 :: s.1, s.2)
  end.

(** The times of the requests of [client_id] that were allowed. *)
Fixpoint allowed_times (client_id : str) (calls : list (str * Q))
    (answers : list bool) : list Q :=
  match calls, answers with
  | call :: calls', answer :: answers' =>
      (if answer && bool_decide (call.1 = client_id) then [call.2] else [])
      ++ allowed_times client_id calls' answers'
  | _, _ => []
  end.

(** The times of a list that lie in the minute that ends at [t]: after
    [t - 60], and not after [t]. *)
Definition in_minute_before (t : Q) (times : list Q) : list Q :=
  List.filter (λ x, later x (t - 60) && negb (later x t)) times.

(** Each time of the list has fewer than [limit] times before it in the
    list that are less than a minute older. *)
Definition spaced (limit : Z) (times : list Q) : Prop :=
  ∀ before t after, times = before ++ t :: after →
    len (List.filter (λ x, later x (t - 60)) before) < limit.

(** The times of the calls do not decrease. *)
Fixpoint clock_advances (calls : list (str * Q)) : Prop :=
  match calls with
  | [] => True
  | call :: rest =>
      Forall (λ c : str * Q, (call.2 <= c.2)%Q) rest ∧ clock_advances rest
  end.

(** The time of the last call, or [now] when there is none. *)
Definition latest (now : option Q) (calls : list (str * Q)) : option Q :=
  match last calls with
  | Some call => Some call.2
  | None => now
  end.

(** The list the limiter holds for [client_id] and the list [past] of the
    times at which it allowed the client agree on the times later than any
    bound [m] that is at least a minute before [now], the time of the last
    call. *)
Definition remembers (self : RateLimiter) (client_id : str) (past : list Q)
    (now : option Q) : Prop :=
  ∀ m, (∀ t, now = Some t → (t - 60 <= m)%Q) →
    List.filter (λ x, later x m) (default [] (requests self !! client_id))
    = List.filter (λ x, later x m) past.

(** Two limiters that hold the same times for every client, a client
    without an entry holding none. *)
Definition same_requests (a b : RateLimiter) : Prop :=
  requests_per_minute a = requests_per_minute b
  ∧ ∀ client_id, default [] (requests a !! client_id)
                 = default [] (requests b !! client_id).

End RateLimiterRuns.

Module RateLimiterCases.
Import Py.

Definition visitor : str := lit "203.0.113.7".

(** Three requests in two seconds, and one a minute later. *)
Definition burst : list (str * Q) :=
  [(visitor, 0%Q); (visitor, 1%Q); (visitor, 2%Q); (visitor, 61%Q)].

(** Three requests in twenty seconds. *)
Definition hasty : list (str * Q) :=
  [(visitor, 0%Q); (visitor, 10%Q); (visitor, 20%Q)].

End RateLimiterCases.

(** ** Entries of the cache *)

Module CacheCases.
Import Py.

(** A digest for the examples: the text itself. *)
Definition plain_digest (content : str) : str := content.

(** A result to store. *)
Definition sample_result : dict := {[ "language" := VStr (lit "python") ]}.

(** The cache after a result was stored at time 0 and another at time
    4000. *)
Definition stocked : Cache.AnalysisCache :=
  (Cache.set plain_digest
     (Cache.set plain_digest Cache.analysis_cache (lit "old") (lit "python")
        sample_result 0%Q 0%Q).2
     (lit "x = 1") (lit "python") sample_result 4000%Q 4000%Q).2.

End CacheCases.

(** * Proofs *)

(** ** The executor *)

Module ExecutorProofs.
Import Py Executor ExecutorSpec.
#[local] Set Warnings "-clear-no-such-hyp".
Local Open Scope py_scope.

(** *** Rules of [wp] *)

Lemma wp_ret {A} (a : A) Q E st : Q a st → wp (ret a) Q E st.
Proof. done. Qed.

Lemma wp_raise {A} e (Q : A → state → Prop) E st :
  E e st → wp (raise e) Q E st.
Proof. done. Qed.

Lemma wp_bind {A B} (m : M A) (k : A → M B) Q E st :
  wp m (λ a st', wp (k a) Q E st') E st → wp (bind m k) Q E st.
Proof. unfold wp, bind. by destruct (m st) as [[a|e] st']. Qed.

Lemma wp_try_except {A} (body : M A) handler Q E st :
  wp body Q (λ e st', wp (handler e) Q E st') st →
  wp (try_except body handler) Q E st.
Proof. unfold wp, try_except. by destruct (body st) as [[a|e] st']. Qed.

Lemma wp_try_finally {A} (body : M A) fin Q E st :
  wp body (λ a st', wp fin (λ _ st'', Q a st'') E st')
          (λ e st', wp fin (λ _ st'', E e st'') E st') st →
  wp (try_finally body fin) Q E st.
Proof.
  unfold wp, try_finally. destruct (body st) as [[a|e] st'];
    by destruct (fin st') as [[[]|e'] st''].
Qed.

Lemma wp_attempt {A} (m : M A) Q E st :
  wp m (λ a, Q (Ok a)) (λ e, Q (Raise e)) st → wp (attempt m) Q E st.
Proof. unfold wp, attempt. by destruct (m st) as [[a|e] st']. Qed.

Lemma wp_mono {A} (m : M A) (Q Q' : A → state → Prop)
    (E E' : exn → state → Prop) st :
  wp m Q E st →
  (∀ a st', Q a st' → Q' a st') → (∀ e st', E e st' → E' e st') →
  wp m Q' E' st.
Proof. unfold wp. destruct (m st) as [[a|e] st']; auto. Qed.

Lemma wp_returns {A} (m : M A) Q st :
  wp m Q (λ _ _, False) st → ∃ a st', m st = (Ok a, st') ∧ Q a st'.
Proof. unfold wp. destruct (m st) as [[a|e] st']; [eauto | done]. Qed.

(** *** Rules of the host operations *)

Lemma truthy_app {A} (a b : list A) : truthy b = true → truthy (a ++ b) = true.
Proof. destruct a, b; done. Qed.

Lemma set_files_id f st : f (files st) = files st → set_files f st = st.
Proof. destruct st; unfold set_files; simpl; by intros ->. Qed.

Section Rules.
Context (w : world).

Lemma wp_unlink_if_exists p Q E st :
  truthy p = true →
  Q tt (set_files (λ fs, fs ∖ {[p]}) st) →
  wp (unlink_if_exists (Some p)) Q E st.
Proof.
  intros Hp HQ.
  unfold wp, unlink_if_exists, bind, os_path_exists, os_unlink, ret.
  rewrite Hp. destruct (decide (p ∈ files st)) as [Hin|Hin].
  - by rewrite !bool_decide_eq_true_2.
  - rewrite bool_decide_eq_false_2 by done.
    rewrite set_files_id in HQ; [done |].
    apply set_eq. intros x. rewrite elem_of_difference, elem_of_singleton.
    split; [by intros [Hx _] | intros Hx; split; [done | by intros ->]].
Qed.

Lemma wp_unlink_if_exists_None Q E st :
  Q tt st → wp (unlink_if_exists None) Q E st.
Proof. done. Qed.

Lemma wp_unlink_quietly p Q E st :
  truthy p = true →
  Q tt (set_files (λ fs, fs ∖ {[p]}) st) →
  wp (unlink_quietly (Some p)) Q E st.
Proof.
  intros Hp HQ.
  unfold wp, unlink_quietly, bind, os_path_exists, os_unlink, try_except, ret.
  rewrite Hp. destruct (decide (p ∈ files st)) as [Hin|Hin].
  - by rewrite !bool_decide_eq_true_2.
  - rewrite bool_decide_eq_false_2 by done.
    rewrite set_files_id in HQ; [done |].
    apply set_eq. intros x. rewrite elem_of_difference, elem_of_singleton.
    split; [by intros [Hx _] | intros Hx; split; [done | by intros ->]].
Qed.

Lemma wp_unlink_quietly_None Q E st :
  Q tt st → wp (unlink_quietly None) Q E st.
Proof. done. Qed.

Lemma wp_write_temp suffix code Q E st :
  (if encodable code
   then Q (tmp w ++ suffix) (set_files (λ fs, {[tmp w ++ suffix]} ∪ fs) st)
   else ∀ msg, E (UnicodeEncodeError msg)
                 (set_files (λ fs, {[tmp w ++ suffix]} ∪ fs) st)) →
  wp (write_temp w suffix code) Q E st.
Proof. unfold wp, write_temp. destruct (encodable code); auto. Qed.

Lemma wp_write_file path code Q E st :
  (if encodable code
   then Q tt (set_files (λ fs, {[path]} ∪ fs) st)
   else ∀ msg, E (UnicodeEncodeError msg)
                 (set_files (λ fs, {[path]} ∪ fs) st)) →
  wp (write_file path code) Q E st.
Proof. unfold wp, write_file. destruct (encodable code); auto. Qed.

Lemma wp_mkdtemp Q E st :
  Q (tmp w) (set_files (λ fs, {[tmp w]} ∪ fs) st) → wp (mkdtemp w) Q E st.
Proof. done. Qed.

Lemma wp_rmtree_quietly d Q E st :
  d ∈ files st →
  Q tt (set_files (filter (λ p, ¬ below w d p)) st) →
  wp (try_except (shutil_rmtree w d) (λ _, ret tt)) Q E st.
Proof.
  intros Hd HQ. unfold wp, try_except, shutil_rmtree.
  by rewrite bool_decide_eq_true_2.
Qed.

Lemma wp_create_subprocess_exec argv cwd Q E st :
  match proc w argv cwd with
  | NotFound => ∀ msg, E (FileNotFoundError msg) st
  | SpawnError msg => E (OtherException msg) st
  | Exits out err rc it cr =>
      Q {| p_argv := argv; p_stdout := out; p_stderr := err;
           p_returncode := rc; p_in_time := it |}
        {| files := list_to_set cr ∪ files st;
           spawned := argv :: spawned st; killed := killed st |}
  end →
  wp (create_subprocess_exec w argv cwd) Q E st.
Proof.
  unfold wp, create_subprocess_exec. destruct (proc w argv cwd); auto.
Qed.

Lemma wp_communicate p Q E st :
  Q (p_stdout p, p_stderr p) st → wp (communicate p) Q E st.
Proof. done. Qed.

Lemma wp_wait_for_communicate p Q E st :
  (if p_in_time p then Q (p_stdout p, p_stderr p) st
   else E TimeoutError st) →
  wp (wait_for_communicate p) Q E st.
Proof. unfold wp, wait_for_communicate. by destruct (p_in_time p). Qed.

Lemma wp_kill p Q E st :
  Q tt {| files := files st; spawned := spawned st;
          killed := p_argv p :: killed st |} →
  wp (kill p) Q E st.
Proof. done. Qed.

Lemma wp_subprocess_run argv cwd Q E st :
  match proc w argv cwd with
  | NotFound => ∀ msg, E (FileNotFoundError msg) st
  | SpawnError msg => E (OtherException msg) st
  | Exits out err rc it cr =>
      let st' := {| files := list_to_set cr ∪ files st;
                    spawned := argv :: spawned st; killed := killed st |} in
      if it then Q (universal_newlines (decode out),
                    universal_newlines (decode err), rc) st'
      else E TimeoutExpired
             {| files := files st'; spawned := spawned st';
                killed := argv :: killed st' |}
  end →
  wp (subprocess_run w argv cwd) Q E st.
Proof.
  intros H. unfold subprocess_run.
  apply wp_bind, wp_create_subprocess_exec.
  destruct (proc w argv cwd) as [| |out err rc it cr]; [done | done |].
  destruct it; simpl in *; [by apply wp_ret |].
  by apply wp_bind, wp_kill, wp_raise.
Qed.

End Rules.

(** *** Text helpers *)

Lemma startswith_refl_app p s : startswith p (p ++ s) = true.
Proof. induction p as [|c p IH]; simpl; [done|]. by rewrite N.eqb_refl. Qed.

Lemma contains_prefix p s : contains p (p ++ s) = true.
Proof.
  destruct (p ++ s) eqn:E; simpl; rewrite <- ?E, startswith_refl_app; done.
Qed.

Lemma contains_skip sub a s : contains sub s = true → contains sub (a ++ s) = true.
Proof.
  intros H. induction a as [|c a IH]; [done|]. simpl.
  by rewrite IH, orb_true_r.
Qed.

Lemma contains_middle a sub b : contains sub (a ++ sub ++ b) = true.
Proof. apply contains_skip, contains_prefix. Qed.

Lemma strip_if_strip x : strip_if x = strip x.
Proof. by destruct x. Qed.

Lemma lstrip_nonspace c s : is_space c = false → lstrip (c :: s) = c :: s.
Proof. intros H. simpl. by rewrite H. Qed.

Lemma strip_edges a b s :
  is_space a = false → is_space b = false → strip (a :: s ++ [b]) = a :: s ++ [b].
Proof.
  intros Ha Hb. unfold strip, rstrip. rewrite lstrip_nonspace by done.
  rewrite app_comm_cons, reverse_app. change (reverse [b]) with [b].
  cbn [app]. rewrite lstrip_nonspace by done.
  by rewrite reverse_cons, reverse_involutive.
Qed.

Lemma strip_timeout_message self : strip (timeout_message self) = timeout_message self.
Proof.
  unfold timeout_message.
  change (lit "Execution timeout (") with (69%N :: lit "xecution timeout (").
  change (lit "s exceeded)") with (lit "s exceeded" ++ [41%N]).
  rewrite <- app_comm_cons, !app_assoc.
  apply strip_edges; reflexivity.
Qed.

Lemma stderr_seen_script w self language err :
  language ∈ [lit "python"; lit "javascript"; lit "typescript"] →
  stderr_seen w self language err
  = truthy (slice_to (max_output_length self) (text w err)).
Proof.
  intros H. unfold stderr_seen. destruct (windows w); [done|].
  rewrite bool_decide_eq_false_2; [done|].
  intros H'. revert H.
  rewrite !elem_of_cons, !elem_of_nil in H' |- *.
  intros [->|[->|[->|[]]]]; destruct H' as [?|[?|[?|[]]]]; discriminate.
Qed.

Ltac red_proc := cbn [fst snd Z.eqb negb p_returncode p_stdout p_stderr p_in_time p_argv].

Ltac in_list :=
  repeat first [apply list_elem_of_here | apply list_elem_of_further].

Ltac finish :=
  split; [reflexivity | split; [intros ?; try done; simpl; in_list | simpl; in_list]].

(** *** The four pipelines, for a script that is launched *)

Lemma python_runs w self code out err rc it cr st :
  encodable code = true →
  proc w [sys_executable w; tmp w ++ lit ".py"] None = Exits out err rc it cr →
  wp (_execute_python w self code)
     (λ d st', d = run_result w self (lit "python") out err rc it
               ∧ (it = false → [sys_executable w; tmp w ++ lit ".py"] ∈ killed st')
               ∧ [sys_executable w; tmp w ++ lit ".py"] ∈ spawned st')
     (λ _ _, False) st.
Proof.
  intros Hc Hp. unfold _execute_python. cbv zeta.
  apply wp_bind, wp_attempt, wp_write_temp. rewrite Hc.
  apply wp_try_except.
  unfold run_result, shown, text. rewrite stderr_seen_script by in_list. unfold text.
  destruct (windows w).
  - apply wp_bind. unfold _run_python_subprocess.
    apply wp_try_except, wp_bind, wp_subprocess_run. rewrite Hp. cbv zeta.
    destruct it.
    + apply wp_ret, wp_bind, wp_unlink_if_exists; [by apply truthy_app|].
      apply wp_ret. unfold result_of_info, capped_info. simpl.
      rewrite !strip_if_strip. finish.
    + apply wp_ret, wp_bind, wp_unlink_if_exists; [by apply truthy_app|].
      apply wp_ret. unfold result_of_info. simpl.
      rewrite !strip_if_strip, strip_timeout_message. finish.
  - apply wp_bind, wp_create_subprocess_exec. rewrite Hp.
    apply wp_try_except, wp_bind, wp_wait_for_communicate. simpl.
    destruct it.
    + apply wp_bind, wp_unlink_if_exists; [by apply truthy_app|].
      apply wp_ret. unfold capped. rewrite !strip_if_strip. finish.
    + apply wp_bind, wp_kill, wp_bind, wp_unlink_if_exists; [by apply truthy_app|].
      apply wp_ret. finish.
Qed.

Lemma javascript_runs w self code language out err rc it cr st :
  language ∈ [lit "javascript"; lit "typescript"] →
  encodable code = true →
  proc w [lit "node"; tmp w ++ lit ".js"] None = Exits out err rc it cr →
  wp (_execute_javascript w self code)
     (λ d st', d = run_result w self language out err rc it
               ∧ (it = false → [lit "node"; tmp w ++ lit ".js"] ∈ killed st')
               ∧ [lit "node"; tmp w ++ lit ".js"] ∈ spawned st')
     (λ _ _, False) st.
Proof.
  intros Hl Hc Hp. unfold _execute_javascript. cbv zeta.
  apply wp_bind, wp_attempt, wp_write_temp. rewrite Hc.
  apply wp_try_except.
  unfold run_result, shown, text. rewrite stderr_seen_script by (by apply list_elem_of_further). unfold text.
  destruct (windows w).
  - apply wp_bind. unfold _run_node_subprocess.
    apply wp_try_except, wp_bind, wp_subprocess_run. rewrite Hp. cbv zeta.
    destruct it.
    + apply wp_ret, wp_bind, wp_unlink_if_exists; [by apply truthy_app|].
      apply wp_ret. unfold result_of_info, capped_info. simpl.
      rewrite !strip_if_strip. finish.
    + apply wp_ret, wp_bind, wp_unlink_if_exists; [by apply truthy_app|].
      apply wp_ret. unfold result_of_info. simpl.
      rewrite !strip_if_strip, strip_timeout_message. finish.
  - apply wp_bind, wp_create_subprocess_exec. rewrite Hp.
    apply wp_try_except, wp_bind, wp_wait_for_communicate. simpl.
    destruct it.
    + apply wp_bind, wp_unlink_if_exists; [by apply truthy_app|].
      apply wp_ret. unfold capped. rewrite !strip_if_strip. finish.
    + apply wp_bind, wp_kill, wp_bind, wp_unlink_if_exists; [by apply truthy_app|].
      apply wp_ret. finish.
Qed.

Lemma stderr_seen_compiled w self language err :
  language ∈ [lit "java"; lit "cpp"; lit "c"] →
  stderr_seen w self language err =
  if windows w then truthy (slice_to (max_output_length self) (text w err))
  else truthy err.
Proof. intros H. unfold stderr_seen. by rewrite (bool_decide_eq_true_2 _ H). Qed.

Lemma java_runs re w self code cn cout cerr cit ccr out err rc it cr st :
  encodable code = true →
  java_class re code = Some cn →
  proc w [lit "javac"; path_join w (tmp w) (cn ++ lit ".java")] (Some (tmp w))
    = Exits cout cerr 0 cit ccr →
  (windows w = true → cit = true) →
  proc w [lit "java"; cn] (Some (tmp w)) = Exits out err rc it cr →
  wp (_execute_java re w self code)
     (λ d st', d = run_result w self (lit "java") out err rc it
               ∧ (it = false → [lit "java"; cn] ∈ killed st')
               ∧ [lit "java"; cn] ∈ spawned st')
     (λ _ _, False) st.
Proof.
  intros Hc Hcn Hj Hcit Hp. unfold _execute_java. unfold java_class in Hcn.
  apply wp_try_except. rewrite Hcn.
  apply wp_bind, wp_mkdtemp, wp_try_finally. cbv zeta.
  apply wp_bind, wp_write_file. rewrite Hc.
  unfold run_result, shown. rewrite stderr_seen_compiled by (by apply elem_of_cons; left).
  unfold text.
  destruct (windows w) eqn:Hw.
  - rewrite Hcit in Hj by done.
    apply wp_bind. unfold _run_java_subprocess.
    apply wp_try_except, wp_bind, wp_subprocess_run. rewrite Hj. cbv zeta.
    red_proc. apply wp_bind, wp_subprocess_run. rewrite Hp. cbv zeta.
    destruct it.
    + apply wp_ret, wp_ret, wp_rmtree_quietly; [simpl; set_solver by idtac|].
      unfold result_of_info, capped_info. simpl.
      rewrite !strip_if_strip. finish.
    + apply wp_ret, wp_ret, wp_rmtree_quietly; [simpl; set_solver by idtac|].
      unfold result_of_info. simpl.
      rewrite !strip_if_strip, strip_timeout_message. finish.
  - apply wp_bind, wp_create_subprocess_exec. rewrite Hj.
    apply wp_bind, wp_communicate. red_proc.
    apply wp_bind, wp_create_subprocess_exec. rewrite Hp.
    apply wp_try_except, wp_bind, wp_wait_for_communicate. red_proc.
    destruct it.
    + apply wp_ret, wp_rmtree_quietly; [simpl; set_solver by idtac|]. finish.
    + apply wp_bind, wp_kill, wp_ret, wp_rmtree_quietly; [simpl; set_solver by idtac|].
      finish.
Qed.

Lemma truthy_replace s :
  truthy s = true → truthy (replace (lit ".cpp") (lit ".exe") s) = true.
Proof.
  unfold replace. generalize (lit ".cpp") (lit ".exe") (eq_refl : truthy (lit ".exe") = true).
  intros old new Hn. destruct s as [|c s]; [done|]. intros _. simpl.
  destruct (startswith old (c :: s)); [|done]. by destruct new.
Qed.

Lemma cpp_runs w self code language cout cerr cit ccr out err rc it cr st :
  language ∈ [lit "cpp"; lit "c"] →
  let src := tmp w ++ lit ".cpp" in
  let exe := replace (lit ".cpp") (lit ".exe") src in
  encodable code = true →
  proc w [lit "g++"; src; lit "-o"; exe] None = Exits cout cerr 0 cit ccr →
  (windows w = true → cit = true) →
  proc w [exe] None = Exits out err rc it cr →
  wp (_execute_cpp w self code)
     (λ d st', d = run_result w self language out err rc it
               ∧ (it = false → [exe] ∈ killed st')
               ∧ [exe] ∈ spawned st')
     (λ _ _, False) st.
Proof.
  intros Hl src exe Hc Hg Hcit Hp. unfold _execute_cpp. cbv zeta.
  apply wp_bind, wp_attempt, wp_write_temp. rewrite Hc.
  apply wp_try_except. fold src. fold exe.
  assert (truthy src = true) as Hsrc by by apply truthy_app.
  assert (truthy exe = true) as Hexe by by apply truthy_replace.
  unfold run_result, shown. rewrite stderr_seen_compiled by (by apply list_elem_of_further).
  unfold text.
  destruct (windows w) eqn:Hw.
  - rewrite Hcit in Hg by done.
    apply wp_bind. unfold _run_cpp_subprocess.
    apply wp_try_except, wp_bind, wp_subprocess_run. rewrite Hg. cbv zeta.
    red_proc. apply wp_bind, wp_subprocess_run. rewrite Hp. cbv zeta.
    destruct it.
    + apply wp_ret, wp_bind, wp_unlink_if_exists; [done|].
      apply wp_bind, wp_unlink_if_exists; [done|]. apply wp_ret.
      unfold result_of_info, capped_info. simpl.
      rewrite !strip_if_strip. finish.
    + apply wp_ret, wp_bind, wp_unlink_if_exists; [done|].
      apply wp_bind, wp_unlink_if_exists; [done|]. apply wp_ret.
      unfold result_of_info. simpl.
      rewrite !strip_if_strip, strip_timeout_message. finish.
  - apply wp_bind, wp_create_subprocess_exec. rewrite Hg.
    apply wp_bind, wp_communicate. red_proc.
    apply wp_bind, wp_create_subprocess_exec. rewrite Hp.
    apply wp_try_except, wp_bind, wp_wait_for_communicate. red_proc.
    destruct it.
    + apply wp_bind, wp_unlink_if_exists; [done|].
      apply wp_bind, wp_unlink_if_exists; [done|]. apply wp_ret. finish.
    + apply wp_bind, wp_kill, wp_bind, wp_unlink_if_exists; [done|].
      apply wp_bind, wp_unlink_if_exists; [done|]. apply wp_ret. finish.
Qed.

(** *** The entry point *)

Lemma execute_python re w self code st :
  execute re w self code (lit "python") st
  = try_except (_execute_python w self code)
      (λ e, ret (result_dict [] (exn_str e) (VInt 0) false)) st.
Proof. reflexivity. Qed.

Lemma execute_javascript re w self code language st :
  language ∈ [lit "javascript"; lit "typescript"] →
  execute re w self code language st
  = try_except (_execute_javascript w self code)
      (λ e, ret (result_dict [] (exn_str e) (VInt 0) false)) st.
Proof.
  rewrite !elem_of_cons, elem_of_nil. intros [->|[->|[]]]; reflexivity.
Qed.

Lemma execute_java re w self code st :
  execute re w self code (lit "java") st
  = try_except (_execute_java re w self code)
      (λ e, ret (result_dict [] (exn_str e) (VInt 0) false)) st.
Proof. reflexivity. Qed.

Lemma execute_cpp re w self code language st :
  language ∈ [lit "cpp"; lit "c"] →
  execute re w self code language st
  = try_except (_execute_cpp w self code)
      (λ e, ret (result_dict [] (exn_str e) (VInt 0) false)) st.
Proof.
  rewrite !elem_of_cons, elem_of_nil. intros [->|[->|[]]]; reflexivity.
Qed.

(** A launched script: the result is [run_result], the script process is
    among the launched ones, and it is killed when it does not end in
    time. *)
Lemma execute_runs re w self code language argv out err rc it cr st :
  runs re w code language argv (Exits out err rc it cr) →
  ∃ st', execute re w self code language st
         = (Ok (run_result w self language out err rc it), st')
         ∧ (it = false → argv ∈ killed st')
         ∧ argv ∈ spawned st'.
Proof.
  intros (Hc & Hcomp & cwd & Hcmd & Hp).
  unfold script_command in Hcmd. unfold compiled, compile_command in Hcomp.
  assert (∀ m : M dict,
            wp m (λ d st', d = run_result w self language out err rc it
                           ∧ (it = false → argv ∈ killed st')
                           ∧ argv ∈ spawned st') (λ _ _, False) st →
            ∃ st', try_except m
                     (λ e, ret (result_dict [] (exn_str e) (VInt 0) false)) st
                   = (Ok (run_result w self language out err rc it), st')
                   ∧ (it = false → argv ∈ killed st')
                   ∧ argv ∈ spawned st') as Hwp.
  { intros m Hm. unfold wp in Hm. unfold try_except.
    destruct (m st) as [[d|e] st']; [|done].
    destruct Hm as (-> & ? & ?). eauto. }
  case_bool_decide as Hpy.
  { subst language. simplify_eq. rewrite execute_python.
    by eapply Hwp, python_runs. }
  case_bool_decide as Hjs.
  { simplify_eq. rewrite execute_javascript by done.
    by eapply Hwp, javascript_runs. }
  case_bool_decide as Hjava.
  { subst language. destruct (java_class re code) as [cn|] eqn:Hcn; [|done].
    simplify_eq. destruct Hcomp as (cout & cerr & cit & ccr & Hj & Hcit).
    rewrite execute_java. by eapply Hwp, java_runs. }
  case_bool_decide as Hcpp; [|done].
  simplify_eq. destruct Hcomp as (cout & cerr & cit & ccr & Hg & Hcit).
  rewrite execute_cpp by done. by eapply Hwp, cpp_runs.
Qed.

(** *** Every path returns a result *)

Lemma post_ret {A} (a : A) (P : A → Prop) : P a → post (ret a) P.
Proof. by intros H st. Qed.

Lemma post_raise {A} e (P : A → Prop) : post (raise e) P.
Proof. by intros st. Qed.

Lemma post_bind {A B} (m : M A) (k : A → M B) (P : B → Prop) :
  (∀ a, post (k a) P) → post (bind m k) P.
Proof.
  intros H st. unfold wp, bind.
  destruct (m st) as [[a|e] st']; [apply H | done].
Qed.

Lemma post_try_except {A} (body : M A) handler (P : A → Prop) :
  post body P → (∀ e, post (handler e) P) → post (try_except body handler) P.
Proof.
  intros Hb Hh st. apply wp_try_except.
  eapply wp_mono; [apply Hb | done | intros e st' _; apply Hh].
Qed.

Lemma post_try_finally {A} (body : M A) fin (P : A → Prop) :
  post body P → post (try_finally body fin) P.
Proof.
  intros Hb st. specialize (Hb st). unfold wp, try_finally in *.
  destruct (body st) as [r st']. by destruct (fin st') as [[[]|e] st''].
Qed.

Lemma is_result_dict o e t s : is_result (result_dict o e t s).
Proof. by exists o, e, t, s. Qed.

Lemma is_result_complete d : is_result d → complete d.
Proof.
  intros (o & e & t & s & ->). unfold complete, result_dict.
  repeat split; eexists; reflexivity.
Qed.

Ltac post_step :=
  match goal with
  | |- post (ret _) _ => apply post_ret
  | |- post (raise _) _ => apply post_raise
  | |- post (bind _ _) _ => apply post_bind; intros ?
  | |- post (try_except _ _) _ => apply post_try_except; [|intros ?]
  | |- post (try_finally _ _) _ => apply post_try_finally
  | |- post (match ?x with _ => _ end) _ => destruct x
  | |- is_result _ =>
      unfold result_of_info, timeout_result, error_result;
      apply is_result_dict
  | |- _ => progress cbv beta zeta
  end.

Lemma _execute_python_result w self code :
  post (_execute_python w self code) is_result.
Proof. unfold _execute_python. repeat post_step. Qed.

Lemma _execute_javascript_result w self code :
  post (_execute_javascript w self code) is_result.
Proof. unfold _execute_javascript. repeat post_step. Qed.

Lemma _execute_java_result re w self code :
  post (_execute_java re w self code) is_result.
Proof. unfold _execute_java, _execute_java_online. repeat post_step. Qed.

Lemma _execute_cpp_result w self code :
  post (_execute_cpp w self code) is_result.
Proof. unfold _execute_cpp. repeat post_step. Qed.

(** [execute] returns, whatever the host does, and what it returns has the
    four fields. *)
Lemma execute_total re w self code language st :
  ∃ d st', execute re w self code language st = (Ok d, st') ∧ is_result d.
Proof.
  apply wp_returns. unfold execute, pipeline. apply wp_try_except.
  eapply wp_mono with (Q := λ d _, is_result d) (E := λ _ _, True);
    [|done|intros e st' _; apply is_result_dict].
  revert st. change (post (if bool_decide (language = lit "python")
    then _execute_python w self code
    else if bool_decide (language ∈ [lit "javascript"; lit "typescript"])
    then _execute_javascript w self code
    else if bool_decide (language = lit "java") then _execute_java re w self code
    else if bool_decide (language ∈ [lit "cpp"; lit "c"])
    then _execute_cpp w self code
    else ret (result_dict [] (lit "Code execution not supported for " ++ language)
                (VInt 0) false)) is_result).
  repeat case_bool_decide;
    auto using _execute_python_result, _execute_javascript_result,
      _execute_java_result, _execute_cpp_result, post_ret, is_result_dict.
Qed.

(** *** Properties of the results *)

Import ExecutorExamples.




Lemma length_lstrip s : (length (lstrip s) ≤ length s)%nat.
Proof. induction s as [|c s IH]; simpl; [done|]. destruct (is_space c); simpl; lia. Qed.

Lemma length_strip s : (length (strip s) ≤ length s)%nat.
Proof.
  unfold strip, rstrip. rewrite length_reverse.
  etrans; [apply length_lstrip|]. rewrite length_reverse. apply length_lstrip.
Qed.

Lemma strip_no_edge_space s a b :
  head s = Some a → last s = Some b →
  is_space a = false → is_space b = false → strip s = s.
Proof.
  intros Hh Hl Ha Hb. destruct s as [|x s]; [done|].
  injection Hh as Hx. rewrite Hx in *. clear Hx x.
  destruct s as [|c s _] using rev_ind.
  - unfold strip, rstrip. rewrite lstrip_nonspace by done.
    rewrite reverse_singleton. by rewrite lstrip_nonspace.
  - rewrite app_comm_cons, last_snoc in Hl. injection Hl as Hc.
    rewrite Hc. by apply strip_edges.
Qed.

Lemma length_slice_to n s : 0 ≤ n → n < len s → len (slice_to n s) = n.
Proof.
  intros H0 Hn. unfold slice_to, len in *.
  rewrite (proj2 (Z.leb_le 0 n)) by done. rewrite length_take. lia.
Qed.

Lemma length_slice_to_le n s : 0 ≤ n → len (slice_to n s) ≤ n.
Proof.
  intros H0. unfold slice_to, len.
  rewrite (proj2 (Z.leb_le 0 n)) by done. rewrite length_take. lia.
Qed.

(** The fields of [run_result]. *)
Lemma run_result_success w self language out err rc it :
  run_result w self language out err rc it !! "success"
  = Some (VBool (it && (rc =? 0) && negb (stderr_seen w self language err))).
Proof. by destruct it. Qed.

Lemma run_result_output w self language out err rc :
  run_result w self language out err rc true !! "output"
  = Some (VStr (shown w self out)).
Proof. done. Qed.

Lemma run_result_error w self language out err rc :
  run_result w self language out err rc true !! "error"
  = Some (VStr (shown w self err)).
Proof. done. Qed.

(** [success] is true exactly when the script ends in time with status 0
    and the value tested for stderr is empty. *)
Lemma success_iff re w self code language argv out err rc it cr st :
  runs re w code language argv (Exits out err rc it cr) →
  ∃ d st', execute re w self code language st = (Ok d, st')
    ∧ (d !! "success" = Some (VBool true)
       ↔ it = true ∧ rc = 0 ∧ stderr_seen w self language err = false).
Proof.
  intros Hr. destruct (execute_runs re w self _ _ _ _ _ _ _ _ st Hr)
    as (st' & -> & _). eexists _, _. split; [done|].
  rewrite run_result_success. split.
  - intros [= H]. apply andb_prop in H as [[-> ->%Z.eqb_eq]%andb_prop H].
    by destruct (stderr_seen _ _ _ _).
  - intros (-> & -> & ->). done.
Qed.

(** On the asyncio path of Java, C and C++ the raw bytes are tested: there
    [success] is true exactly when the script ends in time with status 0
    and nothing on stderr. *)
Lemma success_iff_compiled re w self code language argv out err rc it cr st :
  language ∈ [lit "java"; lit "cpp"; lit "c"] → windows w = false →
  runs re w code language argv (Exits out err rc it cr) →
  ∃ d st', execute re w self code language st = (Ok d, st')
    ∧ (d !! "success" = Some (VBool true) ↔ it = true ∧ rc = 0 ∧ err = []).
Proof.
  intros Hl Hw Hr.
  destruct (success_iff re w self _ _ _ _ _ _ _ _ st Hr) as (d & st' & -> & H).
  eexists _, _. split; [done|]. rewrite H.
  rewrite stderr_seen_compiled, Hw by done.
  destruct err; simpl; intuition discriminate.
Qed.

(** An empty stderr never stands in the way of [success]. *)
Lemma success_if_clean re w self code language argv out cr st :
  runs re w code language argv (Exits out [] 0 true cr) →
  ∃ d st', execute re w self code language st = (Ok d, st')
    ∧ d !! "success" = Some (VBool true).
Proof.
  intros Hr.
  destruct (success_iff re w self _ _ _ _ _ _ _ _ st Hr) as (d & st' & -> & H).
  eexists _, _. split; [done|]. apply H. repeat split.
  unfold stderr_seen, text, slice_to, decode. simpl.
  repeat case_match; simpl; by rewrite ?take_nil.
Qed.

(** *** Temporary files *)

Ltac wp_step :=
  lazymatch goal with
  | |- wp (ret _) _ _ _ => apply wp_ret
  | |- wp (raise _) _ _ _ => apply wp_raise
  | |- wp (bind _ _) _ _ _ => apply wp_bind
  | |- wp (attempt _) _ _ _ => apply wp_attempt
  | |- wp (try_except (shutil_rmtree _ _) _) _ _ _ =>
      apply wp_rmtree_quietly; [simpl; set_solver by idtac|]
  | |- wp (try_except _ _) _ _ _ => apply wp_try_except
  | |- wp (try_finally _ _) _ _ _ => apply wp_try_finally
  | |- wp (write_temp _ _ _) _ _ _ => apply wp_write_temp
  | |- wp (write_file _ _) _ _ _ => apply wp_write_file
  | |- wp (mkdtemp _) _ _ _ => apply wp_mkdtemp
  | |- wp (create_subprocess_exec _ ?argv ?cwd) _ _ _ =>
      apply wp_create_subprocess_exec; destruct (proc _ argv cwd) eqn:?
  | |- wp (subprocess_run _ ?argv ?cwd) _ _ _ =>
      apply wp_subprocess_run;
      destruct (proc _ argv cwd) as [| |? ? ? [] ?] eqn:?
  | |- wp (communicate _) _ _ _ => apply wp_communicate
  | |- wp (wait_for_communicate _) _ _ _ => apply wp_wait_for_communicate
  | |- wp (kill _) _ _ _ => apply wp_kill
  | |- wp (unlink_if_exists (Some _)) _ _ _ =>
      apply wp_unlink_if_exists; [done|]
  | |- wp (unlink_if_exists None) _ _ _ => apply wp_unlink_if_exists_None
  | |- wp (unlink_quietly (Some _)) _ _ _ => apply wp_unlink_quietly; [done|]
  | |- wp (unlink_quietly None) _ _ _ => apply wp_unlink_quietly_None
  | |- wp (if ?b then _ else _) _ _ _ => destruct b eqn:?
  | |- wp (match ?e with _ => _ end) _ _ _ => destruct e
  | |- ∀ _, _ => intros ?
  | |- if encodable ?c then _ else _ =>
      first [ match goal with H : encodable _ = _ |- _ => rewrite H end
            | destruct (encodable c) eqn:? ]
  | |- if ?b then _ else _ => destruct b eqn:?
  | |- let _ := _ in _ => intros ?
  end.

Ltac wp_go :=
  repeat first [progress cbv beta iota zeta | progress red_proc | wp_step].


Ltac use_procs Hcr :=
  repeat match goal with
    | H : proc _ _ _ = Exits _ _ _ _ _ |- _ =>
        let H' := fresh in pose proof (Hcr _ _ _ _ _ _ _ H) as H'; clear H
    end.

(** Each pipeline leaves the disk as it found it, whether it returns or
    raises, when the code can be written. *)
Lemma python_clean w self code st :
  encodable code = true → fresh_names w (lit "python") st → tidy w (lit "python") →
  wp (_execute_python w self code) (λ _ st', files st' = files st)
     (λ _ st', files st' = files st) st.
Proof.
  intros Hc Hf Ht. unfold _execute_python.
  assert (truthy (tmp w ++ lit ".py") = true) by by apply truthy_app.
  assert (tmp w ++ lit ".py" ∉ files st) as Hnew.
  { intros Hin. by apply (Hf _ Hin). }
  assert (∀ argv cwd out err rc it cr,
            proc w argv cwd = Exits out err rc it cr → cr = []) as Hcr.
  { intros ??????? Hp. destruct cr as [|p cr]; [done|].
    destruct (Ht _ _ _ _ _ _ _ Hp p) as [[[] _]|[[] _]]. apply list_elem_of_here. }
  unfold _run_python_subprocess.
  wp_go.
  all: use_procs Hcr; subst; cbn [files set_files].
  all: set_solver by idtac.
Qed.

Lemma one_of_two {A} (x a b : A) : x ∈ [a; b] → x = a ∨ x = b.
Proof. rewrite !elem_of_cons, elem_of_nil. tauto. Qed.

Lemma javascript_clean w self code language st :
  language ∈ [lit "javascript"; lit "typescript"] →
  encodable code = true → fresh_names w language st → tidy w language →
  wp (_execute_javascript w self code) (λ _ st', files st' = files st)
     (λ _ st', files st' = files st) st.
Proof.
  intros Hl Hc Hf Ht. unfold _execute_javascript.
  assert (truthy (tmp w ++ lit ".js") = true) by by apply truthy_app.
  assert (tmp w ++ lit ".js" ∉ files st) as Hnew.
  { intros Hin. apply (Hf _ Hin). unfold scratch.
    by destruct (one_of_two _ _ _ Hl) as [-> | ->]. }
  assert (∀ argv cwd out err rc it cr,
            proc w argv cwd = Exits out err rc it cr → cr = []) as Hcr.
  { intros ??????? Hp. destruct cr as [|p cr]; [done|].
    destruct (one_of_two _ _ _ Hl) as [-> | ->];
      destruct (Ht _ _ _ _ _ _ _ Hp p) as [[[] _]|[[] _]];
      apply list_elem_of_here. }
  unfold _run_node_subprocess.
  wp_go.
  all: use_procs Hcr; subst; cbn [files set_files].
  all: set_solver by idtac.
Qed.

Lemma below_self w d : below w d d = true.
Proof. unfold below. by rewrite bool_decide_eq_true_2. Qed.

Lemma below_join w d x : below w d (path_join w d x) = true.
Proof.
  unfold below, path_join. rewrite app_assoc, startswith_refl_app.
  apply orb_true_r.
Qed.

Lemma filter_scratch (w : world) (d : str) (F S : gset str) :
  (∀ p : str, p ∈ F → ¬ below w d p) →
  (∀ p : str, p ∈ S → p ∈ F ∨ below w d p) →
  F ⊆ S →
  filter (λ p, ¬ below w d p) S = F.
Proof.
  intros HF HS Hsub. apply set_eq. intros p. rewrite elem_of_filter. split.
  - intros [Hn Hin]. by destruct (HS p Hin).
  - intros Hin. split; [by apply HF | by apply Hsub].
Qed.

Lemma java_clean re w self code st :
  fresh_names w (lit "java") st → tidy w (lit "java") →
  wp (_execute_java re w self code) (λ _ st', files st' = files st)
     (λ _ st', files st' = files st) st.
Proof.
  intros Hf Ht. unfold _execute_java.
  assert (∀ p, p ∈ files st → ¬ below w (tmp w) p) as Hnew.
  { intros p Hin Hb. apply (Hf _ Hin). by apply Is_true_true. }
  assert (∀ argv cwd out err rc it cr,
            proc w argv cwd = Exits out err rc it cr →
            ∀ p, p ∈ cr → below w (tmp w) p) as Hcr.
  { intros ??????? Hp p Hin.
    destruct (Ht _ _ _ _ _ _ _ Hp p Hin) as [[_ Hb]|[[] _]].
    by apply Is_true_true. }
  assert (∀ x, below w (tmp w) (path_join w (tmp w) x)) as Hjoin.
  { intros x. apply Is_true_true, below_join. }
  assert (below w (tmp w) (tmp w)) as Hself.
  { apply Is_true_true, below_self. }
  unfold _run_java_subprocess, _execute_java_online.
  wp_go.
  all: use_procs Hcr; cbn [files set_files]; try done.
  all: apply filter_scratch; [done | | ].
  all: try (clear; set_solver by idtac).
  all: intros p; rewrite ?elem_of_union, ?elem_of_list_to_set, ?elem_of_singleton; intuition (subst; auto).
Qed.

Lemma cpp_clean w self code language st :
  language ∈ [lit "cpp"; lit "c"] →
  encodable code = true → fresh_names w language st → tidy w language →
  wp (_execute_cpp w self code) (λ _ st', files st' = files st)
     (λ _ st', files st' = files st) st.
Proof.
  intros Hl Hc Hf Ht. unfold _execute_cpp.
  set (src := tmp w ++ lit ".cpp") in *.
  set (exe := replace (lit ".cpp") (lit ".exe") src) in *.
  assert (truthy src = true) as Hsrc by by apply truthy_app.
  assert (truthy exe = true) as Hexe by by apply truthy_replace.
  assert ((src ∉ files st) ∧ (exe ∉ files st)) as [Hnew1 Hnew2].
  { split; intros Hin; apply (Hf _ Hin); unfold scratch;
      destruct (one_of_two _ _ _ Hl) as [-> | ->]; simpl; auto. }
  assert (∀ argv cwd out err rc it cr,
            proc w argv cwd = Exits out err rc it cr →
            (rc = 0 ∧ ∀ p, p ∈ cr → p = exe) ∨ cr = []) as Hcr.
  { intros ??????? Hp. destruct cr as [|q cr]; [by right|]. left.
    assert (rc = 0) as ->.
    { destruct (Ht _ _ _ _ _ _ _ Hp q) as [[Hj _]|(_ & ? & _)];
        [apply list_elem_of_here| |done].
      by destruct (one_of_two _ _ _ Hl) as [-> | ->]. }
    split; [done|]. intros p Hin.
    destruct (Ht _ _ _ _ _ _ _ Hp p Hin) as [[Hj _]|(_ & _ & ?)]; [|done].
    by destruct (one_of_two _ _ _ Hl) as [-> | ->]. }
  unfold _run_cpp_subprocess.
  wp_go.
  all: use_procs Hcr; cbn [files set_files]; fold src; fold exe.
  all: clear Hf Ht Hcr Hsrc Hexe Hl Hc; clearbody src exe.
  all: repeat match goal with H : _ ∧ _ ∨ _ = [] |- _ => destruct H as [[-> H] | ->] end.
  all: try discriminate.
  all: set_solver by idtac.
Qed.


(** X1. When the source text can be encoded, the temporary names are
    fresh and the child processes create nothing but the build artifacts
    expected of them, no file or directory that [execute] or its child
    processes create is left: the call returns a result, and the files on
    disk after the call are those before it. *)
Lemma no_temp_file_remains re w self code language st :
  encodable code = true → fresh_names w language st → tidy w language →
  ∃ d st', execute re w self code language st = (Ok d, st')
           ∧ files st' = files st.
Proof.
  intros Hc Hf Ht. apply wp_returns. unfold execute, pipeline.
  apply wp_try_except.
  eapply wp_mono with (Q := λ _ st', files st' = files st)
                      (E := λ _ st', files st' = files st);
    [|done|by intros e st' H].
  repeat case_bool_decide; subst.
  - by apply python_clean.
  - by eapply javascript_clean.
  - by apply java_clean.
  - by eapply cpp_clean.
  - done.
Qed.

(** The hypotheses can be met: a C++ request on a host whose compiler
    writes the binary. *)
Lemma no_temp_file_remains_cpp :
  ∃ d st', execute no_match cpp_host code_executor hello_cpp (lit "cpp") fresh
           = (Ok d, st')
           ∧ files st' = ∅.
Proof.
  destruct (no_temp_file_remains no_match cpp_host code_executor hello_cpp
              (lit "cpp") fresh) as (d & st' & H & Hfiles).
  - reflexivity.
  - intros p Hin. by apply not_elem_of_empty in Hin.
  - intros argv cwd out err rc it cr Hp p Hin. right.
    simpl in Hp. case_bool_decide; injection Hp as <- <- <- <- <-.
    + apply list_elem_of_singleton in Hin as ->. by vm_compute.
    + by apply elem_of_nil in Hin.
  - by exists d, st'.
Defined.

(** The Java pipeline removes its directory even when the write fails: its
    [try]/[finally] covers the write. *)
Lemma java_cleans_up_after_failed_write re w self code st :
  encodable code = false →
  fresh_names w (lit "java") st → tidy w (lit "java") →
  ∃ d st', execute re w self code (lit "java") st = (Ok d, st')
           ∧ files st' = files st.
Proof.
  intros _ Hf Ht. apply wp_returns.
  change (execute re w self code (lit "java"))
    with (try_except (_execute_java re w self code)
            (λ e, ret (result_dict [] (exn_str e) (VInt 0) false))).
  apply wp_try_except.
  eapply wp_mono with (Q := λ _ st', files st' = files st)
                      (E := λ _ st', files st' = files st);
    [by apply java_clean | done | by intros e st' H].
Qed.

(** *** The claims about the executor *)

Import ExecutorCases.




(** C6, as stated, fails: a script prints 12000 characters, more than the
    cap of 10000, and the output returned has 9999 characters, because the
    capped text ends with a newline that [strip] removes. *)
Lemma output_shorter_than_cap :
  let host := unix_host (Exits many_lines_out [] 0 true []) in
  max_output_length code_executor < len (text host many_lines_out)
  ∧ ∃ d st' s,
      execute no_match host code_executor many_lines (lit "python") fresh
      = (Ok d, st')
      ∧ d !! "output" = Some (VStr s)
      ∧ len s = 9999
      ∧ len s ≠ max_output_length code_executor.
Proof.
  intros host. split; [by vm_compute|].
  assert (runs no_match host many_lines (lit "python") python_argv
            (Exits many_lines_out [] 0 true [])) as Hr.
  { split; [reflexivity|]. split; [exact I|]. by exists None. }
  destruct (execute_runs no_match host code_executor _ _ _ _ _ _ _ _ fresh Hr)
    as (st' & -> & _).
  eexists _, _, _. split; [done|]. split; [apply run_result_output|].
  split; by vm_compute.
Qed.

(** C6, amended. For a script that is run on the host (the source can be
    encoded, the compile step, if any, passes, and the child process ends
    within the timeout), the output returned is the decoded stdout cut to
    the maximum length and then stripped, and the error likewise: the
    output has at most the maximum length, and exactly that length when
    stdout is longer and the cut text neither starts nor ends with white
    space. A Java program that the online service runs is not such a
    script: its output is stripped and not cut. *)
Theorem output_capped_then_stripped re w self code language argv out err rc
    cr st :
  0 ≤ max_output_length self →
  runs re w code language argv (Exits out err rc true cr) →
  let cut := slice_to (max_output_length self) (text w out) in
  ∃ d st', execute re w self code language st = (Ok d, st')
    ∧ d !! "output" = Some (VStr (strip cut))
    ∧ d !! "error"
      = Some (VStr (strip (slice_to (max_output_length self) (text w err))))
    ∧ len (strip cut) ≤ max_output_length self
    ∧ (max_output_length self < len (text w out) →
       ∀ a b, head cut = Some a → last cut = Some b →
              is_space a = false → is_space b = false →
              len (strip cut) = max_output_length self).
Proof.
  intros Hmax Hr cut.
  destruct (execute_runs re w self _ _ _ _ _ _ _ _ st Hr) as (st' & -> & _).
  eexists _, _. split; [done|]. split; [apply run_result_output|].
  split; [apply run_result_error|]. split.
  - etrans; [|by apply (length_slice_to_le _ (text w out))].
    unfold len. apply inj_le, length_strip.
  - intros Hlong a b Ha Hb Hsa Hsb.
    rewrite (strip_no_edge_space cut a b) by done.
    by apply length_slice_to.
Qed.

(** An instance: a Python script that prints 12000 letters, on a Unix
    host. *)
Lemma output_capped_then_stripped_witness :
  let host := unix_host (Exits many_letters_out [] 0 true []) in
  let cut := slice_to (max_output_length code_executor)
               (text host many_letters_out) in
  0 ≤ max_output_length code_executor
  ∧ runs no_match host many_letters (lit "python") python_argv
      (Exits many_letters_out [] 0 true [])
  ∧ ∃ d st',
      execute no_match host code_executor many_letters (lit "python") fresh
      = (Ok d, st')
      ∧ d !! "output" = Some (VStr (strip cut))
      ∧ d !! "error"
        = Some (VStr (strip (slice_to (max_output_length code_executor)
                               (text host []))))
      ∧ len (strip cut) ≤ max_output_length code_executor
      ∧ (max_output_length code_executor < len (text host many_letters_out) →
         ∀ a b, head cut = Some a → last cut = Some b →
                is_space a = false → is_space b = false →
                len (strip cut) = max_output_length code_executor).
Proof.
  intros host cut.
  assert (0 ≤ max_output_length code_executor) as Hmax by (by vm_compute).
  assert (runs no_match host many_letters (lit "python") python_argv
            (Exits many_letters_out [] 0 true [])) as Hr.
  { split; [reflexivity|]. split; [exact I|]. by exists None. }
  split; [exact Hmax|]. split; [exact Hr|].
  exact (output_capped_then_stripped no_match host code_executor many_letters
           (lit "python") python_argv many_letters_out [] 0 [] fresh Hmax Hr).
Defined.

(** C2. The Python pipeline reports [success] for a script that ends with
    status 0 after writing to stderr, when what it wrote is no UTF-8: the
    test is made on the decoded text, which is empty. *)
Theorem success_despite_stderr :
  let host := unix_host (Exits [] cryptic_err 0 true []) in
  cryptic_err ≠ []
  ∧ ∃ d st',
      execute no_match host code_executor cryptic (lit "python") fresh
      = (Ok d, st')
      ∧ d !! "success" = Some (VBool true)
      ∧ d !! "error" = Some (VStr []).
Proof.
  intros host. split; [done|].
  assert (runs no_match host cryptic (lit "python") python_argv
            (Exits [] cryptic_err 0 true [])) as Hr.
  { split; [reflexivity|]. split; [exact I|]. by exists None. }
  destruct (execute_runs no_match host code_executor _ _ _ _ _ _ _ _ fresh Hr)
    as (st' & -> & _).
  eexists _, _. split; [done|]. split; by vm_compute.
Qed.

(** C8. For a source text that cannot be encoded, the Python pipeline
    returns an error result and leaves the temporary file it created on
    disk: the write fails before [temp_file] is assigned, so the handler
    has nothing to delete. No process is launched. *)
Theorem temp_file_left_behind re w self st :
  ∃ d st', execute re w self lone_surrogate (lit "python") st = (Ok d, st')
    ∧ d !! "success" = Some (VBool false)
    ∧ tmp w ++ lit ".py" ∈ files st'
    ∧ files st' = {[tmp w ++ lit ".py"]} ∪ files st
    ∧ spawned st' = spawned st.
Proof.
  rewrite execute_python. eexists _, _. split; [reflexivity|].
  split; [reflexivity|]. simpl. split; [|done].
  apply elem_of_union_l. by apply elem_of_singleton.
Qed.

(** C10. For the executor, TypeScript is JavaScript: the two tags run the
    same function. *)
Theorem typescript_is_javascript re w self code :
  execute re w self code (lit "typescript")
  = execute re w self code (lit "javascript").
Proof. reflexivity. Qed.

End ExecutorProofs.

(** ** The analyzer *)

Module AnalyzerProofs.
Import Py Analyzer AnalyzerSpec AnalyzerExamples ExecutorExamples.
Import ExecutorProofs.

(** *** Walking a tree *)

Lemma map_present {A B} (f : A → B) (o : option A) :
  map f (present o) = match o with Some x => [f x] | None => [] end.
Proof. by destruct o. Qed.

Lemma map_concat_present {A B} (f : A → B) (l : list (option A)) :
  map f (concat (present <$> l))
  = concat (map (λ o, match o with Some x => [f x] | None => [] end) l).
Proof.
  induction l as [|o l IH]; [done|]. cbn.
  rewrite map_app, map_present. f_equal. exact IH.
Qed.

(** [tree_fold] goes through the children that [iter_child_nodes] lists. *)
Lemma tree_fold_eq {A} (f : node → list A → A) n :
  tree_fold f n = f n (map (tree_fold f) (iter_child_nodes n)).
Proof.
  destruct n; simpl;
    rewrite ?map_app, ?map_present, ?map_concat_present; reflexivity.
Qed.

Lemma subnodes_eq n : subnodes n = n :: flat_map subnodes (iter_child_nodes n).
Proof.
  unfold subnodes at 1. rewrite tree_fold_eq. f_equal.
  induction (iter_child_nodes n) as [|c l IH]; [done|]. simpl. by rewrite IH.
Qed.

Lemma flat_map_app {A B} (f : A → list B) l1 l2 :
  flat_map f (l1 ++ l2) = flat_map f l1 ++ flat_map f l2.
Proof. induction l1; simpl; [done|]. by rewrite IHl1, app_assoc. Qed.

(** With fuel for every node in the queue, the loop of [ast.walk] yields
    each node of each queued tree once. *)
Lemma walk_queue_perm fuel todo :
  (length (flat_map subnodes todo) ≤ fuel)%nat →
  walk_queue fuel todo ≡ₚ flat_map subnodes todo.
Proof.
  revert todo. induction fuel as [|fuel IH]; intros [|n todo] Hlen; try done.
  - simpl in Hlen. rewrite (subnodes_eq n) in Hlen. simpl in Hlen. lia.
  - simpl. rewrite (subnodes_eq n). simpl. constructor.
    rewrite IH.
    + rewrite flat_map_app. apply Permutation_app_comm.
    + simpl in Hlen. rewrite (subnodes_eq n) in Hlen. simpl in Hlen.
      rewrite flat_map_app. rewrite !length_app in *. lia.
Qed.

(** [ast.walk] yields the nodes of the tree, each once. *)
Lemma walk_perm tree : walk tree ≡ₚ subnodes tree.
Proof.
  unfold walk. rewrite walk_queue_perm; simpl; rewrite app_nil_r; done.
Qed.

Lemma flat_map_perm {A B} (f : A → list B) l1 l2 :
  l1 ≡ₚ l2 → flat_map f l1 ≡ₚ flat_map f l2.
Proof.
  induction 1 as [|x l1 l2 _ IH|x y l|l1 l2 l3 _ IH1 _ IH2]; simpl.
  - done.
  - by rewrite IH.
  - apply Permutation_app_swap_app.
  - by rewrite IH1.
Qed.

(** *** The cyclomatic complexity *)

Lemma total_perm f l1 l2 : l1 ≡ₚ l2 → total f l1 = total f l2.
Proof.
  unfold total.
  induction 1 as [|x l1 l2 _ IH|x y l|l1 l2 l3 _ IH1 _ IH2]; simpl; lia.
Qed.

Lemma foldl_complexity_step a l :
  foldl complexity_step a l = a + total (complexity_step 0) l.
Proof.
  revert a. induction l as [|n l IH]; intros a; simpl; [lia|].
  rewrite IH. destruct n; simpl; lia.
Qed.

(** *** Induction on trees *)

Lemma length_flat_map_elem {A B} (f : A → list B) l x :
  x ∈ l → (length (f x) ≤ length (flat_map f l))%nat.
Proof.
  induction l as [|y l IH]; [by intros ?%elem_of_nil|].
  simpl. rewrite length_app. intros [->|Hin]%elem_of_cons; [lia|].
  specialize (IH Hin). lia.
Qed.

Lemma child_smaller n c :
  c ∈ iter_child_nodes n → (length (subnodes c) < length (subnodes n))%nat.
Proof.
  intros Hc. rewrite (subnodes_eq n). simpl.
  pose proof (length_flat_map_elem subnodes _ _ Hc). lia.
Qed.

(** A property holds of every node when it holds of a node whose child
    nodes have it. *)
Lemma node_children_ind (P : node → Prop) :
  (∀ n, (∀ c, c ∈ iter_child_nodes n → P c) → P n) → ∀ n, P n.
Proof.
  intros H n. remember (length (subnodes n)) as k eqn:Hk. revert n Hk.
  induction k as [k IH] using lt_wf_ind. intros n ->.
  apply H. intros c Hc. eapply IH; [|reflexivity]. by apply child_smaller.
Qed.

(** *** The recursion of [get_depth] *)

Lemma foldl_map {A B C} (f : A → C → A) (g : B → C) a l :
  foldl f a (map g l) = foldl (λ x y, f x (g y)) a l.
Proof. revert a. induction l as [|y l IH]; intros a; simpl; [done|]. apply IH. Qed.

Lemma height_eq n :
  height n = S (foldr Nat.max 0%nat (map height (iter_child_nodes n))).
Proof. unfold height at 1. by rewrite tree_fold_eq. Qed.

Lemma heights_below room (cs : list node) :
  (foldr Nat.max 0 (map height cs) ≤ room)%nat
  ↔ Forall (λ c, (height c ≤ room)%nat) cs.
Proof.
  induction cs as [|c cs IH]; simpl.
  - split; [constructor | lia].
  - rewrite Forall_cons, <- IH. lia.
Qed.

Lemma depth_found_eq n d :
  depth_found n d
  = foldl (λ max_depth c,
             Z.max max_depth
               (depth_found c (if is_nesting n then d + 1 else d)))
          d (iter_child_nodes n).
Proof.
  unfold depth_found at 1. rewrite tree_fold_eq. fold depth_found.
  by rewrite foldl_map.
Qed.

Lemma get_depth_no_room env n d :
  get_depth env n 0 d = Raise (recursion_error env).
Proof. unfold get_depth. by rewrite tree_fold_eq. Qed.

Lemma get_depth_eq env n room d :
  get_depth env n (S room) d
  = foldl (depth_turn
             (λ c, get_depth env c room (if is_nesting n then d + 1 else d)))
          (Ok d) (iter_child_nodes n).
Proof.
  unfold get_depth at 1. rewrite tree_fold_eq. fold (get_depth env).
  cbv beta iota. rewrite foldl_map.
  assert ((match n with
           | If _ _ _ | For _ _ _ _ | While _ _ _ | With _ _ | Try _ _ _ _ =>
               d + 1
           | _ => d
           end) = (if is_nesting n then d + 1 else d)) as -> by by destruct n.
  reflexivity.
Qed.

Lemma depth_turns_raise g e (cs : list node) :
  foldl (depth_turn g) (Raise e) cs = Raise e.
Proof. induction cs as [|c cs IH]; [done|]. exact IH. Qed.

(** Every call returns: so does the loop, with the greatest depth. *)
Lemma depth_turns_return g f (cs : list node) : ∀ a,
  Forall (λ c, g c = Ok (f c)) cs →
  foldl (depth_turn g) (Ok a) cs
  = Ok (foldl (λ max_depth c, Z.max max_depth (f c)) a cs).
Proof.
  induction cs as [|c cs IH]; intros a H; [done|].
  apply Forall_cons in H as [Hc H]. simpl. rewrite Hc. by apply IH.
Qed.

(** One call raises: so does the loop. *)
Lemma depth_turns_fail g e (cs : list node) : ∀ a,
  Forall (λ c, (∃ v, g c = Ok v) ∨ g c = Raise e) cs →
  Exists (λ c, g c = Raise e) cs →
  foldl (depth_turn g) (Ok a) cs = Raise e.
Proof.
  induction cs as [|c cs IH]; intros a Hall Hex; [by apply Exists_nil in Hex|].
  apply Forall_cons in Hall as [Hc Hall]. simpl.
  destruct Hc as [[v Hc]|Hc]; rewrite Hc.
  - apply IH; [done|]. apply Exists_cons in Hex as [Hex|Hex]; [congruence|done].
  - apply depth_turns_raise.
Qed.

(** [get_depth] returns when the interpreter has room for every level of
    the tree, and raises otherwise. *)
Lemma get_depth_room env n : ∀ room d,
  get_depth env n room d
  = if decide (height n ≤ room)%nat then Ok (depth_found n d)
    else Raise (recursion_error env).
Proof.
  induction n as [n IH] using node_children_ind. intros [|room] d.
  - rewrite get_depth_no_room, height_eq. by rewrite decide_False by lia.
  - rewrite get_depth_eq, height_eq.
    destruct (decide (Forall (λ c, (height c ≤ room)%nat) (iter_child_nodes n)))
      as [Hfit|Hdeep].
    + rewrite decide_True by (apply le_n_S; by apply heights_below).
      rewrite depth_found_eq. apply depth_turns_return.
      apply Forall_forall. intros c Hc. rewrite (IH c Hc).
      apply decide_True. by apply (proj1 (Forall_forall _ _) Hfit).
    + rewrite decide_False
        by (intros H; apply Hdeep, heights_below; lia).
      apply depth_turns_fail.
      * apply Forall_forall. intros c Hc. rewrite (IH c Hc).
        destruct (decide _); [left; eauto | by right].
      * apply not_Forall_Exists in Hdeep; [|intros c; apply _].
        apply Exists_exists in Hdeep as (c & Hc & Hdeepc).
        apply Exists_exists. exists c. split; [done|].
        rewrite (IH c Hc). by apply decide_False.
Qed.

Lemma nesting_depth_room env tree :
  fits env tree →
  _calculate_max_nesting_depth env tree = Ok (depth_found tree 0).
Proof.
  intros H. unfold _calculate_max_nesting_depth. rewrite get_depth_room.
  by apply decide_True.
Qed.

Lemma nesting_depth_no_room env tree :
  ¬ fits env tree →
  _calculate_max_nesting_depth env tree = Raise (recursion_error env).
Proof.
  intros H. unfold _calculate_max_nesting_depth. rewrite get_depth_room.
  by apply decide_False.
Qed.

(** *** Counting *)

Lemma count_if_total p l : count_if p l = total (λ n, if p n then 1 else 0) l.
Proof.
  unfold count_if, len, total. induction l as [|n l IH]; simpl; [done|].
  destruct (p n); simpl; lia.
Qed.

Lemma total_plus f g l : total f l + total g l = total (λ n, f n + g n) l.
Proof. unfold total. induction l; simpl; lia. Qed.

Lemma total_ext f g l : Forall (λ n, f n = g n) l → total f l = total g l.
Proof. unfold total. induction 1 as [|n l H _ IH]; simpl; [done|]. lia. Qed.

Lemma total_zero f l : Forall (λ n, f n = 0) l → total f l = 0.
Proof. unfold total. induction 1 as [|n l H _ IH]; simpl; lia. Qed.

(** The loop of the analyzer computes the complexity of the
    specification. *)
Lemma complexity_loop tree :
  operands_present tree →
  foldl complexity_step 1 (walk tree) = cyclomatic tree.
Proof.
  intros Hwf. rewrite foldl_complexity_step, (total_perm _ _ _ (walk_perm tree)).
  unfold cyclomatic. rewrite count_if_total, <- Z.add_assoc, total_plus.
  f_equal. apply total_ext. eapply Forall_impl; [exact Hwf|].
  intros n Hn. destruct n; simpl; try done.
  destruct values; [done|]. unfold len. simpl. lia.
Qed.

Lemma complexity_without_branches tree :
  Forall (λ n, is_branch n = false ∧ is_boolop n = false) (subnodes tree) →
  foldl complexity_step 1 (walk tree) = 1.
Proof.
  intros H. rewrite foldl_complexity_step, (total_perm _ _ _ (walk_perm tree)).
  rewrite total_zero; [done|]. eapply Forall_impl; [exact H|].
  intros n [H1 H2]. by destruct n.
Qed.

(** *** The fields of the bundles *)

(** The complexity analysis of a tree the interpreter has room for. *)
Lemma python_complexity_room env tree :
  fits env tree →
  ∃ c, _analyze_python_complexity env tree = Ok c
    ∧ c !! "cyclomatic_complexity"
      = Some (VInt (foldl complexity_step 1 (walk tree)))
    ∧ c !! "nesting_depth" = Some (VInt (depth_found tree 0)).
Proof.
  intros H. unfold _analyze_python_complexity.
  rewrite (nesting_depth_room _ _ H). eexists. split; [reflexivity|].
  split; reflexivity.
Qed.

(** For a tree it has no room for, the analysis stops after the metrics:
    the bundle has them, one warning and nothing else. *)
Lemma python_no_room env code tree :
  ast_parse env code = Ok tree →
  ¬ fits env tree →
  _analyze_python env code
  = extend_issues
      [issue (lit "Analysis Error")
         (lit "Failed to analyze Python code: " ++ recursion_text env)
         (lit "warning")
         (lit "Check code structure and try again")]
      (<["metrics" := VDict (_extract_python_metrics tree code)]>
         empty_results).
Proof.
  intros Hparse H. unfold _analyze_python, _analyze_python_complexity.
  rewrite Hparse, (nesting_depth_no_room _ _ H). reflexivity.
Qed.

Lemma python_issues env code tree :
  ast_parse env code = Ok tree →
  fits env tree →
  _analyze_python env code !! "issues"
  = Some (VList (VDict <$> (_check_python_syntax_issues tree code
                            ++ _check_python_style_issues code
                            ++ _check_python_potential_bugs tree code
                            ++ _run_pylint env code))).
Proof.
  intros H Hfit. unfold _analyze_python. rewrite H.
  destruct (python_complexity_room env tree Hfit) as (c & -> & _).
  rewrite !fmap_app, !app_assoc. reflexivity.
Qed.

Lemma python_complexity env code tree :
  ast_parse env code = Ok tree →
  fits env tree →
  ∃ c, _analyze_python_complexity env tree = Ok c
    ∧ _analyze_python env code !! "complexity_analysis" = Some (VDict c).
Proof.
  intros H Hfit. unfold _analyze_python. rewrite H.
  destruct (python_complexity_room env tree Hfit) as (c & Hc & _).
  exists c. rewrite Hc. split; reflexivity.
Qed.

Lemma analyze_python re env code :
  analyze re env code (lit "python") = _analyze_python env code.
Proof. reflexivity. Qed.

Lemma bundle_complete_python env code : bundle_complete (_analyze_python env code).
Proof.
  unfold _analyze_python.
  destruct (ast_parse env code) as [tree|[]];
    [destruct (_analyze_python_complexity env tree) as [c|[]]|..];
    repeat split; eexists; reflexivity.
Qed.

Lemma bundle_complete_analyze re env code language :
  bundle_complete (analyze re env code language).
Proof.
  unfold analyze, dispatch. repeat case_bool_decide.
  - apply bundle_complete_python.
  - repeat split; eexists; reflexivity.
  - repeat split; eexists; reflexivity.
  - repeat split; eexists; reflexivity.
  - repeat split; eexists; reflexivity.
Qed.

Lemma bundle_complete_error error_msg code language :
  bundle_complete (_create_error_result error_msg code language).
Proof. repeat split; eexists; reflexivity. Qed.

(** *** Severities *)

Lemma issue_ok title description severity suggestion :
  severity ∈ severities → dict_ok (issue title description severity suggestion).
Proof. intros H. by exists severity. Qed.

Lemma issue_at_ok title description severity suggestion line_number :
  severity ∈ severities →
  dict_ok (issue_at title description severity suggestion line_number).
Proof. intros H. by exists severity. Qed.

Lemma error_ok : lit "error" ∈ severities.
Proof. apply list_elem_of_here. Qed.

Lemma warning_ok : lit "warning" ∈ severities.
Proof. apply list_elem_of_further, list_elem_of_here. Qed.

Lemma info_ok : lit "info" ∈ severities.
Proof. do 2 apply list_elem_of_further. apply list_elem_of_here. Qed.

Lemma Forall_flat_map {A B} (P : B → Prop) (f : A → list B) l :
  (∀ x, Forall P (f x)) → Forall P (flat_map f l).
Proof.
  intros H. induction l as [|x l IH]; simpl; [done|]. by apply Forall_app_2.
Qed.

Lemma severity_ok_fmap l : Forall dict_ok l → Forall severity_ok (VDict <$> l).
Proof.
  induction 1 as [|d l (s & Hs & Hin) _ IH]; simpl; constructor; [|done].
  by exists d, s.
Qed.

Create HintDb severity.
#[local] Hint Resolve issue_ok issue_at_ok error_ok warning_ok info_ok
  Forall_nil_2 Forall_cons_2 Forall_app_2 : severity.

Ltac severity :=
  repeat match goal with
    | |- Forall _ (_ ++ _) => apply Forall_app_2
    | |- Forall _ (if ?b then _ else _) => destruct b
    | |- Forall _ (match ?x with _ => _ end) => destruct x
    | |- Forall _ (flat_map _ _) => apply Forall_flat_map; intros ?
    end;
  auto 6 with severity.

Lemma syntax_issues_ok tree code :
  Forall dict_ok (_check_python_syntax_issues tree code).
Proof. unfold _check_python_syntax_issues. cbv zeta. severity. Qed.

Lemma missing_blank_lines_ok i prev lines :
  Forall dict_ok (missing_blank_lines i prev lines).
Proof.
  revert i prev. induction lines as [|line rest IH]; intros i prev; simpl;
    [done|].
  apply Forall_app_2; [|apply IH]. severity.
Qed.

Lemma style_issues_ok code : Forall dict_ok (_check_python_style_issues code).
Proof.
  unfold _check_python_style_issues. cbv zeta.
  apply Forall_app_2; [severity | apply missing_blank_lines_ok].
Qed.

Lemma potential_bugs_ok tree code :
  Forall dict_ok (_check_python_potential_bugs tree code).
Proof.
  unfold _check_python_potential_bugs, mutable_default_issues,
    bare_except_issues. severity.
Qed.

Lemma pylint_issue_severity item :
  pylint_issue item !! "severity"
  = Some (VStr (if bool_decide (item_type item = Some (lit "error"))
                then lit "error" else lit "warning")).
Proof. reflexivity. Qed.

Lemma pylint_ok env code : Forall dict_ok (_run_pylint env code).
Proof.
  unfold _run_pylint. destruct (pylint_report env code) as [items|]; [|done].
  apply Forall_fmap, Forall_forall. intros item _.
  eexists. split; [apply pylint_issue_severity|].
  case_bool_decide; auto with severity.
Qed.

Lemma python_ok env code :
  ∃ issues, _analyze_python env code !! "issues" = Some (VList issues)
            ∧ Forall severity_ok issues.
Proof.
  destruct (ast_parse env code) as [tree|e] eqn:H.
  - destruct (decide (height tree ≤ recursion_room env)%nat) as [Hfit|Hdeep].
    + eexists. split; [by apply python_issues|].
      apply severity_ok_fmap.
      auto using Forall_app_2, syntax_issues_ok, style_issues_ok,
        potential_bugs_ok, pylint_ok.
    + rewrite (python_no_room _ _ _ H Hdeep).
      eexists; split; [reflexivity|].
      apply (severity_ok_fmap [_]); auto with severity.
  - unfold _analyze_python. rewrite H.
    destruct e; (eexists; split; [reflexivity|]);
      apply (severity_ok_fmap [_]); auto with severity.
Qed.

Lemma missing_semicolons_ok i lines : Forall dict_ok (missing_semicolons i lines).
Proof.
  revert i. induction lines as [|line rest IH]; intros i; simpl; [done|].
  apply Forall_app_2; [|apply IH]. severity.
Qed.

Lemma javascript_ok re code language :
  ∃ issues, _analyze_javascript re code language !! "issues"
            = Some (VList issues)
            ∧ Forall severity_ok issues.
Proof.
  exists (VDict <$> (_check_js_syntax_issues code
                     ++ _check_js_style_issues re code
                     ++ _check_js_security_issues code
                     ++ _check_js_performance_issues re code)).
  split; [rewrite !fmap_app, !app_assoc; reflexivity|].
  apply severity_ok_fmap.
  unfold _check_js_syntax_issues, _check_js_style_issues,
    _check_js_security_issues, _check_js_performance_issues. cbv zeta.
  repeat apply Forall_app_2; try apply missing_semicolons_ok; severity.
Qed.

Lemma java_ok re code :
  ∃ issues, _analyze_java re code !! "issues" = Some (VList issues)
            ∧ Forall severity_ok issues.
Proof.
  exists (VDict <$> _check_java_patterns re code). split; [reflexivity|].
  apply severity_ok_fmap. unfold _check_java_patterns. severity.
Qed.

Lemma cpp_ok re code :
  ∃ issues, _analyze_cpp re code !! "issues" = Some (VList issues)
            ∧ Forall severity_ok issues.
Proof.
  exists (VDict <$> _check_cpp_patterns re code). split; [reflexivity|].
  apply severity_ok_fmap. unfold _check_cpp_patterns. severity.
Qed.

Lemma generic_ok re code language :
  ∃ issues, _analyze_generic re code language !! "issues"
            = Some (VList issues)
            ∧ Forall severity_ok issues.
Proof.
  eexists. split; [reflexivity|]. apply (severity_ok_fmap [_]).
  auto with severity.
Qed.

Lemma error_result_ok error_msg code language :
  ∃ issues, _create_error_result error_msg code language !! "issues"
            = Some (VList issues)
            ∧ Forall severity_ok issues.
Proof.
  eexists. split; [reflexivity|]. apply (severity_ok_fmap [_]).
  auto with severity.
Qed.

Lemma analyze_ok re env code language :
  ∃ issues, analyze re env code language !! "issues" = Some (VList issues)
            ∧ Forall severity_ok issues.
Proof.
  unfold analyze, dispatch. repeat case_bool_decide;
    auto using python_ok, javascript_ok, java_ok, cpp_ok, generic_ok.
Qed.

(** The issues about mutable defaults, from the defaults examined. *)
Lemma examined_issues l :
  flat_map mutable_default_issues l
  = (λ f : str * Z,
       issue_at (lit "Mutable Default Argument")
         (lit "Function '" ++ f.1 ++ lit "' has mutable default argument")
         (lit "warning")
         (lit "Use None as default and create mutable object inside function")
         (VInt f.2))
    <$> flat_map examined_defaults l.
Proof.
  induction l as [|n l IH]; [done|]. simpl. rewrite fmap_app, IH. f_equal.
  destruct n; try done. simpl.
  match goal with |- context [defaults_of ?a] => generalize (defaults_of a) end.
  intros ds. induction ds as [|d ds IHd]; [done|]. simpl.
  destruct (mutable_literal d); simpl; by rewrite IHd.
Qed.

(** *** The claims about the analyzer *)

(** The trees of sums have no boolean operator. *)
Lemma sum_of_ones_operands terms :
  Forall (λ n, match n with BoolOp _ [] => False | _ => True end)
         (subnodes (sum_of_ones terms)).
Proof.
  induction terms as [|terms IH]; [by repeat constructor|].
  cbn [sum_of_ones]. rewrite subnodes_eq. cbn [iter_child_nodes flat_map].
  constructor; [done|]. apply Forall_app_2; [exact IH|].
  by repeat constructor.
Qed.

Lemma sum_of_ones_plain terms :
  Forall (λ n, is_branch n = false ∧ is_boolop n = false)
         (subnodes (sum_of_ones terms)).
Proof.
  induction terms as [|terms IH]; [by repeat constructor|].
  cbn [sum_of_ones]. rewrite subnodes_eq. cbn [iter_child_nodes flat_map].
  constructor; [done|]. apply Forall_app_2; [exact IH|].
  by repeat constructor.
Qed.

(** C3, as stated, fails: the text [x = 1+1+...+1] with 1100 terms is
    valid, and its tree has more levels than the recursion of [get_depth]
    has room for under the default recursion limit. The [RecursionError] is
    caught, and it leaves the bundle without a complexity analysis: its
    only issue is the warning "Analysis Error". The text has no branching
    construct and no boolean operator, and no complexity of 1 is
    reported. *)
Lemma deep_tree_has_no_complexity :
  ast_parse (parsing_to deep_tree) deep_code = Ok deep_tree
  ∧ operands_present deep_tree
  ∧ Forall (λ n, is_branch n = false ∧ is_boolop n = false)
           (subnodes deep_tree)
  ∧ (recursion_room (parsing_to deep_tree) < height deep_tree)%nat
  ∧ analyze no_match (parsing_to deep_tree) deep_code (lit "python")
      !! "complexity_analysis" = Some (VDict ∅)
  ∧ ∃ i, analyze no_match (parsing_to deep_tree) deep_code (lit "python")
           !! "issues" = Some (VList [VDict i])
      ∧ i !! "title" = Some (VStr (lit "Analysis Error"))
      ∧ i !! "severity" = Some (VStr (lit "warning")).
Proof.
  assert (recursion_room (parsing_to deep_tree) < height deep_tree)%nat
    as Hdeep by (apply Nat.ltb_lt; by vm_compute).
  split; [reflexivity|]. split; [|split; [|split; [exact Hdeep|]]].
  - unfold operands_present, deep_tree. rewrite subnodes_eq.
    cbn [iter_child_nodes flat_map]. constructor; [done|].
    rewrite app_nil_r, subnodes_eq. cbn [iter_child_nodes flat_map app].
    constructor; [done|]. do 2 (constructor; [done|]).
    rewrite app_nil_r. apply sum_of_ones_operands.
  - unfold deep_tree. rewrite subnodes_eq.
    cbn [iter_child_nodes flat_map]. constructor; [done|].
    rewrite app_nil_r, subnodes_eq. cbn [iter_child_nodes flat_map app].
    constructor; [done|]. do 2 (constructor; [done|]).
    rewrite app_nil_r. apply sum_of_ones_plain.
  - rewrite analyze_python,
      (python_no_room (parsing_to deep_tree) deep_code deep_tree eq_refl)
      by (unfold fits; lia).
    generalize (_extract_python_metrics deep_tree deep_code). intros metrics.
    split; [reflexivity|]. eexists. split; [reflexivity|].
    split; reflexivity.
Qed.

(** C3, amended. For a text that parses to a tree with no more levels than
    the recursion of [get_depth] has room for, the reported cyclomatic
    complexity is 1, plus one for each [if], [for], [while] and [except]
    handler, plus, for each boolean-operator expression, the number of its
    operands beyond the first; it is 1 when the tree has no such construct
    and no boolean operator. *)
Theorem cyclomatic_complexity_counts re env code tree :
  ast_parse env code = Ok tree →
  operands_present tree →
  fits env tree →
  ∃ c, analyze re env code (lit "python") !! "complexity_analysis"
       = Some (VDict c)
    ∧ c !! "cyclomatic_complexity" = Some (VInt (cyclomatic tree))
    ∧ (Forall (λ n, is_branch n = false ∧ is_boolop n = false)
         (subnodes tree) →
       c !! "cyclomatic_complexity" = Some (VInt 1)).
Proof.
  intros Hparse Hwf Hfit.
  destruct (python_complexity env code tree Hparse Hfit) as (c & Hc & Hb).
  destruct (python_complexity_room env tree Hfit) as (c' & Hc' & Hcc & _).
  assert (c' = c) as -> by congruence.
  exists c. rewrite analyze_python. split; [exact Hb|]. rewrite Hcc. split.
  - by rewrite complexity_loop.
  - intros H. by rewrite complexity_without_branches.
Qed.

(** An instance: a test on a three-operand condition followed by a loop has
    complexity 5. *)
Lemma cyclomatic_complexity_counts_witness :
  ast_parse (parsing_to branching_tree) branching_code = Ok branching_tree
  ∧ operands_present branching_tree
  ∧ fits (parsing_to branching_tree) branching_tree
  ∧ cyclomatic branching_tree = 5
  ∧ ∃ c, analyze no_match (parsing_to branching_tree) branching_code
           (lit "python") !! "complexity_analysis" = Some (VDict c)
      ∧ c !! "cyclomatic_complexity" = Some (VInt (cyclomatic branching_tree))
      ∧ (Forall (λ n, is_branch n = false ∧ is_boolop n = false)
           (subnodes branching_tree) →
         c !! "cyclomatic_complexity" = Some (VInt 1)).
Proof.
  assert (operands_present branching_tree) as Hwf.
  { unfold operands_present. vm_compute. repeat constructor. }
  assert (fits (parsing_to branching_tree) branching_tree) as Hfit.
  { apply Nat.leb_le. by vm_compute. }
  split; [reflexivity|]. split; [exact Hwf|]. split; [exact Hfit|].
  split; [reflexivity|].
  exact (cyclomatic_complexity_counts no_match (parsing_to branching_tree)
           branching_code branching_tree eq_refl Hwf Hfit).
Defined.

(** C4. For a text that raises a syntax error, the bundle has exactly one
    issue, of severity "error", with the line number the parser reported,
    and its metrics, quality indicators and complexity analysis are the
    empty dictionaries it started with. *)
Theorem syntax_error_is_one_issue re env code lineno msg :
  ast_parse env code = Raise (SyntaxError lineno msg) →
  ∃ i, analyze re env code (lit "python") !! "issues" = Some (VList [VDict i])
    ∧ i !! "severity" = Some (VStr (lit "error"))
    ∧ i !! "line_number" = Some (from_option VInt VNone lineno)
    ∧ analyze re env code (lit "python") !! "metrics" = Some (VDict ∅)
    ∧ analyze re env code (lit "python") !! "quality_indicators"
      = Some (VDict ∅)
    ∧ analyze re env code (lit "python") !! "complexity_analysis"
      = Some (VDict ∅).
Proof.
  intros H. rewrite analyze_python. unfold _analyze_python. rewrite H.
  eexists. repeat split; reflexivity.
Qed.

(** An instance: a text the parser rejects at line 1. *)
Lemma syntax_error_is_one_issue_witness :
  ast_parse failing_parser broken_code
  = Raise (SyntaxError (Some 1) (lit "invalid syntax"))
  ∧ ∃ i, analyze no_match failing_parser broken_code (lit "python") !! "issues"
         = Some (VList [VDict i])
      ∧ i !! "severity" = Some (VStr (lit "error"))
      ∧ i !! "line_number" = Some (VInt 1)
      ∧ analyze no_match failing_parser broken_code (lit "python") !! "metrics"
        = Some (VDict ∅)
      ∧ analyze no_match failing_parser broken_code (lit "python")
          !! "quality_indicators" = Some (VDict ∅)
      ∧ analyze no_match failing_parser broken_code (lit "python")
          !! "complexity_analysis" = Some (VDict ∅).
Proof.
  split; [reflexivity|].
  exact (syntax_error_is_one_issue no_match failing_parser broken_code
           (Some 1) (lit "invalid syntax") eq_refl).
Defined.

(** C5, as stated, fails: a function definition whose keyword-only
    parameter has a list display as its default, and nothing else to
    report, gets no issue at all. *)
Lemma keyword_only_default_unnoticed :
  ast_parse (parsing_to kwonly_default_tree) kwonly_default_code
  = Ok kwonly_default_tree
  ∧ has_list_default kwonly_default_tree
  ∧ analyze no_match (parsing_to kwonly_default_tree) kwonly_default_code
      (lit "python") !! "issues" = Some (VList []).
Proof.
  split; [reflexivity|]. split; [|by vm_compute].
  eexists _, (List [] Load). split; [|split; [|exact I]].
  - unfold kwonly_default_tree. rewrite subnodes_eq. simpl.
    apply list_elem_of_further, list_elem_of_here.
  - simpl. apply list_elem_of_here.
Qed.

(** C5, amended. When the tree has no more levels than the recursion of
    [get_depth] has room for, has one mutable display among the
    [args.defaults] of its plain [def] statements, a default of function
    [name], and no other check reports anything, the bundle has exactly one
    issue: a warning whose description names the function, at the line of
    the [def]. Defaults of keyword-only parameters and [async def]
    functions are not examined, and for a tree with more levels no check
    runs at all. *)
Theorem mutable_default_is_one_warning re env code tree name lineno :
  ast_parse env code = Ok tree →
  fits env tree →
  flat_map examined_defaults (subnodes tree) = [(name, lineno)] →
  _check_python_syntax_issues tree code = [] →
  _check_python_style_issues code = [] →
  flat_map bare_except_issues (subnodes tree) = [] →
  _run_pylint env code = [] →
  ∃ i, analyze re env code (lit "python") !! "issues" = Some (VList [VDict i])
    ∧ i !! "severity" = Some (VStr (lit "warning"))
    ∧ i !! "description"
      = Some (VStr (lit "Function '" ++ name
                    ++ lit "' has mutable default argument"))
    ∧ contains name (lit "Function '" ++ name
                     ++ lit "' has mutable default argument") = true
    ∧ i !! "line_number" = Some (VInt lineno).
Proof.
  intros Hparse Hfit Hone Hsyntax Hstyle Hbare Hpylint.
  rewrite analyze_python, (python_issues _ _ _ Hparse Hfit).
  rewrite Hsyntax, Hstyle, Hpylint. unfold _check_python_potential_bugs.
  rewrite (examined_issues (walk tree)).
  pose proof (flat_map_perm examined_defaults _ _ (walk_perm tree)) as Hp.
  rewrite Hone in Hp. apply Permutation_singleton_r in Hp. rewrite Hp.
  pose proof (flat_map_perm bare_except_issues _ _ (walk_perm tree)) as Hb.
  rewrite Hbare in Hb. apply Permutation_nil_r in Hb. rewrite Hb.
  eexists. split; [reflexivity|]. repeat split; try reflexivity.
  apply contains_middle.
Qed.

(** An instance: a function whose positional parameter defaults to a list
    display. *)
Lemma mutable_default_is_one_warning_witness :
  ast_parse (parsing_to list_default_tree) list_default_code
  = Ok list_default_tree
  ∧ fits (parsing_to list_default_tree) list_default_tree
  ∧ flat_map examined_defaults (subnodes list_default_tree) = [(lit "f", 1)]
  ∧ _check_python_syntax_issues list_default_tree list_default_code = []
  ∧ _check_python_style_issues list_default_code = []
  ∧ flat_map bare_except_issues (subnodes list_default_tree) = []
  ∧ _run_pylint (parsing_to list_default_tree) list_default_code = []
  ∧ ∃ i, analyze no_match (parsing_to list_default_tree) list_default_code
           (lit "python") !! "issues" = Some (VList [VDict i])
      ∧ i !! "severity" = Some (VStr (lit "warning"))
      ∧ i !! "description"
        = Some (VStr (lit "Function '" ++ lit "f"
                      ++ lit "' has mutable default argument"))
      ∧ contains (lit "f") (lit "Function '" ++ lit "f"
                            ++ lit "' has mutable default argument") = true
      ∧ i !! "line_number" = Some (VInt 1).
Proof.
  assert (fits (parsing_to list_default_tree) list_default_tree) as Hfit.
  { apply Nat.leb_le. by vm_compute. }
  split; [reflexivity|]. split; [exact Hfit|].
  repeat (split; [reflexivity|]).
  exact (mutable_default_is_one_warning no_match (parsing_to list_default_tree)
           list_default_code list_default_tree (lit "f") 1
           eq_refl Hfit eq_refl eq_refl eq_refl eq_refl eq_refl).
Defined.

(** C9, as stated, fails: pylint reports a message of type "convention",
    which is none of the three severities, and the issue merged into the
    bundle has severity "warning", not "info". *)
Lemma convention_becomes_warning :
  item_type convention_item = Some (lit "convention")
  ∧ ¬ (lit "convention" ∈ severities)
  ∧ ∃ i, analyze no_match with_pylint straight_code (lit "python") !! "issues"
         = Some (VList [VDict i])
      ∧ i !! "severity" = Some (VStr (lit "warning"))
      ∧ (i !! "severity") ≠ Some (VStr (lit "info")).
Proof.
  split; [reflexivity|]. split.
  - unfold severities. rewrite !elem_of_cons, elem_of_nil.
    intros [H|[H|[H|[]]]]; discriminate.
  - exists (pylint_issue convention_item). split; [by vm_compute|].
    split; [reflexivity|]. rewrite pylint_issue_severity. discriminate.
Qed.

(** C9, amended. Every issue of every bundle has one of the severities
    "error", "warning" and "info". Each check sets its own; the one check
    that reads a severity from outside, pylint, turns the type "error" into
    "error" and any other type into "warning". *)
Theorem severities_are_the_three re env code language :
  (∃ issues, analyze re env code language !! "issues" = Some (VList issues)
             ∧ Forall severity_ok issues)
  ∧ ∀ item, pylint_issue item !! "severity"
            = Some (VStr (if bool_decide (item_type item = Some (lit "error"))
                          then lit "error" else lit "warning")).
Proof. split; [apply analyze_ok | apply pylint_issue_severity]. Qed.

End AnalyzerProofs.

(** ** Both entry points *)

Module Core.
Import Py Analyzer Executor AnalyzerSpec ExecutorSpec.
Import ExecutorExamples ExecutorCases.

Lemma error_result_fails e code language :
  failure_bundle (exn_str e) (_create_error_result (exn_str e) code language).
Proof.
  split; [apply AnalyzerProofs.bundle_complete_error|].
  eexists _, (lit "Failed to analyze " ++ language ++ lit " code: ").
  split; [reflexivity|]. split; [reflexivity|].
  unfold issue. rewrite <- !app_assoc. reflexivity.
Qed.

(** C1. For every code and language, [analyze] returns a bundle with the
    keys [issues], [metrics], [quality_indicators] and
    [complexity_analysis], and what the handler of its outermost [try]
    makes of an exception is such a bundle whose only issue is an error
    with the text of the exception. [execute] returns, whatever the host
    does, a result with the keys [output], [error], [execution_time] and
    [success]: the result of the [try] block when it returns one, and when
    it raises the result without output and success whose error is the text
    of the exception. Neither raises. *)
Theorem entry_points_always_return re env w self code language st :
  bundle_complete (analyze re env code language)
  ∧ (∀ e, failure_bundle (exn_str e)
            (_create_error_result (exn_str e) code language))
  ∧ ∃ d st', execute re w self code language st = (Ok d, st')
      ∧ complete d
      ∧ (∀ d1 st1, pipeline re w self code language st = (Ok d1, st1) →
           d = d1 ∧ st' = st1)
      ∧ (∀ e st1, pipeline re w self code language st = (Raise e, st1) →
           d = failure_result (exn_str e) ∧ st' = st1
           ∧ d !! "success" = Some (VBool false)
           ∧ d !! "error" = Some (VStr (exn_str e))).
Proof.
  split; [apply AnalyzerProofs.bundle_complete_analyze|].
  split; [intros e; apply error_result_fails|].
  destruct (ExecutorProofs.execute_total re w self code language st)
    as (d & st' & H & Hd).
  exists d, st'. split; [done|].
  split; [by apply ExecutorProofs.is_result_complete|].
  unfold execute, try_except in H. split.
  - intros d1 st1 Hp. rewrite Hp in H. by injection H as <- <-.
  - intros e st1 Hp. rewrite Hp in H. injection H as <- <-. done.
Qed.

(** An instance: a host with neither a JDK nor [httpx]. The import of
    [httpx] fails outside every [try] of the Java pipeline, and [execute]
    turns the exception into a result. *)
Lemma entry_points_always_return_witness :
  (∃ st1, pipeline finds_main (unix_host NotFound) code_executor hello_java
            (lit "java") fresh
          = (Raise (OtherException (lit "No module named 'httpx'")), st1))
  ∧ ∃ st', execute finds_main (unix_host NotFound) code_executor hello_java
             (lit "java") fresh
           = (Ok (failure_result (lit "No module named 'httpx'")), st').
Proof.
  destruct (entry_points_always_return finds_main
              (AnalyzerExamples.parsing_to AnalyzerExamples.straight_tree)
              (unix_host NotFound) code_executor hello_java (lit "java") fresh)
    as (_ & _ & d & st' & H & _ & _ & Hraise).
  destruct (pipeline finds_main (unix_host NotFound) code_executor hello_java
              (lit "java") fresh) as [[d1|e] st1] eqn:Hp.
  - exfalso. revert Hp. vm_compute. discriminate.
  - assert (e = OtherException (lit "No module named 'httpx'")) as ->.
    { revert Hp. vm_compute. by intros [= <- _]. }
    split; [by exists st1|]. exists st'.
    destruct (Hraise _ _ eq_refl) as (-> & _). exact H.
Defined.

End Core.

(** * More properties of the code *)

(** ** The executor: failures, and what every call keeps *)

Module ExecutorFacts.
Import Py Executor ExecutorSpec ExecutorExamples ExecutorProofs.
Import ExecutorOutcomes ExecutorCases.
#[local] Set Warnings "-clear-no-such-hyp".
Local Open Scope py_scope.

(** *** Helpers *)

(** A computation that returns [a] and leaves the state [st']. *)
Lemma wp_equation {A} (m : M A) a st st' :
  wp m (λ b st'', b = a ∧ st'' = st') (λ _ _, False) st → m st = (Ok a, st').
Proof.
  unfold wp. destruct (m st) as [[b|e] st'']; [by intros [-> ->] | done].
Qed.

Lemma write_then_unlink p st :
  p ∉ files st →
  set_files (λ fs, fs ∖ {[p]}) (set_files (λ fs, {[p]} ∪ fs) st) = st.
Proof.
  intros H. destruct st as [fs sp ki]. unfold set_files. simpl in *. f_equal.
  set_solver by idtac.
Qed.

Lemma unlink_missing p st :
  p ∉ files st → set_files (λ fs, fs ∖ {[p]}) st = st.
Proof. intros H. apply set_files_id. set_solver by idtac. Qed.

Lemma rmtree_restores w x st :
  (∀ p, p ∈ files st → below w (tmp w) p = false) →
  set_files (filter (λ p, ¬ below w (tmp w) p))
    (set_files (λ fs, {[path_join w (tmp w) x]} ∪ fs)
       (set_files (λ fs, {[tmp w]} ∪ fs) st)) = st.
Proof.
  intros H. destruct st as [fs sp ki]. unfold set_files. simpl in *. f_equal.
  apply filter_scratch.
  - intros p Hin Hb. apply Is_true_true in Hb. by rewrite (H p Hin) in Hb.
  - intros p. rewrite !elem_of_union, !elem_of_singleton.
    intros [->|[->|Hin]]; [right|right|by left].
    + apply Is_true_true, below_join.
    + apply Is_true_true, below_self.
  - set_solver by idtac.
Qed.

Lemma truthy_keep {A} (x : list A) : (if truthy x then x else []) = x.
Proof. by destruct x. Qed.

Lemma code_is_zero (c : option Z) :
  (default 1 c =? 0) = bool_decide (c = Some 0).
Proof.
  destruct c as [c|]; simpl; [|done]. destruct (Z.eqb_spec c 0) as [->|Hc].
  - by rewrite bool_decide_eq_true_2.
  - rewrite bool_decide_eq_false_2; [done|]. by intros [= ->].
Qed.

(** *** Stripping twice *)

Lemma lstrip_idem s : lstrip (lstrip s) = lstrip s.
Proof.
  induction s as [|c s IH]; [done|]. simpl.
  destruct (is_space c) eqn:E; [done|]. simpl. by rewrite E.
Qed.

Lemma lstrip_head s c r : lstrip s = c :: r → is_space c = false.
Proof.
  induction s as [|a s IH]; [done|]. simpl.
  destruct (is_space a) eqn:E; [exact IH|]. by intros [= <- _].
Qed.

Lemma lstrip_app_nonspace s c r :
  is_space c = false → lstrip (s ++ c :: r) = lstrip s ++ c :: r.
Proof.
  intros H. induction s as [|a s IH]; simpl; [by rewrite H|].
  by destruct (is_space a).
Qed.

(** [rstrip] keeps the first character of a text that does not start with
    white space. *)
Lemma rstrip_cons c s : is_space c = false → ∃ r, rstrip (c :: s) = c :: r.
Proof.
  intros H. unfold rstrip. rewrite reverse_cons, lstrip_app_nonspace by done.
  rewrite reverse_app. simpl. eauto.
Qed.

Lemma rstrip_idem s : rstrip (rstrip s) = rstrip s.
Proof. unfold rstrip. by rewrite reverse_involutive, lstrip_idem. Qed.

Lemma strip_idem s : strip (strip s) = strip s.
Proof.
  unfold strip. pose proof (lstrip_head s) as Hh.
  destruct (lstrip s) as [|c r]; [done|].
  destruct (rstrip_cons c r (Hh _ _ eq_refl)) as [r' Hr].
  rewrite Hr, lstrip_nonspace by eauto. rewrite <- Hr. apply rstrip_idem.
Qed.

Lemma len_strip_slice n s : 0 ≤ n → len (strip (slice_to n s)) ≤ n.
Proof.
  intros H. etrans; [|by apply (length_slice_to_le n s)].
  unfold len. apply inj_le, length_strip.
Qed.

Lemma slice_to_nil n : slice_to n [] = [].
Proof. unfold slice_to. destruct (0 <=? n); by rewrite take_nil. Qed.

(** *** The fields of a result *)

Lemma result_dict_success o e t s :
  result_dict o e t s !! "success" = Some (VBool s).
Proof. reflexivity. Qed.

Lemma result_dict_error o e t s : result_dict o e t s !! "error" = Some (VStr e).
Proof. reflexivity. Qed.

Lemma result_dict_output o e t s :
  result_dict o e t s !! "output" = Some (VStr o).
Proof. reflexivity. Qed.

Lemma quiet_tidy self o e t s :
  (s = true → e = []) → strip o = o →
  (0 ≤ max_output_length self → len o ≤ max_output_length self) →
  quiet_success (result_dict o e t s) ∧ tidy_output self (result_dict o e t s).
Proof.
  intros H Ho Hl. split.
  - unfold quiet_success. rewrite result_dict_success, result_dict_error.
    intros [= ->]. by rewrite H.
  - by exists o.
Qed.

Lemma silent_error (x : str) b : b && negb (truthy x) = true → strip x = [].
Proof. intros [_ H]%andb_prop. by destruct x. Qed.

Lemma silent_stderr self (x : bytes) b :
  b && negb (truthy x) = true → strip (capped self x) = [].
Proof.
  intros [_ H]%andb_prop. destruct x; [|done].
  unfold capped. by rewrite slice_to_nil.
Qed.

Lemma cons_neq {A} (a : A) l : a :: l ≠ l.
Proof. intros H. apply (f_equal length) in H. simpl in H. lia. Qed.

Lemma cons_cons_neq {A} (a b : A) l : a :: b :: l ≠ l.
Proof. intros H. apply (f_equal length) in H. simpl in H. lia. Qed.

(** *** Every path of every pipeline *)

Ltac fine_result :=
  unfold result_of_info, error_info, capped_info, timeout_info,
    not_found_info, timeout_result, error_result, capped;
  cbn [output error returncode fst snd Z.eqb andb strip_if truthy];
  rewrite ?strip_if_strip;
  try unfold fine; right; apply quiet_tidy;
  [ first [ discriminate | apply silent_error | apply silent_stderr ]
  | first [ reflexivity | apply strip_idem ]
  | first [ intros ?; unfold len; simpl; lia | apply len_strip_slice ] ].

Ltac online :=
  left; split; [reflexivity|]; split; [reflexivity|];
  rewrite ?truthy_keep, ?code_is_zero; reflexivity.

Ltac launched :=
  unfold launched_by; cbn [spawned set_files];
  first [ exists []; split; [reflexivity|]
        | eexists [_]; split; [reflexivity|]
        | eexists [_; _]; split; [reflexivity|] ];
  (split; [simpl; lia|]);
  repeat first [apply Forall_nil_2 | apply Forall_cons_2].

Ltac killed :=
  unfold killed_by; cbn [spawned killed set_files];
  first [ by left
        | right; eexists; split; [reflexivity|]; split; [reflexivity|];
          split; [first [apply cons_neq | apply cons_cons_neq]|];
          do 5 eexists; eassumption ].

Section Pipelines.
Context (re : regex) (w : world) (self : CodeExecutor).

Lemma python_command code :
  pipeline_command re w code (lit "python")
    [sys_executable w; tmp w ++ lit ".py"].
Proof. left. by eexists. Qed.

Lemma python_well_run code st :
  wp (execute re w self code (lit "python"))
     (well_run re w self code (lit "python") st)
     (λ _ _, False) st.
Proof.
  change (execute re w self code (lit "python"))
    with (try_except (_execute_python w self code)
            (λ e, ret (result_dict [] (exn_str e) (VInt 0) false))).
  assert (truthy (tmp w ++ lit ".py") = true) by by apply truthy_app.
  unfold _execute_python, _run_python_subprocess.
  wp_go.
  all: split; [fine_result | split; [launched; apply python_command | killed]].
Qed.

Lemma javascript_command code language :
  language ∈ [lit "javascript"; lit "typescript"] →
  pipeline_command re w code language [lit "node"; tmp w ++ lit ".js"].
Proof.
  intros Hl. left. exists None. unfold script_command.
  by destruct (one_of_two _ _ _ Hl) as [-> | ->].
Qed.

Lemma javascript_well_run code language st :
  language ∈ [lit "javascript"; lit "typescript"] →
  wp (execute re w self code language) (well_run re w self code language st)
     (λ _ _, False) st.
Proof.
  intros Hl.
  replace (execute re w self code language)
    with (try_except (_execute_javascript w self code)
            (λ e, ret (result_dict [] (exn_str e) (VInt 0) false)))
    by by destruct (one_of_two _ _ _ Hl) as [-> | ->].
  assert (truthy (tmp w ++ lit ".js") = true) by by apply truthy_app.
  unfold _execute_javascript, _run_node_subprocess.
  wp_go.
  all: split; [fine_result
              | split; [launched; by apply javascript_command | killed]].
Qed.

Lemma cpp_commands code language :
  language ∈ [lit "cpp"; lit "c"] →
  pipeline_command re w code language
    [replace (lit ".cpp") (lit ".exe") (tmp w ++ lit ".cpp")]
  ∧ pipeline_command re w code language
      [lit "g++"; tmp w ++ lit ".cpp"; lit "-o";
       replace (lit ".cpp") (lit ".exe") (tmp w ++ lit ".cpp")].
Proof.
  intros Hl. split; [left | right]; exists None;
    unfold script_command, compile_command;
    by destruct (one_of_two _ _ _ Hl) as [-> | ->].
Qed.

Lemma cpp_well_run code language st :
  language ∈ [lit "cpp"; lit "c"] →
  wp (execute re w self code language) (well_run re w self code language st)
     (λ _ _, False) st.
Proof.
  intros Hl.
  replace (execute re w self code language)
    with (try_except (_execute_cpp w self code)
            (λ e, ret (result_dict [] (exn_str e) (VInt 0) false)))
    by by destruct (one_of_two _ _ _ Hl) as [-> | ->].
  assert (truthy (tmp w ++ lit ".cpp") = true) by by apply truthy_app.
  assert (truthy (replace (lit ".cpp") (lit ".exe") (tmp w ++ lit ".cpp"))
          = true) by by apply truthy_replace.
  destruct (cpp_commands code language Hl) as [Hrun Hcompile].
  unfold _execute_cpp, _run_cpp_subprocess.
  wp_go.
  all: split; [fine_result | split; [launched; assumption | killed]].
Qed.

Lemma java_commands code class_name :
  java_class re code = Some class_name →
  pipeline_command re w code (lit "java") [lit "java"; class_name]
  ∧ pipeline_command re w code (lit "java")
      [lit "javac"; path_join w (tmp w) (class_name ++ lit ".java")].
Proof.
  intros H. split; [left | right]; exists (Some (tmp w));
    unfold script_command, compile_command; simpl; by rewrite H.
Qed.

Lemma java_well_run code st :
  wp (execute re w self code (lit "java"))
     (well_run re w self code (lit "java") st)
     (λ _ _, False) st.
Proof.
  change (execute re w self code (lit "java"))
    with (try_except (_execute_java re w self code)
            (λ e, ret (result_dict [] (exn_str e) (VInt 0) false))).
  unfold _execute_java, _run_java_subprocess, _execute_java_online.
  destruct (search_group1 re _ code) as [class_name|] eqn:Hcn.
  2: { wp_go. split; [fine_result | split; [launched | killed]]. }
  destruct (java_commands code class_name Hcn) as [Hrun Hcompile].
  unfold well_run, fine, from_online, online_result.
  wp_go.
  all: split; [first [fine_result | online]
              | split; [launched; assumption | killed]].
Qed.

(** Whatever the language and the host, [execute] returns, and what it
    returns and leaves behind is as described. *)
Lemma execute_well_run code language st :
  ∃ d st', execute re w self code language st = (Ok d, st')
           ∧ well_run re w self code language st d st'.
Proof.
  apply wp_returns.
  destruct (decide (language = lit "python")) as [->|Hpy];
    [apply python_well_run|].
  destruct (decide (language ∈ [lit "javascript"; lit "typescript"]));
    [by apply javascript_well_run|].
  destruct (decide (language = lit "java")) as [->|Hjava];
    [apply java_well_run|].
  destruct (decide (language ∈ [lit "cpp"; lit "c"]));
    [by apply cpp_well_run|].
  unfold execute, pipeline. rewrite !bool_decide_eq_false_2 by done.
  apply wp_try_except, wp_ret.
  split; [fine_result | split; [launched | killed]].
Qed.

End Pipelines.

(** *** A failing compile step *)

Lemma java_compile_fails re w self code cn out err rc it cr st :
  encodable code = true →
  java_class re code = Some cn →
  proc w [lit "javac"; path_join w (tmp w) (cn ++ lit ".java")] (Some (tmp w))
    = Exits out err rc it cr →
  rc ≠ 0 → (windows w = true → it = true) →
  wp (_execute_java re w self code)
     (λ d st', d = compile_failure w err
               ∧ spawned st'
                 = [lit "javac"; path_join w (tmp w) (cn ++ lit ".java")]
                   :: spawned st
               ∧ killed st' = killed st)
     (λ _ _, False) st.
Proof.
  intros Hc Hcn Hj Hrc Hit. unfold _execute_java. unfold java_class in Hcn.
  apply wp_try_except. rewrite Hcn.
  apply wp_bind, wp_mkdtemp, wp_try_finally. cbv zeta.
  apply wp_bind, wp_write_file. rewrite Hc.
  assert (negb (rc =? 0) = true) as Hne.
  { apply negb_true_iff, Z.eqb_neq, Hrc. }
  unfold compile_failure.
  destruct (windows w) eqn:Hw.
  - rewrite Hit in Hj by done.
    apply wp_bind. unfold _run_java_subprocess.
    apply wp_try_except, wp_bind, wp_subprocess_run. rewrite Hj. cbv zeta.
    red_proc. rewrite Hne.
    apply wp_ret, wp_ret, wp_rmtree_quietly; [simpl; set_solver by idtac|].
    unfold result_of_info. simpl. done.
  - apply wp_bind, wp_create_subprocess_exec. rewrite Hj.
    apply wp_bind, wp_communicate. red_proc. rewrite Hne.
    apply wp_ret, wp_rmtree_quietly; [simpl; set_solver by idtac|]. done.
Qed.

Lemma cpp_compile_fails w self code out err rc it cr st :
  encodable code = true →
  proc w [lit "g++"; tmp w ++ lit ".cpp"; lit "-o";
          replace (lit ".cpp") (lit ".exe") (tmp w ++ lit ".cpp")] None
    = Exits out err rc it cr →
  rc ≠ 0 → (windows w = true → it = true) →
  wp (_execute_cpp w self code)
     (λ d st', d = compile_failure w err
               ∧ spawned st'
                 = [lit "g++"; tmp w ++ lit ".cpp"; lit "-o";
                    replace (lit ".cpp") (lit ".exe") (tmp w ++ lit ".cpp")]
                   :: spawned st
               ∧ killed st' = killed st)
     (λ _ _, False) st.
Proof.
  intros Hc Hg Hrc Hit. unfold _execute_cpp. cbv zeta.
  apply wp_bind, wp_attempt, wp_write_temp. rewrite Hc.
  apply wp_try_except.
  assert (truthy (tmp w ++ lit ".cpp") = true) as Hsrc by by apply truthy_app.
  assert (truthy (replace (lit ".cpp") (lit ".exe") (tmp w ++ lit ".cpp"))
          = true) as Hexe by by apply truthy_replace.
  assert (negb (rc =? 0) = true) as Hne.
  { apply negb_true_iff, Z.eqb_neq, Hrc. }
  unfold compile_failure.
  destruct (windows w) eqn:Hw.
  - rewrite Hit in Hg by done.
    apply wp_bind. unfold _run_cpp_subprocess.
    apply wp_try_except, wp_bind, wp_subprocess_run. rewrite Hg. cbv zeta.
    red_proc. rewrite Hne.
    apply wp_ret, wp_bind, wp_unlink_if_exists; [done|].
    apply wp_bind, wp_unlink_if_exists; [done|]. apply wp_ret.
    unfold result_of_info. simpl. done.
  - apply wp_bind, wp_create_subprocess_exec. rewrite Hg.
    apply wp_bind, wp_communicate. red_proc. rewrite Hne.
    apply wp_bind, wp_unlink_if_exists; [done|]. by apply wp_ret.
Qed.

(** *** The properties *)

(** X2. A request for which there is no command to run, because the
    language is none of the six tags or because the Java code has no public
    class, is answered without touching anything: no file is written, no
    process is launched, and the result is a failure with execution time
    0. *)
Theorem nothing_to_run re w self code language st :
  script_command re w code language = None →
  execute re w self code language st
  = (Ok (result_dict []
           (if bool_decide (language = lit "java")
            then lit "No public class found in Java code"
            else lit "Code execution not supported for " ++ language)
           (VInt 0) false), st).
Proof.
  unfold script_command, execute, pipeline. intros H.
  repeat case_bool_decide; try done.
  unfold java_class in H. unfold try_except, _execute_java.
  by destruct (search_group1 re _ code).
Qed.

(** An instance: a Ruby script. *)
Lemma nothing_to_run_witness :
  script_command no_match (unix_host NotFound) (lit "puts 1") (lit "ruby")
  = None
  ∧ execute no_match (unix_host NotFound) code_executor (lit "puts 1")
      (lit "ruby") fresh
    = (Ok (result_dict [] (lit "Code execution not supported for ruby")
             (VInt 0) false), fresh).
Proof.
  split; [reflexivity|].
  exact (nothing_to_run no_match (unix_host NotFound) code_executor
           (lit "puts 1") (lit "ruby") fresh eq_refl).
Defined.

(** X3. When the compile step of Java, C or C++ ends with a status other
    than 0, the program is not run: the compiler is the only process
    launched, nothing is killed, and the result is a failure with an empty
    output. Off Windows its error is "Compilation error:", a newline and
    all that the compiler wrote to stderr, neither cut to the output cap
    nor stripped. *)
Theorem compile_error_is_reported re w self code language argv cwd out err rc
    it cr st :
  encodable code = true →
  compile_command re w code language = Some (argv, cwd) →
  proc w argv cwd = Exits out err rc it cr →
  rc ≠ 0 → (windows w = true → it = true) →
  ∃ st', execute re w self code language st
         = (Ok (compile_failure w err), st')
    ∧ spawned st' = argv :: spawned st
    ∧ killed st' = killed st
    ∧ compile_failure w err !! "success" = Some (VBool false)
    ∧ compile_failure w err !! "output" = Some (VStr [])
    ∧ (windows w = false →
       compile_failure w err !! "error"
       = Some (VStr (lit "Compilation error:" ++ [newline] ++ decode err))).
Proof.
  intros Hc Hcmd Hp Hrc Hit. unfold compile_command in Hcmd.
  assert (∀ m : M dict,
            wp m (λ d st', d = compile_failure w err
                           ∧ spawned st' = argv :: spawned st
                           ∧ killed st' = killed st) (λ _ _, False) st →
            ∃ st', try_except m
                     (λ e, ret (result_dict [] (exn_str e) (VInt 0) false)) st
                   = (Ok (compile_failure w err), st')
              ∧ spawned st' = argv :: spawned st
              ∧ killed st' = killed st
              ∧ compile_failure w err !! "success" = Some (VBool false)
              ∧ compile_failure w err !! "output" = Some (VStr [])
              ∧ (windows w = false →
                 compile_failure w err !! "error"
                 = Some (VStr (lit "Compilation error:" ++ [newline]
                               ++ decode err)))) as Hwp.
  { intros m Hm. unfold wp in Hm. unfold try_except.
    destruct (m st) as [[d|e] st']; [|done].
    destruct Hm as (-> & ? & ?). exists st'. repeat split; try done.
    - unfold compile_failure. by destruct (windows w).
    - unfold compile_failure. by destruct (windows w).
    - intros Hw. unfold compile_failure. by rewrite Hw. }
  case_bool_decide as Hjava.
  { subst language. destruct (java_class re code) as [cn|] eqn:Hcn; [|done].
    simplify_eq. rewrite execute_java. by eapply Hwp, java_compile_fails. }
  case_bool_decide as Hcpp; [|done].
  simplify_eq. rewrite execute_cpp by done. by eapply Hwp, cpp_compile_fails.
Qed.

(** An instance: a C++ program that the compiler rejects, on a Unix
    host. *)
Lemma compile_error_is_reported_witness :
  ∃ st', execute no_match (unix_host rejecting_compiler) code_executor
           hello_cpp (lit "cpp") fresh
         = (Ok (compile_failure (unix_host rejecting_compiler)
                  [x65; x72; x72; x6f; x72]%byte), st')
    ∧ spawned st'
      = [[lit "g++"; lit "/tmp/tmpk3v9x2.cpp"; lit "-o";
          lit "/tmp/tmpk3v9x2.exe"]]
    ∧ killed st' = []
    ∧ compile_failure (unix_host rejecting_compiler)
        [x65; x72; x72; x6f; x72]%byte !! "error"
      = Some (VStr (lit "Compilation error:
error")).
Proof.
  destruct (compile_error_is_reported no_match (unix_host rejecting_compiler)
              code_executor hello_cpp (lit "cpp")
              [lit "g++"; lit "/tmp/tmpk3v9x2.cpp"; lit "-o";
               lit "/tmp/tmpk3v9x2.exe"] None
              [] [x65; x72; x72; x6f; x72]%byte 1 true [] fresh)
    as (st' & H & Hs & Hk & _ & _ & He);
    [reflexivity | reflexivity | reflexivity | discriminate | reflexivity |].
  exists st'. split; [exact H|]. split; [exact Hs|]. split; [exact Hk|].
  exact (He eq_refl).
Defined.

(** X4. When [node] is not installed, a JavaScript or TypeScript request
    fails with a message that says so, and the temporary file is removed:
    the call leaves the state as it found it. Off Windows the execution
    time is 0. *)
Theorem node_not_found re w self code language st :
  language ∈ [lit "javascript"; lit "typescript"] →
  encodable code = true →
  proc w [lit "node"; tmp w ++ lit ".js"] None = NotFound →
  tmp w ++ lit ".js" ∉ files st →
  execute re w self code language st = (Ok (node_not_found_result w), st).
Proof.
  intros Hl Hc Hp Hnew. rewrite execute_javascript by done.
  assert (truthy (tmp w ++ lit ".js") = true) by by apply truthy_app.
  apply wp_equation, wp_try_except.
  unfold _execute_javascript, _run_node_subprocess, node_not_found_result.
  wp_go; try congruence.
  all: rewrite write_then_unlink by done.
  all: done.
Qed.

(** An instance: a TypeScript request on a Unix host without [node]. *)
Lemma node_not_found_witness :
  execute no_match (unix_host NotFound) code_executor (lit "let x = 1;")
    (lit "typescript") fresh
  = (Ok (result_dict []
           (lit "Node.js not found. Please install Node.js to execute JavaScript code.")
           (VInt 0) false), fresh).
Proof.
  apply (node_not_found no_match (unix_host NotFound) code_executor
           (lit "let x = 1;") (lit "typescript") fresh).
  - apply list_elem_of_further, list_elem_of_here.
  - reflexivity.
  - reflexivity.
  - apply not_elem_of_empty.
Defined.

(** X5. When [g++] is not installed, a C or C++ request fails with a
    message that says so, and the source file is removed: the call leaves
    the state as it found it. *)
Theorem compiler_not_found re w self code language st :
  language ∈ [lit "cpp"; lit "c"] →
  encodable code = true →
  proc w [lit "g++"; tmp w ++ lit ".cpp"; lit "-o";
          replace (lit ".cpp") (lit ".exe") (tmp w ++ lit ".cpp")] None
    = NotFound →
  tmp w ++ lit ".cpp" ∉ files st →
  replace (lit ".cpp") (lit ".exe") (tmp w ++ lit ".cpp") ∉ files st →
  execute re w self code language st = (Ok (compiler_not_found_result w), st).
Proof.
  intros Hl Hc Hp Hnew1 Hnew2. rewrite execute_cpp by done.
  assert (truthy (tmp w ++ lit ".cpp") = true) as Hsrc by by apply truthy_app.
  assert (truthy (replace (lit ".cpp") (lit ".exe") (tmp w ++ lit ".cpp"))
          = true) as Hexe by by apply truthy_replace.
  apply wp_equation, wp_try_except.
  unfold _execute_cpp, _run_cpp_subprocess, compiler_not_found_result.
  wp_go; try congruence.
  all: rewrite write_then_unlink by done.
  all: rewrite unlink_missing by done.
  all: done.
Qed.

(** An instance: a C request on a Unix host without a compiler. *)
Lemma compiler_not_found_witness :
  execute no_match (unix_host NotFound) code_executor hello_cpp (lit "c")
    fresh
  = (Ok (result_dict []
           (lit "C++ compiler not found. Please install g++ to execute C++ code.")
           (VInt 0) false), fresh).
Proof.
  apply (compiler_not_found no_match (unix_host NotFound) code_executor
           hello_cpp (lit "c") fresh).
  - apply list_elem_of_further, list_elem_of_here.
  - reflexivity.
  - reflexivity.
  - apply not_elem_of_empty.
  - apply not_elem_of_empty.
Defined.

(** X6. When [javac] is not installed, the Java pipeline removes its
    temporary directory and, on Windows, fails with "Java compiler not
    found. Please install JDK."; elsewhere it answers with the result of
    the online service: for a response with status 200 the stripped output
    and stderr of the run, with [success] true exactly when the run's code
    is 0, whatever stderr holds. *)
Theorem java_compiler_not_found re w self code class_name st :
  encodable code = true →
  java_class re code = Some class_name →
  proc w [lit "javac"; path_join w (tmp w) (class_name ++ lit ".java")]
    (Some (tmp w)) = NotFound →
  (∀ p, p ∈ files st → below w (tmp w) p = false) →
  execute re w self code (lit "java") st = (Ok (jdk_not_found_result w), st).
Proof.
  intros Hc Hcn Hp Hnew. unfold java_class in Hcn.
  change (execute re w self code (lit "java"))
    with (try_except (_execute_java re w self code)
            (λ e, ret (result_dict [] (exn_str e) (VInt 0) false))).
  apply wp_equation, wp_try_except.
  unfold _execute_java, _run_java_subprocess, _execute_java_online,
    jdk_not_found_result, online_result.
  rewrite Hcn.
  wp_go; try congruence.
  all: rewrite ?rmtree_restores by done.
  all: rewrite ?truthy_keep, ?code_is_zero.
  all: done.
Qed.

(** An instance: a host without a JDK, whose online service reports a run
    that wrote to stderr and ended with code 0: the result is a success
    with an error text. *)
Lemma java_compiler_not_found_witness :
  execute finds_main online_host code_executor hello_java (lit "java") fresh
  = (Ok (result_dict (lit "hi") (lit "warning") (VFloat (1204 # 1000)) true),
     fresh).
Proof.
  apply (java_compiler_not_found finds_main online_host code_executor
           hello_java (lit "Main") fresh).
  - reflexivity.
  - reflexivity.
  - reflexivity.
  - intros p Hin. by apply not_elem_of_empty in Hin.
Defined.

(** X7. Whatever the language, the code and the host, a result that
    reports success has an empty error field, unless it is the result of
    the online Java service. *)
Theorem success_has_no_error re w self code language st :
  ∃ d st', execute re w self code language st = (Ok d, st')
    ∧ (d !! "success" = Some (VBool true) →
       d !! "error" = Some (VStr []) ∨ from_online w language d).
Proof.
  destruct (execute_well_run re w self code language st)
    as (d & st' & H & [Hon|[Hq _]] & _).
  - exists d, st'. split; [done|]. by right.
  - exists d, st'. split; [done|]. intros Hs. left. by apply Hq.
Qed.

(** X8. Whatever the language, the code and the host, the output field of
    the result has no white space at its edges and is no longer than the
    output cap, unless the result is the one of the online Java service. *)
Theorem output_is_trimmed_and_capped re w self code language st :
  ∃ d st', execute re w self code language st = (Ok d, st')
    ∧ (tidy_output self d ∨ from_online w language d).
Proof.
  destruct (execute_well_run re w self code language st)
    as (d & st' & H & [Hon|[_ Ht]] & _).
  - exists d, st'. split; [done|]. by right.
  - exists d, st'. split; [done|]. by left.
Qed.

(** X9. Whatever the language, the code and the host, a call launches at
    most two processes, and each is the compile command or the command that
    runs the script for that language: nothing else is ever launched. *)
Theorem launches_only_the_pipeline re w self code language st :
  ∃ d st', execute re w self code language st = (Ok d, st')
    ∧ launched_by re w code language st st'.
Proof.
  destruct (execute_well_run re w self code language st)
    as (d & st' & H & _ & Hl & _).
  by exists d, st'.
Qed.

(** X10. Whatever the language, the code and the host, a call kills no
    process, or exactly one: the one it launched last, and only when that
    process did not end in time. *)
Theorem kills_only_after_timeout re w self code language st :
  ∃ d st', execute re w self code language st = (Ok d, st')
    ∧ killed_by w st st'.
Proof.
  destruct (execute_well_run re w self code language st)
    as (d & st' & H & _ & _ & Hk).
  by exists d, st'.
Qed.

End ExecutorFacts.

(** * More of the analyzer *)

Module AnalyzerFacts.
Import Py Analyzer AnalyzerSpec AnalyzerExamples ExecutorExamples.
Import ExecutorProofs AnalyzerProofs AnalyzerMeasures AnalyzerCases Api.

(** *** The counters of the Python metrics *)

Lemma add_to_lookup key v m k :
  add_to key v m !! k
  = if decide (k = key)
    then match m !! key with
         | Some (VInt n) => Some (VInt (n + v))
         | other => other
         end
    else m !! k.
Proof.
  unfold add_to. destruct (decide (k = key)) as [->|Hne].
  - destruct (m !! key) as [[]|] eqn:E; rewrite ?lookup_insert_eq; done.
  - destruct (m !! key) as [[]|] eqn:E; rewrite ?lookup_insert_ne; done.
Qed.

Lemma add_to_other key v m k : k ≠ key → add_to key v m !! k = m !! k.
Proof. intros H. rewrite add_to_lookup. by destruct (decide (k = key)). Qed.

Lemma add_to_same key v m n :
  m !! key = Some (VInt n) → add_to key v m !! key = Some (VInt (n + v)).
Proof.
  intros H. rewrite add_to_lookup, H. by destruct (decide (key = key)).
Qed.

(** The loop of [_extract_python_metrics], for one counter. *)
Lemma metrics_loop key l m v :
  m !! key = Some (VInt v) →
  foldl (λ metrics n,
           match n with
           | FunctionDef _ _ _ _ _ _ => add_to "functions" 1 metrics
           | ClassDef _ _ _ _ _ => add_to "classes" 1 metrics
           | For _ _ _ _ | While _ _ _ => add_to "loops" 1 metrics
           | If _ _ _ => add_to "conditions" 1 metrics
           | Try _ _ _ _ => add_to "try_blocks" 1 metrics
           | Import _ | ImportFrom _ => add_to "imports" 1 metrics
           | Assign targets _ => add_to "variables" (len targets) metrics
           | _ => metrics
           end) m l !! key
  = Some (VInt (v + total (contribution key) l)).
Proof.
  revert m v. induction l as [|n l IH]; intros m v Hm; simpl.
  - rewrite Hm. do 2 f_equal. lia.
  - assert (∀ k a, (if bool_decide (key = k) then a else 0)
                   = contribution key n →
                   add_to k a m !! key
                   = Some (VInt (v + contribution key n))) as Hadd.
    { intros k a <-. case_bool_decide as Hk.
      - subst k. by apply add_to_same.
      - rewrite add_to_other by done. rewrite Hm. do 2 f_equal. lia. }
    rewrite (IH _ (v + contribution key n)).
    + do 2 f_equal. lia.
    + destruct n; try (by apply Hadd); rewrite Hm; do 2 f_equal; simpl; lia.
Qed.

Lemma total_same f g l : (∀ n, f n = g n) → total f l = total g l.
Proof. intros H. apply total_ext, Forall_forall. auto. Qed.

Lemma python_metrics env code tree :
  ast_parse env code = Ok tree →
  _analyze_python env code !! "metrics"
  = Some (VDict (_extract_python_metrics tree code)).
Proof.
  intros H. unfold _analyze_python. rewrite H.
  destruct (_analyze_python_complexity env tree) as [c|[]]; reflexivity.
Qed.

(** A counter of the metrics, as a sum over the nodes of the tree. *)
Lemma python_counter key tree code :
  key ∈ ["functions"; "classes"; "methods"; "loops"; "conditions";
         "try_blocks"; "imports"; "variables"] →
  _extract_python_metrics tree code !! key
  = Some (VInt (total (contribution key) (subnodes tree))).
Proof.
  intros Hk. unfold _extract_python_metrics. cbv zeta.
  rewrite (metrics_loop key _ _ 0).
  - by rewrite (total_perm _ _ _ (walk_perm tree)).
  - rewrite !elem_of_cons, elem_of_nil in Hk.
    destruct Hk as [->|[->|[->|[->|[->|[->|[->|[->|[]]]]]]]]]; reflexivity.
Qed.

(** The loop does not touch the line counts. *)
Lemma no_contribution key l :
  key ∈ ["total_lines"; "code_lines"; "comment_lines"; "blank_lines"] →
  total (contribution key) l = 0.
Proof.
  intros Hk. apply total_zero, Forall_forall. intros n _.
  rewrite !elem_of_cons, elem_of_nil in Hk.
  destruct Hk as [->|[->|[->|[->|[]]]]]; by destruct n.
Qed.

(** *** Lines *)

Lemma split_cons sep s : ∃ l ls, split sep s = l :: ls.
Proof.
  induction s as [|c s (l & ls & IH)]; simpl; [by eauto|].
  destruct (c =? sep)%N; [by eauto|]. rewrite IH. eauto.
Qed.

Lemma length_split sep s :
  length (split sep s) = S (count_char sep s).
Proof.
  unfold count_char. induction s as [|c s IH]; [done|]. simpl.
  destruct (N.eqb_spec c sep) as [->|Hne].
  - rewrite filter_cons_True by done. simpl. by rewrite IH.
  - rewrite filter_cons_False by done.
    destruct (split_cons sep s) as (l & ls & E). rewrite E in *. exact IH.
Qed.

(** Every line is code, a comment or blank, for a comment mark that is not
    empty. *)
Lemma lines_partition mark lines :
  startswith (lit mark) [] = false →
  len lines
  = count_if (λ line, not_blank line && negb (line_starts mark line)) lines
    + count_if (line_starts mark) lines
    + count_if (λ line, negb (not_blank line)) lines.
Proof.
  intros Hm. unfold count_if, len.
  induction lines as [|line lines IH]; [done|]. simpl.
  assert (not_blank line = false → line_starts mark line = false) as Hb.
  { unfold not_blank, line_starts. by destruct (strip line). }
  destruct (not_blank line); simpl.
  - destruct (line_starts mark line); simpl; lia.
  - rewrite Hb by done. simpl. lia.
Qed.

Lemma python_lines_add_up tree code :
  lines_add_up code (_extract_python_metrics tree code).
Proof.
  unfold lines_add_up, _extract_python_metrics. cbv zeta.
  do 4 eexists.
  split; [by erewrite (metrics_loop "total_lines") by reflexivity|].
  split; [by erewrite (metrics_loop "code_lines") by reflexivity|].
  split; [by erewrite (metrics_loop "comment_lines") by reflexivity|].
  split; [by erewrite (metrics_loop "blank_lines") by reflexivity|].
  rewrite !no_contribution by (rewrite !elem_of_cons; auto).
  rewrite !Z.add_0_r. split; [by apply lines_partition|].
  unfold len. rewrite length_split. lia.
Qed.

Lemma slash_lines_add_up code total_lines :
  total_lines = len (split newline code) →
  total_lines
  = slash_code_lines (split newline code)
    + slash_comment_lines (split newline code)
    + blank_lines (split newline code)
  ∧ total_lines = 1 + Z.of_nat (count_char newline code).
Proof.
  intros ->. split; [by apply lines_partition|].
  unfold len. rewrite length_split. lia.
Qed.

(** X11. For a text that parses, the counters of the Python metrics are
    counts over the nodes of the tree: [functions] is the number of [def]
    statements wherever they stand, those inside classes included, and
    [methods] is always 0; [classes], [loops], [conditions], [try_blocks]
    and [imports] count the [class], [for] and [while], [if], [try] and
    [import] statements, and [variables] adds up the targets of the
    assignment statements. An [async def] counts for nothing. *)
Theorem python_metrics_count re env code tree :
  ast_parse env code = Ok tree →
  ∃ m, analyze re env code (lit "python") !! "metrics" = Some (VDict m)
    ∧ m !! "functions" = Some (VInt (count_if is_function (subnodes tree)))
    ∧ m !! "methods" = Some (VInt 0)
    ∧ m !! "classes" = Some (VInt (count_if is_class (subnodes tree)))
    ∧ m !! "loops" = Some (VInt (count_if is_loop (subnodes tree)))
    ∧ m !! "conditions" = Some (VInt (count_if is_condition (subnodes tree)))
    ∧ m !! "try_blocks" = Some (VInt (count_if is_try (subnodes tree)))
    ∧ m !! "imports" = Some (VInt (count_if is_import (subnodes tree)))
    ∧ m !! "variables" = Some (VInt (total assigned (subnodes tree))).
Proof.
  intros Hparse. eexists. rewrite analyze_python.
  split; [by apply python_metrics|].
  rewrite !python_counter by (rewrite !elem_of_cons; auto 10).
  rewrite !count_if_total.
  repeat split; do 2 f_equal;
    try (apply total_same; intros n; by destruct n).
  apply total_zero, Forall_forall. intros n _. by destruct n.
Qed.

(** A class with one method: one function and no method. *)
Lemma python_metrics_count_witness :
  ast_parse (parsing_to method_tree) method_code = Ok method_tree
  ∧ ∃ m, analyze no_match (parsing_to method_tree) method_code
           (lit "python") !! "metrics" = Some (VDict m)
      ∧ m !! "functions" = Some (VInt 1)
      ∧ m !! "methods" = Some (VInt 0)
      ∧ m !! "classes" = Some (VInt 1)
      ∧ m !! "loops" = Some (VInt 1)
      ∧ m !! "conditions" = Some (VInt 1)
      ∧ m !! "try_blocks" = Some (VInt 0)
      ∧ m !! "imports" = Some (VInt 0)
      ∧ m !! "variables" = Some (VInt 0).
Proof.
  split; [reflexivity|].
  exact (python_metrics_count no_match (parsing_to method_tree)
           method_code method_tree eq_refl).
Defined.

(** X12. In the metrics of Python, Java and C or C++ code the line counts
    add up: [total_lines] is [code_lines] plus [comment_lines] plus
    [blank_lines], and it is one more than the number of newline
    characters, so that the empty text has one line, which is blank. *)
Theorem line_counts_add_up re tree code :
  lines_add_up code (_extract_python_metrics tree code)
  ∧ lines_add_up code (_extract_java_metrics re code)
  ∧ lines_add_up code (_extract_cpp_metrics re code).
Proof.
  split; [apply python_lines_add_up|].
  split; (do 4 eexists; do 4 (split; [reflexivity|]);
          by apply slash_lines_add_up).
Qed.

(** *** The nodes of subtrees *)

Lemma elem_of_flat_map {A B} (f : A → list B) l y :
  y ∈ flat_map f l ↔ ∃ x, x ∈ l ∧ y ∈ f x.
Proof.
  induction l as [|x l IH]; simpl.
  - split; [by intros ?%elem_of_nil | by intros (x & ?%elem_of_nil & _)].
  - rewrite elem_of_app, IH. split.
    + intros [H|(x' & H1 & H2)]; [exists x | exists x'];
        rewrite elem_of_cons; auto.
    + intros (x' & [->|H1]%elem_of_cons & H2); eauto.
Qed.

(** The nodes of a subtree are nodes of the tree. *)
Lemma subnodes_sub n c x : c ∈ subnodes n → x ∈ subnodes c → x ∈ subnodes n.
Proof.
  revert c x. induction n as [n IH] using node_children_ind. intros c x.
  rewrite (subnodes_eq n). intros [->|Hc]%elem_of_cons Hx.
  - by rewrite <- subnodes_eq.
  - apply elem_of_cons. right. apply elem_of_flat_map in Hc as (k & Hk & Hc).
    apply elem_of_flat_map. exists k. split; [done|]. by eapply IH.
Qed.

(** *** The nesting depth *)


Lemma flat_map_map {A B C} (f : B → list C) (g : A → B) l :
  flat_map f (map g l) = flat_map (λ x, f (g x)) l.
Proof. induction l as [|x l IH]; simpl; [done|]. by rewrite IH. Qed.

Lemma depths_eq n d :
  depths n d
  = d :: flat_map (λ c, depths c (if is_nesting n then d + 1 else d))
           (iter_child_nodes n).
Proof.
  unfold depths at 1. rewrite tree_fold_eq. fold depths.
  by rewrite flat_map_map.
Qed.

Lemma max_from_le b l : b ≤ foldr Z.max b l.
Proof. induction l as [|x l IH]; simpl; lia. Qed.

Lemma max_from_app b l1 l2 :
  foldr Z.max b (l1 ++ l2) = Z.max (foldr Z.max b l1) (foldr Z.max b l2).
Proof.
  pose proof (max_from_le b l2). induction l1 as [|x l1 IH]; simpl; lia.
Qed.

Lemma max_from_base b b' l :
  b ≤ b' → foldr Z.max b' l = Z.max b' (foldr Z.max b l).
Proof. intros H. induction l as [|x l IH]; simpl; lia. Qed.

Lemma max_of_depths c d inner :
  d ≤ inner → foldr Z.max inner (depths c inner) = foldr Z.max d (depths c inner).
Proof.
  intros H. rewrite depths_eq. simpl.
  rewrite (max_from_base d inner) by done. lia.
Qed.

Lemma depth_loop (cs : list node) d inner a :
  d ≤ inner → d ≤ a →
  Forall (λ c, ∀ d, depth_found c d = foldr Z.max d (depths c d)) cs →
  foldl (λ max_depth c, Z.max max_depth (depth_found c inner)) a cs
  = Z.max a (foldr Z.max d (flat_map (λ c, depths c inner) cs)).
Proof.
  intros Hd Ha Hcs. revert a Ha.
  induction Hcs as [|c cs Hc _ IH]; intros a Ha; simpl; [lia|].
  rewrite IH by lia. rewrite max_from_app, Hc, (max_of_depths c d) by done.
  lia.
Qed.

(** The loop of [get_depth] finds the greatest of the depths. *)
Lemma depth_found_max n : ∀ d, depth_found n d = foldr Z.max d (depths n d).
Proof.
  induction n as [n IH] using node_children_ind. intros d.
  rewrite depth_found_eq, depths_eq. simpl.
  apply depth_loop; [destruct (is_nesting n); lia | lia |].
  by apply Forall_forall.
Qed.

Lemma count_if_nonneg {A} (p : A → bool) l : 0 ≤ count_if p l.
Proof. unfold count_if, len. lia. Qed.

Lemma count_if_app {A} (p : A → bool) l1 l2 :
  count_if p (l1 ++ l2) = count_if p l1 + count_if p l2.
Proof. unfold count_if, len. rewrite List.filter_app, length_app. lia. Qed.

Lemma count_if_cons {A} (p : A → bool) x l :
  count_if p (x :: l) = (if p x then 1 else 0) + count_if p l.
Proof. unfold count_if, len. simpl. destruct (p x); simpl; lia. Qed.

Lemma children_bound (cs : list node) lo inner extra :
  lo ≤ inner ≤ lo + extra →
  Forall (λ c, ∀ d, Forall
            (λ x, d ≤ x ≤ d + count_if is_nesting (subnodes c)) (depths c d))
         cs →
  Forall (λ x, lo ≤ x
               ≤ lo + extra + count_if is_nesting (flat_map subnodes cs))
         (flat_map (λ c, depths c inner) cs).
Proof.
  intros Hin. induction 1 as [|c cs Hc _ IH]; simpl; [done|].
  rewrite count_if_app.
  pose proof (count_if_nonneg is_nesting (subnodes c)).
  pose proof (count_if_nonneg is_nesting (flat_map subnodes cs)).
  apply Forall_app_2.
  - eapply Forall_impl; [apply Hc|]. simpl. intros x Hx. lia.
  - eapply Forall_impl; [apply IH|]. simpl. intros x Hx. lia.
Qed.

(** No depth exceeds the depth of the root by more than the number of
    nesting statements. *)
Lemma depths_bound n :
  ∀ d, Forall (λ x, d ≤ x ≤ d + count_if is_nesting (subnodes n)) (depths n d).
Proof.
  induction n as [n IH] using node_children_ind. intros d.
  rewrite depths_eq, (subnodes_eq n), count_if_cons.
  pose proof (count_if_nonneg is_nesting
                (flat_map subnodes (iter_child_nodes n))).
  constructor; [destruct (is_nesting n); lia|].
  eapply Forall_impl.
  - apply (children_bound _ d _ (if is_nesting n then 1 else 0));
      [destruct (is_nesting n); lia | by apply Forall_forall].
  - simpl. intros x Hx. lia.
Qed.

Lemma max_from_bound b l lo hi :
  lo ≤ b ≤ hi → Forall (λ x, lo ≤ x ≤ hi) l → lo ≤ foldr Z.max b l ≤ hi.
Proof. intros Hb. induction 1 as [|x l Hx _ IH]; simpl; lia. Qed.

(** The complexity analysis that [analyze] reports for a tree the
    interpreter has room for. *)
Lemma reported_complexity re env code tree :
  ast_parse env code = Ok tree →
  fits env tree →
  ∃ c, _analyze_python_complexity env tree = Ok c
    ∧ analyze re env code (lit "python") !! "complexity_analysis"
      = Some (VDict c)
    ∧ c !! "nesting_depth" = Some (VInt (depth_found tree 0)).
Proof.
  intros Hparse Hfit.
  destruct (python_complexity env code tree Hparse Hfit) as (c & Hc & Hb).
  destruct (python_complexity_room env tree Hfit) as (c' & Hc' & _ & Hn).
  assert (c' = c) as -> by congruence.
  exists c. by rewrite analyze_python.
Qed.

(** X13. For a text that parses to a tree with no more levels than the
    recursion of [get_depth] has room for, [nesting_depth] is the greatest
    number of [if], [for], [while], [with] and [try] statements that
    enclose a node of the tree; function and class definitions add no
    level. It is at least 0 and at most the number of such statements in
    the tree. *)
Theorem nesting_depth_is_deepest re env code tree :
  ast_parse env code = Ok tree →
  fits env tree →
  ∃ c, analyze re env code (lit "python") !! "complexity_analysis"
       = Some (VDict c)
    ∧ c !! "nesting_depth" = Some (VInt (deepest tree))
    ∧ 0 ≤ deepest tree ≤ count_if is_nesting (subnodes tree).
Proof.
  intros Hparse Hfit.
  destruct (reported_complexity re env code tree Hparse Hfit)
    as (c & _ & Hb & Hn).
  exists c. split; [exact Hb|]. rewrite Hn.
  unfold deepest. rewrite depth_found_max.
  split; [done|].
  apply max_from_bound; [unfold count_if, len; lia|].
  exact (depths_bound tree 0).
Qed.

(** A test inside a loop inside a method inside a class: depth 2. *)
Lemma nesting_depth_is_deepest_witness :
  ast_parse (parsing_to method_tree) method_code = Ok method_tree
  ∧ fits (parsing_to method_tree) method_tree
  ∧ deepest method_tree = 2
  ∧ ∃ c, analyze no_match (parsing_to method_tree) method_code
           (lit "python") !! "complexity_analysis" = Some (VDict c)
      ∧ c !! "nesting_depth" = Some (VInt (deepest method_tree))
      ∧ 0 ≤ deepest method_tree
          ≤ count_if is_nesting (subnodes method_tree).
Proof.
  assert (fits (parsing_to method_tree) method_tree) as Hfit.
  { apply Nat.leb_le. by vm_compute. }
  split; [reflexivity|]. split; [exact Hfit|]. split; [reflexivity|].
  exact (nesting_depth_is_deepest no_match (parsing_to method_tree)
           method_code method_tree eq_refl Hfit).
Defined.

(** *** The complexity of each function *)

Lemma operands_present_sub tree n :
  operands_present tree → n ∈ subnodes tree → operands_present n.
Proof.
  unfold operands_present. rewrite !Forall_forall. intros H Hn x Hx.
  apply H. by eapply subnodes_sub.
Qed.

Lemma flat_map_same {A B} (f g : A → list B) l :
  Forall (λ x, f x = g x) l → flat_map f l = flat_map g l.
Proof. induction 1 as [|x l H _ IH]; simpl; [done|]. by rewrite H, IH. Qed.

Lemma python_function_complexities env tree c :
  _analyze_python_complexity env tree = Ok c →
  c !! "function_complexities"
  = Some (VList
            (flat_map
               (λ n, match n with
                     | FunctionDef name lineno _ _ _ _ =>
                         [VDict {[ "name" := VStr name;
                                   "complexity" :=
                                     VInt (_calculate_function_complexity n);
                                   "line_number" := VInt lineno ]}]
                     | _ => []
                     end)
               (walk tree))).
Proof.
  unfold _analyze_python_complexity.
  destruct (_calculate_max_nesting_depth env tree); [|done].
  intros [= <-]. reflexivity.
Qed.

(** X14. For a text that parses to a tree with no more levels than the
    recursion of [get_depth] has room for, [function_complexities] has one
    entry for each [def] statement of the tree, nested ones included, with
    its name, its line and the cyclomatic complexity of the statement taken
    on its own: 1, plus the branching constructs and extra boolean operands
    inside it, those of the functions nested in it included. An
    [async def] has no entry. The entries come in the order of
    [ast.walk]. *)
Theorem function_complexities_are_cyclomatic re env code tree :
  ast_parse env code = Ok tree →
  operands_present tree →
  fits env tree →
  ∃ c, analyze re env code (lit "python") !! "complexity_analysis"
       = Some (VDict c)
    ∧ c !! "function_complexities"
      = Some (VList (flat_map function_entry (walk tree)))
    ∧ flat_map function_entry (walk tree)
      ≡ₚ flat_map function_entry (subnodes tree).
Proof.
  intros Hparse Hwf Hfit.
  destruct (reported_complexity re env code tree Hparse Hfit)
    as (c & Hc & Hb & _).
  exists c. split; [exact Hb|].
  split; [|apply flat_map_perm, walk_perm].
  rewrite (python_function_complexities env tree c Hc). do 2 f_equal.
  apply flat_map_same. apply Forall_forall. intros n Hn.
  destruct n; try reflexivity.
  unfold function_entry, _calculate_function_complexity.
  rewrite complexity_loop; [reflexivity|].
  eapply operands_present_sub; [exact Hwf|]. by rewrite <- walk_perm.
Qed.

(** The method of the class: one entry, of complexity 3. *)
Lemma function_complexities_are_cyclomatic_witness :
  ast_parse (parsing_to method_tree) method_code = Ok method_tree
  ∧ operands_present method_tree
  ∧ fits (parsing_to method_tree) method_tree
  ∧ ∃ c, analyze no_match (parsing_to method_tree) method_code
           (lit "python") !! "complexity_analysis" = Some (VDict c)
      ∧ c !! "function_complexities"
        = Some (VList [VDict {[ "name" := VStr (lit "m");
                                "complexity" := VInt 3;
                                "line_number" := VInt 2 ]}]).
Proof.
  assert (operands_present method_tree) as Hwf.
  { unfold operands_present. vm_compute. repeat constructor. }
  assert (fits (parsing_to method_tree) method_tree) as Hfit.
  { apply Nat.leb_le. by vm_compute. }
  split; [reflexivity|]. split; [exact Hwf|]. split; [exact Hfit|].
  destruct (function_complexities_are_cyclomatic no_match
              (parsing_to method_tree) method_code method_tree eq_refl Hwf
              Hfit)
    as (c & Hc & Hf & _).
  exists c. split; [exact Hc|]. exact Hf.
Defined.

(** *** Unused imports *)

Lemma contains_refl s : contains s s = true.
Proof. rewrite <- (app_nil_r s) at 2. apply contains_prefix. Qed.

Lemma contains_join sep name l : name ∈ l → contains name (join sep l) = true.
Proof.
  induction l as [|x l IH]; [by intros ?%elem_of_nil|].
  intros [->|Hin]%elem_of_cons.
  - destruct l; simpl; [apply contains_refl | apply contains_prefix].
  - destruct l as [|y l]; [by apply elem_of_nil in Hin|].
    change (join sep (x :: y :: l)) with (x ++ sep ++ join sep (y :: l)).
    by apply contains_skip, contains_skip, IH.
Qed.

Lemma filter_nil_all {A} (P : A → Prop) `{∀ x, Decision (P x)} (l : list A) :
  Forall (λ x, ¬ P x) l → filter P l = [].
Proof.
  induction 1 as [|x l Hx _ IH]; [done|]. by rewrite filter_cons_False.
Qed.

Lemma elem_of_perm_flat_map {A B} (f : A → list B) l1 l2 x :
  l1 ≡ₚ l2 → x ∈ flat_map f l1 ↔ x ∈ flat_map f l2.
Proof. intros H. by rewrite (flat_map_perm f _ _ H). Qed.

(** X15. The check for unused imports compares the imported names
    ([alias.name]) with the identifiers of the tree. When every imported
    name occurs as an identifier it reports nothing; an imported name that
    is no identifier of the tree, such as the dotted name of [import a.b]
    or the name that an [as] clause renames, gives exactly one warning,
    "Unused Imports", whose description names it. *)
Theorem unused_imports_are_reported tree code :
  (Forall (λ name, name ∈ used_names tree) (imported_names tree) →
   _check_python_syntax_issues tree code = [])
  ∧ (∀ name, name ∈ imported_names tree → name ∉ used_names tree →
     ∃ i description,
       _check_python_syntax_issues tree code = [i]
       ∧ i !! "title" = Some (VStr (lit "Unused Imports"))
       ∧ i !! "severity" = Some (VStr (lit "warning"))
       ∧ i !! "description" = Some (VStr description)
       ∧ contains name description = true).
Proof.
  unfold _check_python_syntax_issues, imported_names, used_names. cbv zeta.
  split.
  - intros Hall. rewrite filter_nil_all; [done|].
    apply Forall_forall. intros name Hin Hnot. apply Hnot.
    rewrite (elem_of_perm_flat_map _ _ _ _ (walk_perm tree)) in Hin.
    rewrite (elem_of_perm_flat_map _ _ _ _ (walk_perm tree)).
    by apply (proj1 (Forall_forall _ _) Hall).
  - intros name Hin Hnot.
    match goal with
    | |- context [filter ?P ?l] => assert (name ∈ filter P l) as Hf
    end.
    { apply list_elem_of_filter. split.
      - by rewrite (elem_of_perm_flat_map _ _ _ _ (walk_perm tree)).
      - by rewrite (elem_of_perm_flat_map _ _ _ _ (walk_perm tree)). }
    match goal with
    | |- context [filter ?P ?l] => destruct (filter P l) as [|x unused] eqn:E
    end; [by apply elem_of_nil in Hf|].
    cbn [truthy]. eexists _, _. split; [reflexivity|].
    do 3 (split; [reflexivity|]).
    by apply contains_skip, contains_join.
Qed.


(** *** Line numbers *)

Lemma line_number_at title description severity suggestion n lo hi :
  lo ≤ n ≤ hi →
  line_number_in lo hi
    (issue_at title description severity suggestion (VInt n)).
Proof. intros H. by exists n. Qed.

Lemma long_lines_in i lines :
  Forall (λ n, i + 1 ≤ n ≤ i + len lines) (long_lines i lines).
Proof.
  revert i. induction lines as [|line rest IH]; intros i; simpl; [done|].
  assert (len (line :: rest) = 1 + len rest) as ->
    by (unfold len; simpl; lia).
  pose proof (Nat2Z.is_nonneg (length rest)).
  apply Forall_app_2.
  - destruct (79 <? len line); [|done]. constructor; [|done].
    unfold len. lia.
  - eapply Forall_impl; [apply IH|]. simpl. intros n Hn. lia.
Qed.

Lemma missing_blank_lines_in i prev lines :
  Forall (line_number_in (Z.max 2 (i + 1)) (i + len lines))
         (missing_blank_lines i prev lines).
Proof.
  revert i prev. induction lines as [|line rest IH]; intros i prev; simpl;
    [done|].
  assert (len (line :: rest) = 1 + len rest) as ->
    by (unfold len; simpl; lia).
  pose proof (Nat2Z.is_nonneg (length rest)).
  apply Forall_app_2.
  - destruct (_ || _); [|done]. destruct prev as [before|]; [|done].
    destruct (0 <? i) eqn:Hi; [|done]. apply Z.ltb_lt in Hi.
    destruct (_ && _); [|done]. constructor; [|done].
    apply line_number_at. unfold len. lia.
  - eapply Forall_impl; [apply IH|]. simpl.
    intros d (n & Hn & Hle). exists n. split; [done|]. unfold len in *. lia.
Qed.

(** X16. Every issue of the Python style check carries the number of a
    line of the text, between 1 and [total_lines]; a "Missing Blank Line"
    issue is never about line 1. *)
Theorem style_issues_point_to_lines code :
  Forall (λ i, line_number_in 1 (len (split newline code)) i
               ∧ (i !! "title" = Some (VStr (lit "Missing Blank Line")) →
                  line_number_in 2 (len (split newline code)) i))
         (_check_python_style_issues code).
Proof.
  unfold _check_python_style_issues. cbv zeta. apply Forall_app_2.
  - pose proof (long_lines_in 0 (split newline code)) as H.
    destruct (long_lines 0 (split newline code)) as [|first long]; [done|].
    apply Forall_cons_1 in H as [H _]. constructor; [|done].
    split; [by apply line_number_at | discriminate].
  - eapply Forall_impl; [apply missing_blank_lines_in|]. simpl.
    intros d (n & Hn & Hle). split; [|intros _]; exists n; (split; [done|lia]).
Qed.

(** *** Missing semicolons *)

Lemma missing_semicolons_count i lines :
  len (missing_semicolons i lines) = count_if lacks_semicolon lines
  ∧ Forall (line_number_in (i + 1) (i + len lines))
           (missing_semicolons i lines).
Proof.
  revert i. induction lines as [|line rest IH]; intros i; [done|].
  destruct (IH (i + 1)) as [IH1 IH2].
  assert (len (line :: rest) = 1 + len rest) as ->
    by (unfold len; simpl; lia).
  pose proof (Nat2Z.is_nonneg (length rest)).
  rewrite count_if_cons. cbn [missing_semicolons].
  fold (lacks_semicolon line). split.
  - unfold len in *. rewrite length_app.
    destruct (lacks_semicolon line); simpl; lia.
  - apply Forall_app_2.
    + destruct (lacks_semicolon line); [|done]. constructor; [|done].
      apply line_number_at. unfold len. lia.
    + eapply Forall_impl; [apply IH2|]. simpl.
      intros d (n & Hn & Hle). exists n. split; [done|]. unfold len in *. lia.
Qed.

(** X17. The JavaScript syntax check reports every line that is not
    blank, does not end with [;], [{], [}], [)] or [,] and does not start
    with a keyword or a comment mark: one "Missing Semicolon" issue for
    each such line, not only for the first, each with the number of a line
    of the text. *)
Theorem every_line_without_semicolon re env code language :
  language ∈ [lit "javascript"; lit "typescript"] →
  ∃ rest,
    analyze re env code language !! "issues"
    = Some (VList ((VDict <$> _check_js_syntax_issues code) ++ rest))
    ∧ len (_check_js_syntax_issues code)
      = count_if lacks_semicolon (split newline code)
    ∧ Forall (line_number_in 1 (len (split newline code)))
             (_check_js_syntax_issues code).
Proof.
  intros Hl.
  exists (VDict <$> (_check_js_style_issues re code
                     ++ _check_js_security_issues code
                     ++ _check_js_performance_issues re code)).
  split.
  - rewrite <- fmap_app.
    destruct (one_of_two _ _ _ Hl) as [-> | ->];
      rewrite !fmap_app, !app_assoc; reflexivity.
  - apply (missing_semicolons_count 0).
Qed.

(** Three lines, of which the first two are reported. *)
Lemma every_line_without_semicolon_witness :
  lit "javascript" ∈ [lit "javascript"; lit "typescript"]
  ∧ count_if lacks_semicolon (split newline unterminated_code) = 2
  ∧ ∃ rest,
      analyze no_match (parsing_to straight_tree) unterminated_code
        (lit "javascript") !! "issues"
      = Some (VList ((VDict <$> _check_js_syntax_issues unterminated_code)
                     ++ rest))
      ∧ len (_check_js_syntax_issues unterminated_code) = 2.
Proof.
  split; [apply list_elem_of_here|]. split; [reflexivity|].
  destruct (every_line_without_semicolon no_match (parsing_to straight_tree)
              unterminated_code (lit "javascript") (list_elem_of_here _ _))
    as (rest & Hissues & Hlen & _).
  exists rest. split; [exact Hissues|]. exact Hlen.
Defined.

(** *** Braces *)

Lemma brace_loop code current_depth max_depth :
  0 ≤ current_depth ≤ max_depth →
  0 ≤ (foldl brace_step (current_depth, max_depth) code).1
    ≤ (foldl brace_step (current_depth, max_depth) code).2
  ∧ max_depth ≤ (foldl brace_step (current_depth, max_depth) code).2
    ≤ Z.max max_depth (current_depth + Z.of_nat (count_char lbrace code)).
Proof.
  revert current_depth max_depth. unfold count_char, lbrace.
  induction code as [|char code IH]; intros c m Hc; cbn [foldl].
  - cbn. lia.
  - assert (brace_step (c, m) char
            = if (char =? 123)%N then (c + 1, Z.max m (c + 1))
              else if (char =? 125)%N then (Z.max 0 (c - 1), m)
              else (c, m)) as -> by reflexivity.
    destruct (N.eqb_spec char 123) as [->|Hl].
    + rewrite filter_cons_True by done. cbn [length].
      rewrite Nat2Z.inj_succ.
      specialize (IH (c + 1) (Z.max m (c + 1)) ltac:(lia)). lia.
    + rewrite filter_cons_False by done.
      destruct (char =? 125)%N.
      * specialize (IH (Z.max 0 (c - 1)) m ltac:(lia)). lia.
      * specialize (IH c m Hc). lia.
Qed.

Lemma closing_braces k : foldl brace_step (0, 0) (replicate k rbrace) = (0, 0).
Proof. induction k as [|k IH]; [done|]. exact IH. Qed.

Lemma js_nesting_depth re code :
  _analyze_js_complexity re code !! "nesting_depth"
  = Some (VInt (foldl brace_step (0, 0) code).2).
Proof. reflexivity. Qed.

(** X18. The nesting depth of JavaScript code is found by counting
    braces: it is at least 0 and at most the number of opening braces, and
    closing braces that close nothing are ignored, so that any number of
    them in front of the code leaves the depth as it is. *)
Theorem js_nesting_depth_counts_braces re code :
  ∃ d, _analyze_js_complexity re code !! "nesting_depth" = Some (VInt d)
    ∧ 0 ≤ d ≤ Z.of_nat (count_char lbrace code)
    ∧ ∀ k, _analyze_js_complexity re (replicate k rbrace ++ code)
           !! "nesting_depth" = Some (VInt d).
Proof.
  eexists. split; [apply js_nesting_depth|]. split.
  - pose proof (brace_loop code 0 0 ltac:(lia)) as H. lia.
  - intros k. rewrite js_nesting_depth, foldl_app. by rewrite closing_braces.
Qed.

(** *** TypeScript *)

(** X19. For the analyzer TypeScript is JavaScript but for one flag: the
    two tags give the same issues, metrics and complexity analysis, and the
    same quality indicators except [has_type_annotations], which is always
    false for JavaScript. *)
Theorem typescript_analysis_is_javascript re env code :
  analyze re env code (lit "typescript") !! "issues"
  = analyze re env code (lit "javascript") !! "issues"
  ∧ analyze re env code (lit "typescript") !! "metrics"
    = analyze re env code (lit "javascript") !! "metrics"
  ∧ analyze re env code (lit "typescript") !! "complexity_analysis"
    = analyze re env code (lit "javascript") !! "complexity_analysis"
  ∧ ∃ qt qj,
      analyze re env code (lit "typescript") !! "quality_indicators"
      = Some (VDict qt)
      ∧ analyze re env code (lit "javascript") !! "quality_indicators"
        = Some (VDict qj)
      ∧ qj = <["has_type_annotations" := VBool false]> qt.
Proof.
  do 3 (split; [reflexivity|]). eexists _, _.
  split; [reflexivity|]. split; reflexivity.
Qed.

(** *** The metrics of the response *)

Lemma java_bundle re code :
  _analyze_java re code
  = {[ "issues" := VList (VDict <$> _check_java_patterns re code);
       "metrics" := VDict (_extract_java_metrics re code);
       "quality_indicators" := VDict ∅;
       "complexity_analysis" := VDict ∅ ]}.
Proof. reflexivity. Qed.

Lemma cpp_bundle re code :
  _analyze_cpp re code
  = {[ "issues" := VList (VDict <$> _check_cpp_patterns re code);
       "metrics" := VDict (_extract_cpp_metrics re code);
       "quality_indicators" := VDict ∅;
       "complexity_analysis" := VDict ∅ ]}.
Proof. reflexivity. Qed.

(** X20. For Java, C and C++ the analyzer returns no complexity analysis
    and no quality indicators: both are the empty dictionary. The metrics
    that the request handler builds from the bundle therefore have
    complexity 1 whatever the code, and for Java they have 0 functions,
    since the Java metrics count [methods] and have no [functions]. *)
Theorem compiled_languages_have_no_complexity re env code language :
  language ∈ [lit "java"; lit "cpp"; lit "c"] →
  analyze re env code language !! "complexity_analysis" = Some (VDict ∅)
  ∧ analyze re env code language !! "quality_indicators" = Some (VDict ∅)
  ∧ ∃ a, analysis_metrics (analyze re env code language) = Ok a
      ∧ complexity a = VInt 1
      ∧ lines a = VInt (len (split newline code))
      ∧ (language = lit "java" → functions a = VInt 0).
Proof.
  rewrite !elem_of_cons, elem_of_nil. intros [->|[->|[->|[]]]].
  - do 2 (split; [reflexivity|]). eexists. split; [reflexivity|].
    repeat split; reflexivity.
  - do 2 (split; [reflexivity|]). eexists. split; [reflexivity|].
    repeat split; try reflexivity. discriminate.
  - do 2 (split; [reflexivity|]). eexists. split; [reflexivity|].
    repeat split; try reflexivity. discriminate.
Qed.

Lemma compiled_languages_have_no_complexity_witness :
  lit "java" ∈ [lit "java"; lit "cpp"; lit "c"]
  ∧ ∃ a, analysis_metrics
           (analyze no_match (parsing_to straight_tree)
              (lit "class A { void f() { if (x) { } } }") (lit "java")) = Ok a
      ∧ complexity a = VInt 1
      ∧ functions a = VInt 0.
Proof.
  split; [apply list_elem_of_here|].
  destruct (compiled_languages_have_no_complexity no_match
              (parsing_to straight_tree)
              (lit "class A { void f() { if (x) { } } }") (lit "java")
              (list_elem_of_here _ _)) as (_ & _ & a & Ha & Hc & _ & Hf).
  exists a. split; [exact Ha|]. split; [exact Hc|]. exact (Hf eq_refl).
Defined.

(** *** A parser that fails otherwise *)

(** X21. When [ast.parse] raises an exception that is no [SyntaxError],
    the bundle has exactly one issue, "Analysis Error", of severity
    "warning" and without a line number, whose description ends with the
    text of the exception; its metrics, quality indicators and complexity
    analysis are the empty dictionaries it started with. *)
Theorem other_parse_failure_is_a_warning re env code e :
  ast_parse env code = Raise e →
  (∀ lineno msg, e ≠ SyntaxError lineno msg) →
  ∃ i, analyze re env code (lit "python") !! "issues" = Some (VList [VDict i])
    ∧ i !! "title" = Some (VStr (lit "Analysis Error"))
    ∧ i !! "severity" = Some (VStr (lit "warning"))
    ∧ i !! "description"
      = Some (VStr (lit "Failed to analyze Python code: " ++ exn_str e))
    ∧ i !! "line_number" = None
    ∧ analyze re env code (lit "python") !! "metrics" = Some (VDict ∅)
    ∧ analyze re env code (lit "python") !! "quality_indicators"
      = Some (VDict ∅)
    ∧ analyze re env code (lit "python") !! "complexity_analysis"
      = Some (VDict ∅).
Proof.
  intros H Hne. rewrite analyze_python. unfold _analyze_python. rewrite H.
  destruct e; try (eexists; repeat split; reflexivity).
  by destruct (Hne lineno msg).
Qed.

(** A parser that refuses a text with a null character. *)
Lemma other_parse_failure_is_a_warning_witness :
  ast_parse refusing_parser null_code
  = Raise (OtherException
             (lit "source code string cannot contain null bytes"))
  ∧ ∃ i, analyze no_match refusing_parser null_code (lit "python") !! "issues"
         = Some (VList [VDict i])
      ∧ i !! "severity" = Some (VStr (lit "warning"))
      ∧ i !! "description"
        = Some (VStr (lit "Failed to analyze Python code: source code string cannot contain null bytes")).
Proof.
  split; [reflexivity|].
  assert (∀ lineno msg,
            OtherException
              (lit "source code string cannot contain null bytes")
            ≠ SyntaxError lineno msg) as Hne by (intros ? ? ?; discriminate).
  destruct (other_parse_failure_is_a_warning no_match refusing_parser
              null_code _ eq_refl Hne) as (i & Hi & _ & Hs & Hd & _).
  exists i. split; [exact Hi|]. split; [exact Hs|]. exact Hd.
Defined.

End AnalyzerFacts.

(** * The language detection *)

Module DetectionFacts.
Import Py LanguageDetector DetectionCases.

Lemma max_key_in best rest : max_key best rest ∈ best :: rest.
Proof.
  revert best. induction rest as [|e rest IH]; intros best; simpl.
  - apply list_elem_of_here.
  - destruct (best.2 <? e.2).
    + apply list_elem_of_further, IH.
    + specialize (IH best). apply elem_of_cons in IH as [->|IH].
      * apply list_elem_of_here.
      * by do 2 apply list_elem_of_further.
Qed.

(** The entry that [max] returns: the first one with the greatest
    score. *)
Lemma max_key_first best rest i entry :
  (best :: rest) !! i = Some entry →
  (∀ j e, (best :: rest) !! j = Some e → e.2 ≤ entry.2) →
  (∀ j e, (j < i)%nat → (best :: rest) !! j = Some e → e.2 < entry.2) →
  max_key best rest = entry.
Proof.
  revert best i. induction rest as [|e1 rest IH]; intros best i Hi Hmax Hfirst.
  - destruct i as [|i]; simpl in *; [by injection Hi | done].
  - simpl. destruct (Z.ltb_spec best.2 e1.2) as [Hlt|Hge].
    + destruct i as [|i].
      * injection Hi as <-. specialize (Hmax 1%nat e1 eq_refl). lia.
      * apply (IH e1 i); [exact Hi | |].
        -- intros j e Hj. exact (Hmax (S j) e Hj).
        -- intros j e Hji Hj. apply (Hfirst (S j) e); [lia | exact Hj].
    + destruct i as [|[|i]].
      * apply (IH best 0%nat); [exact Hi | | intros j e Hj; lia].
        intros [|j] e Hj; [exact (Hmax 0%nat e Hj) | exact (Hmax (S (S j)) e Hj)].
      * injection Hi as <-.
        specialize (Hfirst 0%nat best ltac:(lia) eq_refl). lia.
      * apply (IH best (S i)); [exact Hi | |].
        -- intros [|j] e Hj;
             [exact (Hmax 0%nat e Hj) | exact (Hmax (S (S j)) e Hj)].
        -- intros [|j] e Hji Hj.
           ++ apply (Hfirst 0%nat e); [lia | exact Hj].
           ++ apply (Hfirst (S (S j)) e); [lia | exact Hj].
Qed.

Section Detect.
Context (findall_flags : string → str → nat).

Lemma scores_languages code :
  (scores findall_flags code).*1
  = [lit "python"; lit "javascript"; lit "typescript"; lit "java"; lit "cpp";
     lit "go"; lit "rust"].
Proof. reflexivity. Qed.

Lemma scored_is_accepted code entry :
  entry ∈ scores findall_flags code → entry.1 ∈ accepted.
Proof.
  intros H. apply (list_elem_of_fmap_2 fst) in H.
  rewrite scores_languages in H. unfold accepted.
  rewrite !elem_of_cons in *. tauto.
Qed.

Lemma fallback_known code provided_language :
  fallback code provided_language ∈ accepted
  ∨ provided_language = Some (fallback code provided_language).
Proof.
  unfold fallback, accepted.
  repeat match goal with
         | |- context [if ?b then _ else _] => destruct b
         end; try (left; rewrite !elem_of_cons; by auto 10).
  destruct provided_language as [language|].
  - destruct (truthy language); [by right|].
    left; rewrite !elem_of_cons; by auto 10.
  - left; rewrite !elem_of_cons; by auto 10.
Qed.

Lemma detect_from_code_known code provided_language :
  detect_from_code findall_flags code provided_language ∈ accepted
  ∨ provided_language
    = Some (detect_from_code findall_flags code provided_language).
Proof.
  unfold detect_from_code.
  destruct (scores findall_flags code) as [|first rest] eqn:E;
    [apply fallback_known|].
  cbv zeta. destruct (0 <? _); [|apply fallback_known].
  left. apply (scored_is_accepted code). rewrite E. apply max_key_in.
Qed.

(** X22. The language detected is always one of python, javascript, java,
    cpp, typescript, go and rust, or the language the request provided; a
    provided language that is one of these seven is returned as it is,
    whatever the code. *)
Theorem detected_language_is_known code provided_language :
  (detect_language findall_flags code provided_language ∈ accepted
   ∨ provided_language
     = Some (detect_language findall_flags code provided_language))
  ∧ (∀ language, provided_language = Some language → language ∈ accepted →
     detect_language findall_flags code provided_language = language).
Proof.
  split.
  - unfold detect_language. destruct provided_language as [language|];
      [|apply detect_from_code_known].
    destruct (truthy language && _) eqn:E; [by right|].
    apply detect_from_code_known.
  - intros language -> Hin. unfold detect_language.
    rewrite bool_decide_eq_true_2 by done.
    assert (truthy language = true) as ->; [|done].
    unfold accepted in Hin. rewrite !elem_of_cons, elem_of_nil in Hin.
    destruct Hin as [->|[->|[->|[->|[->|[->|[->|[]]]]]]]]; reflexivity.
Qed.

(** X23. When the request provides none of the seven languages and some
    pattern matches, the language detected is the one with the greatest
    score, and among languages with that score the one that comes first in
    the order python, javascript, typescript, java, cpp, go, rust. *)
Theorem highest_score_wins code provided_language i language v :
  (∀ l, provided_language = Some l → l ∉ accepted) →
  scores findall_flags code !! i = Some (language, v) →
  0 < v →
  (∀ j e, scores findall_flags code !! j = Some e → e.2 ≤ v) →
  (∀ j e, (j < i)%nat → scores findall_flags code !! j = Some e → e.2 < v) →
  detect_language findall_flags code provided_language = language.
Proof.
  intros Hprov Hi Hv Hmax Hfirst.
  assert (detect_from_code findall_flags code provided_language = language)
    as Hd.
  { unfold detect_from_code.
    destruct (scores findall_flags code) as [|first rest]; [done|].
    cbv zeta. rewrite (max_key_first first rest i (language, v)) by done.
    simpl. by rewrite (proj2 (Z.ltb_lt 0 v)). }
  unfold detect_language. destruct provided_language as [l|]; [|done].
  rewrite (bool_decide_eq_false_2 (l ∈ accepted)) by by apply Hprov.
  by rewrite andb_false_r.
Qed.

End Detect.

(** A Python and a JavaScript pattern match once each: the language is
    python, which comes first. *)
Lemma highest_score_wins_witness :
  scores mixed_findall mixed_code !! 0%nat = Some (lit "python", 1)
  ∧ scores mixed_findall mixed_code !! 1%nat = Some (lit "javascript", 1)
  ∧ detect_language mixed_findall mixed_code None = lit "python".
Proof.
  split; [reflexivity|]. split; [reflexivity|].
  apply (highest_score_wins mixed_findall mixed_code None 0 (lit "python") 1).
  - intros l [=].
  - reflexivity.
  - lia.
  - intros j e.
    do 7 (destruct j as [|j];
          [intros H; vm_compute in H; injection H as <-;
           vm_compute; discriminate|]).
    intros H. vm_compute in H. discriminate.
  - intros j e Hj. lia.
Defined.

End DetectionFacts.

(** * The rate limiter *)

Module RateLimiterFacts.
Import Py RateLimiter RateLimiterRuns RateLimiterCases.

Lemma later_spec a b : later a b = true ↔ (b < a)%Q.
Proof.
  unfold later. rewrite negb_true_iff. split.
  - intros H. apply Qnot_le_lt. intros Hle.
    apply Qle_bool_iff in Hle. congruence.
  - intros H. destruct (Qle_bool a b) eqn:E; [|done].
    apply Qle_bool_iff in E. lra.
Qed.

Lemma later_false a b : later a b = false ↔ (a <= b)%Q.
Proof.
  unfold later. rewrite negb_false_iff. apply Qle_bool_iff.
Qed.

Lemma filter_later_later m m' l :
  (m' <= m)%Q →
  List.filter (λ x, later x m) (List.filter (λ x, later x m') l)
  = List.filter (λ x, later x m) l.
Proof.
  intros H. induction l as [|x l IH]; [done|]. simpl.
  destruct (later x m') eqn:E'; simpl.
  - by rewrite IH.
  - assert (later x m = false) as ->; [|exact IH].
    apply later_false. apply later_false in E'. lra.
Qed.

Lemma length_filter_weaker m m' (l : list Q) :
  (m' <= m)%Q →
  (length (List.filter (λ x, later x m) l)
   ≤ length (List.filter (λ x, later x m') l))%nat.
Proof.
  intros H. rewrite <- (filter_later_later m m' l H).
  apply List.filter_length_le.
Qed.

(** *** What the limiter remembers *)

Lemma spaced_snoc limit past t :
  spaced limit past →
  len (List.filter (λ x, later x (t - 60)) past) < limit →
  spaced limit (past ++ [t]).
Proof.
  intros Hs Hlen before x after Heq.
  destruct after as [|y after _] using rev_ind.
  - apply app_inj_tail in Heq as [-> ->]. exact Hlen.
  - rewrite app_comm_cons, app_assoc in Heq.
    apply app_inj_tail in Heq as [Heq _]. by apply (Hs before x after).
Qed.

Lemma spaced_init limit past t : spaced limit (past ++ [t]) → spaced limit past.
Proof.
  intros Hs before x after Heq. apply (Hs before x (after ++ [t])).
  by rewrite Heq, <- app_assoc.
Qed.

(** One request. *)
Lemma is_allowed_remembers self client past now c t :
  (∀ t0, now = Some t0 → (t0 <= t)%Q) →
  remembers self client past now →
  spaced (requests_per_minute self) past →
  let r := is_allowed self c t in
  let past' :=
    past ++ (if r.1.1 && bool_decide (c = client) then [t] else []) in
  remembers r.2 client past' (Some t)
  ∧ spaced (requests_per_minute self) past'
  ∧ requests_per_minute r.2 = requests_per_minute self.
Proof.
  intros Hnow Hrem Hsp.
  assert (∀ m, (t - 60 <= m)%Q → ∀ t0, now = Some t0 → (t0 - 60 <= m)%Q)
    as Hm.
  { intros m Hle t0 H0. specialize (Hnow t0 H0). lra. }
  destruct (decide (c = client)) as [->|Hne].
  - assert (t - 60 <= t - 60)%Q as Hrefl by lra.
    pose proof (Hrem (t - 60)%Q (Hm (t - 60)%Q Hrefl)) as Hkept.
    unfold is_allowed, recent_requests. cbv zeta.
    destruct (Z.leb_spec (requests_per_minute self)
                (len (List.filter (λ req_time, later req_time (t - 60))
                        (default [] (requests self !! client)))))
      as [Hfull|Hroom]; cbn [fst snd andb requests requests_per_minute].
    + rewrite app_nil_r. split; [|done].
      intros m Hle. cbn [requests snd]. rewrite lookup_insert_eq. cbn [default from_option id].
      rewrite filter_later_later by (apply Hle; reflexivity).
      apply Hrem, Hm, Hle. reflexivity.
    + rewrite bool_decide_eq_true_2 by done. split; [|split; [|done]].
      * intros m Hle. cbn [requests snd]. rewrite lookup_insert_eq. cbn [default from_option id].
        rewrite !List.filter_app. f_equal.
        rewrite filter_later_later by (apply Hle; reflexivity).
        apply Hrem, Hm, Hle. reflexivity.
      * apply spaced_snoc; [done|]. by rewrite <- Hkept.
  - assert ((is_allowed self c t).1.1 && bool_decide (c = client) = false)
      as Hno by (rewrite bool_decide_eq_false_2 by done; apply andb_false_r).
    cbv zeta. rewrite Hno, app_nil_r.
    split; [|split; [done|]].
    + intros m Hle.
      assert (requests (is_allowed self c t).2 !! client
              = requests self !! client) as ->.
      { unfold is_allowed. cbv zeta.
        destruct (_ <=? _); cbn [snd requests];
          by rewrite lookup_insert_ne. }
      apply Hrem, Hm, Hle. reflexivity.
    + unfold is_allowed. cbv zeta. by destruct (_ <=? _).
Qed.

Lemma latest_cons now call rest : latest now (call :: rest) = latest (Some call.2) rest.
Proof.
  unfold latest. rewrite last_cons. by destruct (last rest).
Qed.

(** A sequence of requests. *)
Lemma serve_remembers client calls : ∀ self past now,
  clock_advances calls →
  (∀ t0, now = Some t0 → Forall (λ c : str * Q, (t0 <= c.2)%Q) calls) →
  remembers self client past now →
  spaced (requests_per_minute self) past →
  let s := serve self calls in
  let past' := past ++ allowed_times client calls s.1 in
  remembers s.2 client past' (latest now calls)
  ∧ spaced (requests_per_minute self) past'
  ∧ requests_per_minute s.2 = requests_per_minute self.
Proof.
  induction calls as [|call rest IH]; intros self past now Hclock Hnow Hrem Hsp.
  - simpl. by rewrite app_nil_r.
  - destruct Hclock as [Hfirst Hclock].
    destruct (is_allowed_remembers self client past now call.1 call.2)
      as (Hrem1 & Hsp1 & Hrpm1); [|done|done|].
    { intros t0 H0. specialize (Hnow t0 H0).
      by apply Forall_cons_1 in Hnow as [? _]. }
    cbv zeta in Hrem1, Hsp1, Hrpm1.
    rewrite <- Hrpm1 in Hsp1.
    destruct (IH _ _ (Some call.2) Hclock
                ltac:(by intros t0 [= <-]) Hrem1 Hsp1) as (Hrem2 & Hsp2 & Hrpm2).
    cbv zeta in Hrem2, Hsp2, Hrpm2. cbn [serve allowed_times fst snd].
    rewrite latest_cons, app_assoc.
    split; [exact Hrem2|]. split; [by rewrite <- Hrpm1 | congruence].
Qed.

Lemma remembers_init limit client : remembers (__init__ limit) client [] None.
Proof. intros m _. reflexivity. Qed.

Lemma spaced_nil limit : spaced limit [].
Proof. intros [|??] ?? H; discriminate. Qed.

(** *** At most the limit in a minute *)

Lemma length_filter_and {A} (p q : A → bool) l :
  (length (List.filter (λ x, p x && q x) l) ≤ length (List.filter p l))%nat.
Proof.
  induction l as [|x l IH]; [done|]. simpl.
  destruct (p x), (q x); simpl; lia.
Qed.

Lemma spaced_window limit times T :
  spaced limit times → len (in_minute_before T times) ≤ Z.max 0 limit.
Proof.
  unfold in_minute_before, len.
  induction times as [|t times IH] using rev_ind; intros Hs; [simpl; lia|].
  specialize (IH (spaced_init _ _ _ Hs)).
  rewrite List.filter_app, length_app. simpl.
  destruct (later t (T - 60) && negb (later t T)) eqn:E; simpl; [|lia].
  apply andb_prop in E as [_ E]. apply negb_true_iff, later_false in E.
  pose proof (Hs times t [] eq_refl) as Hlt. unfold len in Hlt.
  pose proof (length_filter_and (λ x, later x (T - 60))
                (λ x, negb (later x T)) times).
  pose proof (length_filter_weaker (T - 60) (t - 60) times ltac:(lra)).
  lia.
Qed.

(** X24. While the clock does not go back, the limiter allows a client at
    most [requests_per_minute] requests in any minute: of the requests of
    one client that were allowed, at most that many have their time in the
    60 seconds that end at any time [T]. *)
Theorem at_most_the_limit_per_minute limit calls client T :
  clock_advances calls →
  len (in_minute_before T
         (allowed_times client calls (serve (__init__ limit) calls).1))
  ≤ Z.max 0 limit.
Proof.
  intros Hclock. apply spaced_window.
  destruct (serve_remembers client calls (__init__ limit) [] None)
    as (_ & Hs & _);
    [done | done | apply remembers_init | apply spaced_nil | exact Hs].
Qed.

(** With a limit of 2, the third request of a burst is denied, and a
    request a minute later is allowed. *)
Lemma at_most_the_limit_per_minute_witness :
  clock_advances burst
  ∧ (serve (__init__ 2) burst).1 = [true; true; false; true]
  ∧ len (in_minute_before 2
           (allowed_times visitor burst (serve (__init__ 2) burst).1))
    ≤ Z.max 0 2.
Proof.
  assert (clock_advances burst) as Hclock.
  { simpl. repeat split; repeat constructor; by vm_compute. }
  split; [exact Hclock|]. split; [reflexivity|].
  exact (at_most_the_limit_per_minute 2 burst visitor 2 Hclock).
Defined.

(** *** After a quiet minute *)

Lemma serve_app self calls more :
  serve self (calls ++ more)
  = ((serve self calls).1 ++ (serve (serve self calls).2 more).1,
     (serve (serve self calls).2 more).2).
Proof.
  revert self. induction calls as [|call rest IH]; intros self.
  - simpl. by destruct (serve self more).
  - simpl. by rewrite IH.
Qed.

Lemma clock_advances_app calls call :
  clock_advances (calls ++ [call]) →
  clock_advances calls ∧ ∀ t0, latest None calls = Some t0 → (t0 <= call.2)%Q.
Proof.
  induction calls as [|c rest IH]; [done|]. simpl.
  intros [Hall Hrest]. destruct (IH Hrest) as [IH1 IH2].
  apply Forall_app in Hall as [Hall1 Hall2].
  split; [done|]. intros t0. rewrite (latest_cons None).
  destruct rest as [|c' rest].
  - intros [= <-]. by apply Forall_cons_1 in Hall2 as [? _].
  - rewrite (latest_cons (Some c.2)). rewrite (latest_cons None) in IH2.
    apply IH2.
Qed.

Lemma filter_none {A} (p : A → bool) l :
  Forall (λ x, p x = false) l → List.filter p l = [].
Proof. induction 1 as [|x l H _ IH]; [done|]. simpl. by rewrite H. Qed.

(** X25. Requests that are denied are not recorded. A client none of whose
    requests was allowed in the last 60 seconds is allowed again, however
    many of its requests were denied in between, provided that the limit is
    positive and the clock did not go back. *)
Theorem quiet_client_is_allowed limit calls client t :
  0 < limit →
  clock_advances (calls ++ [(client, t)]) →
  Forall (λ x, (x <= t - 60)%Q)
         (allowed_times client calls (serve (__init__ limit) calls).1) →
  (serve (__init__ limit) (calls ++ [(client, t)])).1
  = (serve (__init__ limit) calls).1 ++ [true].
Proof.
  intros Hlimit Hclock Hquiet.
  apply clock_advances_app in Hclock as [Hclock Hlast].
  destruct (serve_remembers client calls (__init__ limit) [] None)
    as (Hrem & _ & Hrpm);
    [done | done | apply remembers_init | apply spaced_nil |].
  cbv zeta in Hrem, Hrpm. simpl in Hrem.
  rewrite serve_app. cbn [fst]. f_equal.
  cbn [serve fst snd]. f_equal.
  unfold is_allowed, recent_requests. cbv zeta.
  rewrite (Hrem (t - 60)%Q).
  - rewrite filter_none.
    + rewrite Hrpm. cbn [requests_per_minute __init__].
      assert ((limit <=? len (@nil Q)) = false) as ->; [|done].
      apply Z.leb_gt. unfold len. simpl. lia.
    + eapply Forall_impl; [exact Hquiet|]. intros x Hx. by apply later_false.
  - intros t0 H0. specialize (Hlast t0 H0). simpl in Hlast. lra.
Qed.

(** With a limit of 1, two requests are denied after the first; the one
    that comes a minute after the first is allowed. *)
Lemma quiet_client_is_allowed_witness :
  clock_advances (hasty ++ [(visitor, 61%Q)])
  ∧ (serve (__init__ 1) (hasty ++ [(visitor, 61%Q)])).1
    = [true; false; false; true].
Proof.
  assert (clock_advances (hasty ++ [(visitor, 61%Q)])) as Hclock.
  { simpl. repeat split; repeat constructor; by vm_compute. }
  split; [exact Hclock|].
  apply (quiet_client_is_allowed 1 hasty visitor 61%Q); [lia | exact Hclock |].
  vm_compute. repeat constructor; discriminate.
Defined.

(** *** The statistics *)

Lemma is_allowed_same a b client_id t :
  same_requests a b →
  (is_allowed a client_id t).1 = (is_allowed b client_id t).1
  ∧ same_requests (is_allowed a client_id t).2 (is_allowed b client_id t).2.
Proof.
  intros [Hlimit Hsame]. unfold is_allowed, recent_requests. cbv zeta.
  rewrite Hlimit, (Hsame client_id).
  destruct (_ <=? _); (split; [done|]); (split; [done|]);
    intros c; cbn [snd requests];
    (destruct (decide (c = client_id)) as [->|Hne];
     [by rewrite !lookup_insert_eq
     |rewrite !lookup_insert_ne by done; apply Hsame]).
Qed.

Lemma serve_same calls : ∀ a b,
  same_requests a b → (serve a calls).1 = (serve b calls).1.
Proof.
  induction calls as [|call rest IH]; intros a b Hsame; [done|].
  destruct (is_allowed_same a b call.1 call.2 Hsame) as [Hanswer Hnext].
  cbn [serve fst]. by rewrite Hanswer, (IH _ _ Hnext).
Qed.

Lemma get_stats_same self client_id t :
  same_requests (get_stats self client_id t).2 self.
Proof.
  split; [done|]. intros c. unfold get_stats. cbn [snd requests].
  destruct (requests self !! client_id) eqn:E; [done|].
  destruct (decide (c = client_id)) as [->|Hne].
  - by rewrite lookup_insert_eq, E.
  - by rewrite lookup_insert_ne.
Qed.

(** X26. Reading the statistics of a client makes the limiter know the
    client, but changes no answer: whatever requests follow, they are
    answered as if the statistics had not been read. *)
Theorem statistics_change_no_answer self client_id t calls :
  (serve (get_stats self client_id t).2 calls).1 = (serve self calls).1.
Proof. apply serve_same, get_stats_same. Qed.

(** X27. The statistics and the limiter agree: a request is allowed
    exactly when the statistics read at the same time show requests
    remaining, and the number that [is_allowed] returns with its answer is
    then one less than the statistics showed; with a denial it returns
    0. *)
Theorem statistics_tell_the_answer self client_id t :
  ∃ remaining,
    (get_stats self client_id t).1 !! "remaining" = Some (VInt remaining)
    ∧ 0 ≤ remaining
    ∧ (is_allowed self client_id t).1
      = (0 <? remaining, Z.max 0 (remaining - 1)).
Proof.
  eexists. split; [reflexivity|]. split; [lia|].
  unfold is_allowed, recent_requests. cbv zeta.
  set (count := len _). set (limit := requests_per_minute self).
  destruct (Z.leb_spec limit count); cbn [fst].
  - rewrite Z.max_l by lia. by rewrite Z.ltb_irrefl.
  - rewrite Z.max_r by lia. rewrite (proj2 (Z.ltb_lt 0 _)) by lia.
    f_equal. lia.
Qed.

End RateLimiterFacts.

(** * The cache *)

Module CacheFacts.
Import Py Cache CacheCases.

Section Cache.
Context (md5_hexdigest : str → str).

Lemma younger_false now stored ttl :
  younger now stored ttl = false ↔ (inject_Z ttl <= now - stored)%Q.
Proof.
  unfold younger. rewrite negb_false_iff. apply Qle_bool_iff.
Qed.

Lemma younger_true now stored ttl :
  younger now stored ttl = true ↔ (now - stored < inject_Z ttl)%Q.
Proof.
  unfold younger. rewrite negb_true_iff, <- not_true_iff_false, Qle_bool_iff.
  split; [apply Qnot_le_lt | apply Qlt_not_le].
Qed.

(** What is young at a time was young at any time before. *)
Lemma younger_before earlier now stored ttl :
  (earlier <= now)%Q → younger now stored ttl = true →
  younger earlier stored ttl = true.
Proof. rewrite !younger_true. intros. lra. Qed.

Lemma get_cache_key code language :
  encodable (code ++ lit ":" ++ language) = true →
  _get_cache_key md5_hexdigest code language
  = Ok (md5_hexdigest (code ++ lit ":" ++ language)).
Proof. unfold _get_cache_key. by intros ->. Qed.

(** What [set] leaves under the key: the new entry, unless the clean-up
    that follows finds it expired already. *)
Lemma set_lookup self code language result now later :
  encodable (code ++ lit ":" ++ language) = true →
  ttl (set md5_hexdigest self code language result now later).2 = ttl self
  ∧ ∃ stored,
      cache (set md5_hexdigest self code language result now later).2
        !! md5_hexdigest (code ++ lit ":" ++ language) = stored
      ∧ (stored = Some {| result_of := result; timestamp := now |}
         ∨ stored = None ∧ younger later now (ttl self) = false).
Proof.
  intros Henc. unfold set. rewrite get_cache_key by done. cbv zeta.
  destruct (1000 <? _); cbn [snd cache ttl _cleanup_old_entries].
  - split; [done|]. eexists. split; [done|].
    destruct (younger later now (ttl self)) eqn:E.
    + left. apply map_lookup_filter_Some. split; [apply lookup_insert_eq|].
      exact E.
    + right. split; [|done]. apply map_lookup_filter_None. right.
      intros e. rewrite lookup_insert_eq. intros [= <-]. simpl.
      by rewrite E.
  - split; [done|]. eexists. split; [done|]. left. apply lookup_insert_eq.
Qed.

Lemma get_after_set self code language code' language' result now later t :
  code ++ lit ":" ++ language = code' ++ lit ":" ++ language' →
  encodable (code ++ lit ":" ++ language) = true →
  (later <= t)%Q →
  (get md5_hexdigest
     (set md5_hexdigest self code language result now later).2
     code' language' t).1
  = Ok (if younger t now (ttl self) then Some result else None).
Proof.
  intros Hsame Henc Hle.
  destruct (set_lookup self code language result now later Henc)
    as (Httl & stored & Hlook & Hstored).
  unfold get. rewrite get_cache_key by (by rewrite <- Hsame).
  rewrite <- Hsame, Hlook, Httl.
  destruct Hstored as [->|[-> Hold]].
  - cbn [timestamp result_of]. by destruct (younger t now (ttl self)).
  - destruct (younger t now (ttl self)) eqn:E; [|done].
    by rewrite (younger_before later t now (ttl self) Hle E) in Hold.
Qed.

(** X28. A result that was stored is returned by [get] for the same code
    and language as long as fewer than [ttl] seconds have passed since the
    time of the [set], and no longer after that. *)
Theorem stored_result_until_it_expires self code language result now later t :
  encodable (code ++ lit ":" ++ language) = true →
  (later <= t)%Q →
  (get md5_hexdigest
     (set md5_hexdigest self code language result now later).2
     code language t).1
  = Ok (if younger t now (ttl self) then Some result else None).
Proof. intros. by apply get_after_set. Qed.

(** X29. The key is made of the text [code:language] only. Two requests
    whose code and language differ but whose texts agree share one entry:
    [get] returns for one of them the result stored for the other. *)
Theorem same_text_same_entry self code language code' language' result now
    later t :
  code ++ lit ":" ++ language = code' ++ lit ":" ++ language' →
  encodable (code ++ lit ":" ++ language) = true →
  (later <= t)%Q →
  younger t now (ttl self) = true →
  (get md5_hexdigest
     (set md5_hexdigest self code language result now later).2
     code' language' t).1
  = Ok (Some result).
Proof.
  intros Hsame Henc Hle Hyoung.
  rewrite (get_after_set _ _ _ _ _ _ _ _ _ Hsame Henc Hle). by rewrite Hyoung.
Qed.

(** X30. The clean-up is invisible to a reader: at any time that is not
    before the time of the clean-up, [get] answers the same with or without
    it. *)
Theorem cleanup_is_invisible self code language cleaned t :
  (cleaned <= t)%Q →
  (get md5_hexdigest (_cleanup_old_entries self cleaned) code language t).1
  = (get md5_hexdigest self code language t).1.
Proof.
  intros Hle. unfold get.
  destruct (_get_cache_key md5_hexdigest code language) as [key|e]; [|done].
  cbn [_cleanup_old_entries cache ttl].
  destruct (cache self !! key) as [cached_data|] eqn:Hlook.
  - destruct (younger t (timestamp cached_data) (ttl self)) eqn:E.
    + erewrite (proj2 (map_lookup_filter_Some _ _ key cached_data)).
      * by rewrite E.
      * split; [done|]. simpl. by eapply younger_before.
    + destruct (filter _ (cache self) !! key) as [kept|] eqn:Hkept; [|done].
      apply map_lookup_filter_Some in Hkept as [Hkept _].
      rewrite Hlook in Hkept. injection Hkept as <-. by rewrite E.
  - erewrite (proj2 (map_lookup_filter_None _ _ key)); [done|].
    by left.
Qed.

End Cache.

(** A result stored at time 100 is returned at time 200. *)
Lemma stored_result_until_it_expires_witness :
  encodable (lit "x = 1" ++ lit ":" ++ lit "python") = true
  ∧ (100 <= 200)%Q
  ∧ (get plain_digest
       (set plain_digest analysis_cache (lit "x = 1") (lit "python")
          sample_result 100%Q 100%Q).2
       (lit "x = 1") (lit "python") 200%Q).1
    = Ok (Some sample_result).
Proof.
  assert (100 <= 200)%Q as Hle by (by vm_compute).
  split; [reflexivity|]. split; [exact Hle|].
  exact (stored_result_until_it_expires plain_digest analysis_cache
           (lit "x = 1") (lit "python") sample_result 100%Q 100%Q 200%Q
           eq_refl Hle).
Defined.

(** The code [a:b] in the language [c] and the code [a] in the language
    [b:c]. *)
Lemma same_text_same_entry_witness :
  (lit "a:b", lit "c") ≠ (lit "a", lit "b:c")
  ∧ (get plain_digest
       (set plain_digest analysis_cache (lit "a:b") (lit "c")
          sample_result 100%Q 100%Q).2
       (lit "a") (lit "b:c") 200%Q).1
    = Ok (Some sample_result).
Proof.
  assert (100 <= 200)%Q as Hle by (by vm_compute).
  split; [discriminate|].
  exact (same_text_same_entry plain_digest analysis_cache
           (lit "a:b") (lit "c") (lit "a") (lit "b:c") sample_result
           100%Q 100%Q 200%Q eq_refl eq_refl Hle eq_refl).
Defined.

(** A cache with a result stored at time 0 and another stored at time
    4000, an hour being 3600 seconds: the clean-up at time 4000 removes the
    first, and a reader at time 4100 gets the second with or without it. *)
Lemma cleanup_is_invisible_witness :
  (4000 <= 4100)%Q
  ∧ cache stocked !! (lit "old" ++ lit ":" ++ lit "python")
    = Some {| result_of := sample_result; timestamp := 0 |}
  ∧ cache (_cleanup_old_entries stocked 4000%Q)
      !! (lit "old" ++ lit ":" ++ lit "python") = None
  ∧ (get plain_digest stocked (lit "x = 1") (lit "python") 4100%Q).1
    = Ok (Some sample_result)
  ∧ (get plain_digest (_cleanup_old_entries stocked 4000%Q)
       (lit "x = 1") (lit "python") 4100%Q).1
    = (get plain_digest stocked (lit "x = 1") (lit "python") 4100%Q).1.
Proof.
  assert (4000 <= 4100)%Q as Hle by (by vm_compute).
  split; [exact Hle|]. split; [by vm_compute|]. split; [by vm_compute|].
  split; [by vm_compute|].
  exact (cleanup_is_invisible plain_digest stocked
           (lit "x = 1") (lit "python") 4000%Q 4100%Q Hle).
Defined.

End CacheFacts.
